(** * The sync controller of the federation control plane

    A shallow embedding of [pkg/controller/sync/controller.go]: the
    reconcile engine, propagation to member clusters, the status writer
    and the finalizer-gated deletion protocol.

    The controller talks to collaborators whose code lives elsewhere (the
    cluster informer, the federated resource accessor, the host-store
    client, the dispatchers).  Their answers are the fields of the record
    [FederationSyncController]; every call that has an effect outside the
    controller is recorded, in program order, in a list of [Event]s. *)

From Stdlib Require Import ZArith.
From stdpp Require Import base option list gmap strings.

Open Scope string_scope.
Open Scope list_scope.

(** ** Data model *)

Record QualifiedName := { qn_Namespace : string; qn_Name : string }.

(** Modelled from the spec: util.QualifiedName.String is not among the
    sources; 6 (External interfaces) names the cache key a
    "namespace/name key". *)
Definition QualifiedName_String (n : QualifiedName) : string :=
  qn_Namespace n +:+ "/" +:+ qn_Name n.

(** util.ReconciliationStatus: the return contract of [reconcile]. *)
Inductive ReconciliationStatus :=
  | StatusAllOK
  | StatusNeedsRecheck
  | StatusError
  | StatusNotSynced.

(** status.PropagationStatus: the per-cluster outcome codes the controller
    itself records, and the two families produced by the dispatcher. *)
Inductive PropagationStatus :=
  | ClusterPropagationOK
  | WaitingForRemoval
  | ClusterNotReady
  | CachedRetrievalFailed
  | OperationFailed (reason : string).

(** status.AggregateReason. *)
Inductive AggregateReason :=
  | AggregateSuccess
  | ClusterRetrievalFailed
  | ComputePlacementFailed.

(** Modelled from the spec: package status is not among the sources; 4.2
    names the reason codes that are recorded on the resource. *)
Definition AggregateReason_string (r : AggregateReason) : string :=
  match r with
  | AggregateSuccess => "AggregateSuccess"
  | ClusterRetrievalFailed => "ClusterRetrievalFailed"
  | ComputePlacementFailed => "ComputePlacementFailed"
  end.

(** Go errors.  [ApiError] is an error handed back by a collaborator
    ([conflict] tells whether apierrors.IsConflict holds of it); [Errorf]
    is errors.New / errors.Errorf with its format and the cluster lists it
    prints; [Wrapf] is errors.Wrap / errors.Wrapf with its format. *)
Inductive error :=
  | ApiError (conflict : bool) (msg : string)
  | Errorf (format : string) (args : list string)
  | Wrapf (err : error) (format : string).

Definition IsConflict (err : error) : bool :=
  match err with
  | ApiError conflict _ => conflict
  | _ => false
  end.

(** wait.ErrWaitTimeout. *)
Definition ErrWaitTimeout : error := Errorf "timed out waiting for the condition" [].

Definition strings_Join (l : list string) (sep : string) : string := String.concat sep l.

(** The status sub-resource of a federated object. *)
Record GenericFederatedStatus := {
  status_Reason : AggregateReason;
  status_Clusters : gmap string PropagationStatus
}.

(** unstructured.Unstructured, restricted to the metadata and status the
    controller reads and writes.  A nil annotation map is [None]. *)
Record Unstructured := {
  GetNamespace : string;
  GetName : string;
  GetDeletionTimestamp : option Z;
  GetFinalizers : list string;
  GetAnnotations : option (gmap string string);
  GetStatus : option GenericFederatedStatus
}.

Definition SetFinalizers (obj : Unstructured) (finalizers : list string) : Unstructured :=
  {| GetNamespace := GetNamespace obj;
     GetName := GetName obj;
     GetDeletionTimestamp := GetDeletionTimestamp obj;
     GetFinalizers := finalizers;
     GetAnnotations := GetAnnotations obj;
     GetStatus := GetStatus obj |}.

Record KubefedClusterStatus := { status_Ready : bool }.

Record KubefedCluster := {
  cluster_Name : string;
  cluster_Status : KubefedClusterStatus
}.

(** Modelled from the spec: util.IsClusterReady is not among the sources;
    3 (Data model) gives a ClusterSnapshot "a member cluster's name,
    readiness flag". *)
Definition IsClusterReady (clusterStatus : KubefedClusterStatus) : bool :=
  status_Ready clusterStatus.

Abbreviation VersionMap := (gmap string string).
Abbreviation PropagationStatusMap := (gmap string PropagationStatus).

(** The constants of the source file. *)
Definition FinalizerSyncController : string := "kubefed.k8s.io/sync-controller".
Definition OrphanManagedResources : string := "kubefed.k8s.io/orphan".

(** time.Duration counts nanoseconds. *)
Definition Second : Z := 1000000000.

(** ** Dispatchers *)

Inductive DispatcherKind :=
  | ManagedDispatcher
  | UnmanagedDispatcher
  | CheckUnmanagedDispatcher.

Inductive Operation :=
  | OpCreate
  | OpUpdate
  | OpDelete
  | OpRemoveManagedLabel
  | OpCheckRemovedOrUnlabeled.

(** What an uncached read of a member cluster finds for the target
    identity. *)
Inductive MemberState :=
  | MemberAbsent
  | MemberUnlabeled
  | MemberManaged
  | MemberUnreachable.

(** ** Events *)

Inductive Event :=
  | EvLog (verbosity : nat) (format : string)
  | EvHandleError (err : error)
  | EvFederatedResource (qualifiedName : QualifiedName)
  | EvComputePlacement
  | EvRecordError (reason : string) (err : error)
  | EvDeleteVersions
  | EvUpdateVersions (selectedClusters : list string) (versionMap : VersionMap)
  | EvOperation (d : DispatcherKind) (op : Operation) (clusterName : string)
  | EvRecordClusterError (status : PropagationStatus) (clusterName : string) (err : error)
  | EvRecordStatus (clusterName : string) (status : PropagationStatus)
  | EvWait (d : DispatcherKind)
  | EvPollImmediate (interval timeout : Z)
  | EvSetPropagationStatus (obj : Unstructured) (reason : AggregateReason)
      (statusMap : PropagationStatusMap)
  | EvUpdateStatus (obj : Unstructured) (err : option error)
  | EvGet (namespace name : string) (fetched : Unstructured) (err : option error)
  | EvUpdate (obj : Unstructured) (err : option error).

(** ** The FederatedResource interface

    The methods the controller calls on a federated resource.  [Object]
    is the host-store object as the accessor handed it over. *)
Record FederatedResource := {
  Object : Unstructured;
  FederatedName : QualifiedName;
  FederatedKind : string;
  TargetName : QualifiedName;
  TargetKind : string;
  ComputePlacement : list KubefedCluster -> gset string * option error;
  IsNamespaceInHostCluster : Unstructured -> bool;
  UpdateVersions : list string -> VersionMap -> option error
}.

(** A dispatcher object: the operations and statuses recorded so far. *)
Record Dispatcher := {
  d_kind : DispatcherKind;
  d_operations : list (Operation * string);
  d_recorded : list (string * PropagationStatus)
}.

(** The three places that list the member clusters. *)
Inductive ClusterListing :=
  | ForSync
  | ForDeletion
  | ForCheck.

(** ** The controller and its collaborators

    Each field is the answer of a collaborator.  Host-store answers may
    change between the attempts of a poll, so they take the number of
    poll ticks elapsed. *)
Record FederationSyncController := {
  (* s.informer *)
  informer_ClustersSynced : bool;
  informer_GetReadyClusters : list KubefedCluster * option error;
  informer_GetClusters : ClusterListing -> list KubefedCluster * option error;
  targetStore_Synced : string -> bool;
  targetStore_GetByKey : string -> string -> option Unstructured * option error;
  (* s.fedAccessor *)
  fedAccessor_HasSynced : bool;
  fedAccessor_FederatedResource :
    QualifiedName -> option FederatedResource * bool * option error;
  (* s.typeConfig *)
  typeConfig_FederatedKind : string;
  typeConfig_TargetKind : string;
  (* s.hostClusterClient *)
  hostClusterClient_Update : Unstructured -> option error;
  hostClusterClient_UpdateStatus : nat -> Unstructured -> option error;
  hostClusterClient_Get : nat -> string -> string -> Unstructured * option error;
  (* member clusters, as the dispatched operations find them *)
  member_OperationOK : DispatcherKind -> Operation -> string -> bool;
  member_State : string -> MemberState;
  dispatch_TimedOut : DispatcherKind -> bool;
  dispatch_StatusMap : Dispatcher -> PropagationStatusMap;
  dispatch_VersionMap : Dispatcher -> VersionMap;
  (* package status *)
  status_SetPropagationStatus :
    Unstructured -> AggregateReason -> PropagationStatusMap ->
    Unstructured * option error;
  (* package wait: ticks the poller delivers before the timeout *)
  wait_Ticks : Z -> Z -> nat;
  skipAdoptingResources : bool
}.

(** ** The monad of a reconcile

    A computation reads and writes the in-memory object behind
    fedResource.Object() and the poll clock, and emits events. *)
Record State := {
  st_obj : Unstructured;
  st_tick : nat
}.

Definition M (A : Type) : Type := State -> A * State * list Event.

Definition ret {A} (a : A) : M A := fun st => (a, st, []).

Definition bind {A B} (m : M A) (k : A -> M B) : M B :=
  fun st =>
    let '(a, st1, t1) := m st in
    let '(b, st2, t2) := k a st1 in
    (b, st2, t1 ++ t2).

Declare Scope controller_scope.
Delimit Scope controller_scope with ctl.
Notation "x <- m ;; k" := (bind m (fun x => k))
  (at level 100, m at next level, right associativity) : controller_scope.
Notation "m ;; k" := (bind m (fun _ => k))
  (at level 100, right associativity) : controller_scope.
Open Scope controller_scope.

Definition emit (e : Event) : M unit := fun st => (tt, st, [e]).
Definition getObj : M Unstructured := fun st => (st_obj st, st, []).
Definition setObj (obj : Unstructured) : M unit :=
  fun st => (tt, {| st_obj := obj; st_tick := st_tick st |}, []).
Definition getTick : M nat := fun st => (st_tick st, st, []).
Definition tick : M unit :=
  fun st => (tt, {| st_obj := st_obj st; st_tick := S (st_tick st) |}, []).

Definition value {A} (r : A * State * list Event) : A := r.1.1.
Definition final {A} (r : A * State * list Event) : State := r.1.2.
Definition events {A} (r : A * State * list Event) : list Event := r.2.

Definition klog_Infof (verbosity : nat) (format : string) : M unit :=
  emit (EvLog verbosity format).
Definition runtime_HandleError (err : error) : M unit := emit (EvHandleError err).

(** for _, x := range xs { body }, with the variables the body updates
    threaded through as [l]. *)
Fixpoint for_range {A L} (xs : list A) (body : A -> L -> M L) (l : L) : M L :=
  match xs with
  | [] => ret l
  | x :: xs' => l' <- body x l ;; for_range xs' body l'
  end.

(** ** Collaborators modelled by their contract *)

(** sets.String.Has on the finalizer list. *)
Definition sets_Has (l : list string) (x : string) : bool := bool_decide (x ∈ l).

(** Indexing a Go map: the zero value when the key is absent. *)
Definition map_index (m : gmap string string) (k : string) : string := default "" (m !! k).

(** Modelled from the spec: finalizersutil.AddFinalizers is not among the
    sources.  4.1: the engine "idempotently ensures the finalizer token is
    present (a no-op write is skipped if already present)"; the first
    component tells whether the object changed. *)
Definition AddFinalizers (obj : Unstructured) (finalizers : list string)
  : Unstructured * bool * option error :=
  let missing := filter (fun f => f ∉ GetFinalizers obj) finalizers in
  match missing with
  | [] => (obj, false, None)
  | _ => (SetFinalizers obj (GetFinalizers obj ++ missing), true, None)
  end.

(** Modelled from the spec: finalizersutil.RemoveFinalizers is not among
    the sources.  3: the finalizer token is "a marker string in the
    resource's metadata finalizer set"; removing takes the given tokens
    out of that set and tells whether the object changed. *)
Definition RemoveFinalizers (obj : Unstructured) (finalizers : list string)
  : Unstructured * bool * option error :=
  let kept := filter (fun f => f ∉ finalizers) (GetFinalizers obj) in
  if bool_decide (kept = GetFinalizers obj)
  then (obj, false, None)
  else (SetFinalizers obj kept, true, None).

(** Modelled from the spec: the target store of util.FederatedInformer is
    not among the sources.  4.1: the precondition holds when "for every
    ready cluster ... that cluster's local object cache is synced". *)
Definition targetStore_ClustersSynced (s : FederationSyncController)
    (clusters : list KubefedCluster) : bool :=
  forallb (fun cluster => targetStore_Synced s (cluster_Name cluster)) clusters.

Definition NewManagedDispatcher : Dispatcher :=
  {| d_kind := ManagedDispatcher; d_operations := []; d_recorded := [] |}.
Definition NewUnmanagedDispatcher : Dispatcher :=
  {| d_kind := UnmanagedDispatcher; d_operations := []; d_recorded := [] |}.
Definition NewCheckUnmanagedDispatcher : Dispatcher :=
  {| d_kind := CheckUnmanagedDispatcher; d_operations := []; d_recorded := [] |}.

(** Modelled from the spec: package dispatch is not among the sources.
    4.3: "the engine records intended per-cluster operations"; the
    operation is only recorded here, its outcome is seen at [Dispatcher_Wait]. *)
Definition Dispatcher_record (d : Dispatcher) (op : Operation) (clusterName : string)
  : M Dispatcher :=
  emit (EvOperation (d_kind d) op clusterName) ;;
  ret {| d_kind := d_kind d;
         d_operations := d_operations d ++ [(op, clusterName)];
         d_recorded := d_recorded d |}.

Definition Dispatcher_Create (d : Dispatcher) (clusterName : string) : M Dispatcher :=
  Dispatcher_record d OpCreate clusterName.
Definition Dispatcher_Update (d : Dispatcher) (clusterName : string)
    (clusterObj : Unstructured) : M Dispatcher :=
  Dispatcher_record d OpUpdate clusterName.
Definition Dispatcher_Delete (d : Dispatcher) (clusterName : string) : M Dispatcher :=
  Dispatcher_record d OpDelete clusterName.
Definition Dispatcher_RemoveManagedLabel (d : Dispatcher) (clusterName : string)
    (clusterObj : Unstructured) : M Dispatcher :=
  Dispatcher_record d OpRemoveManagedLabel clusterName.
Definition Dispatcher_CheckRemovedOrUnlabeled (d : Dispatcher) (clusterName : string)
    (isHostNamespace : Unstructured -> bool) : M Dispatcher :=
  Dispatcher_record d OpCheckRemovedOrUnlabeled clusterName.

(** Modelled from the spec: package dispatch is not among the sources.
    2: the managed dispatcher "accumulates per-cluster status"; a status
    recorded by the engine is kept for the status map. *)
Definition Dispatcher_RecordClusterError (d : Dispatcher) (status : PropagationStatus)
    (clusterName : string) (err : error) : M Dispatcher :=
  emit (EvRecordClusterError status clusterName err) ;;
  ret {| d_kind := d_kind d;
         d_operations := d_operations d;
         d_recorded := d_recorded d ++ [(clusterName, status)] |}.

Definition Dispatcher_RecordStatus (d : Dispatcher) (clusterName : string)
    (status : PropagationStatus) : M Dispatcher :=
  emit (EvRecordStatus clusterName status) ;;
  ret {| d_kind := d_kind d;
         d_operations := d_operations d;
         d_recorded := d_recorded d ++ [(clusterName, status)] |}.

(** Modelled from the spec: package dispatch is not among the sources.
    4.3: the check variant "verifies per cluster that the target identity
    is either absent or present-but-unlabeled"; a mutation succeeds or
    fails as the member cluster answers. *)
Definition operationResult (s : FederationSyncController) (kind : DispatcherKind)
    (operation : Operation * string) : bool :=
  match operation.1 with
  | OpCheckRemovedOrUnlabeled =>
      match member_State s operation.2 with
      | MemberAbsent | MemberUnlabeled => true
      | MemberManaged | MemberUnreachable => false
      end
  | op => member_OperationOK s kind op operation.2
  end.

(** Modelled from the spec: package dispatch is not among the sources.
    4.3: "a single Wait() call blocks until all recorded operations finish
    or a shared deadline elapses, returning an overall success flag and an
    optional timeout error". *)
Definition Dispatcher_Wait (s : FederationSyncController) (d : Dispatcher)
  : M (bool * option error) :=
  emit (EvWait (d_kind d)) ;;
  if dispatch_TimedOut s (d_kind d)
  then ret (false, Some (Errorf "Failed to finish %d operations in %v" []))
  else ret (forallb (operationResult s (d_kind d)) (d_operations d), None).

(** wait.PollImmediate (k8s.io/apimachinery): the condition is tried at
    once and then at every tick of the poller, until it reports done or an
    error; when the ticks run out the result is wait.ErrWaitTimeout. *)
Fixpoint PollImmediate_loop (ticks : nat) (condition : M (bool * option error))
  : M (option error) :=
  r <- condition ;;
  match r.2 with
  | Some err => ret (Some err)
  | None =>
      if r.1 then ret None
      else match ticks with
           | O => ret (Some ErrWaitTimeout)
           | S ticks' => tick ;; PollImmediate_loop ticks' condition
           end
  end.

Definition wait_PollImmediate (s : FederationSyncController) (interval timeout : Z)
    (condition : M (bool * option error)) : M (option error) :=
  emit (EvPollImmediate interval timeout) ;;
  PollImmediate_loop (wait_Ticks s interval timeout) condition.

(** ** The controller *)

Section Controller.

Variable s : FederationSyncController.

Definition FederatedResource_RecordError (fedResource : FederatedResource)
    (reason : string) (err : error) : M unit :=
  emit (EvRecordError reason err).

Definition FederatedResource_DeleteVersions (fedResource : FederatedResource) : M unit :=
  emit EvDeleteVersions.

Definition FederatedResource_UpdateVersions (fedResource : FederatedResource)
    (selectedClusters : list string) (versionMap : VersionMap) : M (option error) :=
  emit (EvUpdateVersions selectedClusters versionMap) ;;
  ret (UpdateVersions fedResource selectedClusters versionMap).

Definition FederatedResource_ComputePlacement (fedResource : FederatedResource)
    (clusters : list KubefedCluster) : M (gset string * option error) :=
  emit EvComputePlacement ;;
  ret (ComputePlacement fedResource clusters).

Definition hostClusterClient_Update_call (obj : Unstructured) : M (option error) :=
  let err := hostClusterClient_Update s obj in
  emit (EvUpdate obj err) ;; ret err.

(** Check whether all data stores are in sync. *)
Definition isSynced : M bool :=
  if negb (informer_ClustersSynced s) then
    klog_Infof 2 "Cluster list not synced" ;;
    ret false
  else if negb (fedAccessor_HasSynced s) then
    ret false
  else
    let '(clusters, err) := informer_GetReadyClusters s in
    match err with
    | Some err =>
        runtime_HandleError (Wrapf err "Failed to get ready clusters") ;;
        ret false
    | None =>
        if negb (targetStore_ClustersSynced s clusters) then ret false
        else ret true
    end.

Definition ensureFinalizer (fedResource : FederatedResource) : M (option error) :=
  obj <- getObj ;;
  let '(obj', isUpdated, err) := AddFinalizers obj [FinalizerSyncController] in
  setObj obj' ;;
  if bool_decide (err <> None) || negb isUpdated then ret err
  else
    klog_Infof 2 "Adding finalizer %s to %s %q" ;;
    hostClusterClient_Update_call obj'.

Definition removeFinalizer (fedResource : FederatedResource) : M (option error) :=
  obj <- getObj ;;
  let '(obj', isUpdated, err) := RemoveFinalizers obj [FinalizerSyncController] in
  setObj obj' ;;
  if bool_decide (err <> None) || negb isUpdated then ret err
  else
    klog_Infof 2 "Removing finalizer %s from %s %q" ;;
    hostClusterClient_Update_call obj'.

(** The function handed to wait.PollImmediate by [setPropagationStatus]. *)
Definition setPropagationStatus_condition (reason : AggregateReason)
    (statusMap : PropagationStatusMap) : M (bool * option error) :=
  obj <- getObj ;;
  emit (EvSetPropagationStatus obj reason statusMap) ;;
  let '(obj', err) := status_SetPropagationStatus s obj reason statusMap in
  setObj obj' ;;
  match err with
  | Some err => ret (false, Some (Wrapf err "failed to set the status"))
  | None =>
      now <- getTick ;;
      let err := hostClusterClient_UpdateStatus s now obj' in
      emit (EvUpdateStatus obj' err) ;;
      match err with
      | None => ret (true, None)
      | Some err =>
          if IsConflict err then
            klog_Infof 2
              "Failed to set propagation status for %s %q due to conflict (will retry): %v." ;;
            let '(fetched, err) :=
              hostClusterClient_Get s now (GetNamespace obj') (GetName obj') in
            emit (EvGet (GetNamespace obj') (GetName obj') fetched err) ;;
            match err with
            | Some err => ret (false, Some (Wrapf err "failed to retrieve resource"))
            | None => setObj fetched ;; ret (false, None)
            end
          else ret (false, Some (Wrapf err "failed to update resource"))
      end
  end.

Definition setPropagationStatus (fedResource : FederatedResource)
    (reason : AggregateReason) (statusMap : PropagationStatusMap)
  : M ReconciliationStatus :=
  let kind := FederatedKind fedResource in
  let name := QualifiedName_String (FederatedName fedResource) in
  err <- wait_PollImmediate s (1 * Second) (5 * Second)
           (setPropagationStatus_condition reason statusMap) ;;
  match err with
  | Some err =>
      runtime_HandleError
        (Wrapf err "failed to set propagation status for %s %q") ;;
      ret StatusError
  | None => ret StatusAllOK
  end.

(** The body of the loop of [syncToClusters]: the decision for one cluster. *)
Definition syncToClusters_body (fedResource : FederatedResource)
    (selectedClusterNames : gset string) (key : string)
    (cluster : KubefedCluster) (dispatcher : Dispatcher) : M Dispatcher :=
  let clusterName := cluster_Name cluster in
  let selectedCluster := bool_decide (clusterName ∈ selectedClusterNames) in
  if negb (IsClusterReady (cluster_Status cluster)) then
    if selectedCluster then
      let err := Errorf "Cluster not ready" [] in
      Dispatcher_RecordClusterError dispatcher ClusterNotReady clusterName err
    else ret dispatcher
  else
    let '(rawClusterObj, err) := targetStore_GetByKey s clusterName key in
    match err with
    | Some err =>
        let wrappedErr := Wrapf err "Failed to retrieve cached cluster object" in
        Dispatcher_RecordClusterError dispatcher CachedRetrievalFailed clusterName wrappedErr
    | None =>
        let clusterObj := rawClusterObj in
        if negb selectedCluster then
          match clusterObj with
          | None => ret dispatcher
          | Some clusterObj =>
              if bool_decide (GetDeletionTimestamp clusterObj <> None) then
                Dispatcher_RecordStatus dispatcher clusterName WaitingForRemoval
              else if IsNamespaceInHostCluster fedResource clusterObj then
                Dispatcher_RemoveManagedLabel dispatcher clusterName clusterObj
              else
                Dispatcher_Delete dispatcher clusterName
          end
        else
          match clusterObj with
          | None => Dispatcher_Create dispatcher clusterName
          | Some clusterObj => Dispatcher_Update dispatcher clusterName clusterObj
          end
    end.

(** syncToClusters ensures that the state of the given object is
    synchronized to member clusters. *)
Definition syncToClusters (fedResource : FederatedResource) : M ReconciliationStatus :=
  let '(clusters, err) := informer_GetClusters s ForSync in
  match err with
  | Some err =>
      FederatedResource_RecordError fedResource
        (AggregateReason_string ClusterRetrievalFailed)
        (Wrapf err "Failed to retrieve list of clusters") ;;
      setPropagationStatus fedResource ClusterRetrievalFailed ∅
  | None =>
      placement <- FederatedResource_ComputePlacement fedResource clusters ;;
      let '(selectedClusterNames, err) := placement in
      match err with
      | Some err =>
          FederatedResource_RecordError fedResource
            (AggregateReason_string ComputePlacementFailed)
            (Wrapf err "Failed to compute placement") ;;
          setPropagationStatus fedResource ComputePlacementFailed ∅
      | None =>
          let kind := TargetKind fedResource in
          let key := QualifiedName_String (TargetName fedResource) in
          klog_Infof 4 "Syncing %s %q in underlying clusters, selected clusters are: %s" ;;
          let dispatcher := NewManagedDispatcher in
          dispatcher <- for_range clusters
                          (syncToClusters_body fedResource selectedClusterNames key)
                          dispatcher ;;
          waited <- Dispatcher_Wait s dispatcher ;;
          match waited.2 with
          | Some timeoutErr =>
              FederatedResource_RecordError fedResource "OperationTimeoutError" timeoutErr
          | None => ret tt
          end ;;
          let updatedVersionMap := dispatch_VersionMap s dispatcher in
          err <- FederatedResource_UpdateVersions fedResource
                   (elements selectedClusterNames) updatedVersionMap ;;
          match err with
          | Some err => runtime_HandleError err
          | None => ret tt
          end ;;
          let statusMap := dispatch_StatusMap s dispatcher in
          setPropagationStatus fedResource AggregateSuccess statusMap
      end
  end.

(** The variables of the loop of [handleDeletionInClusters]; [dv_captured]
    holds the variables of the caller that the deletion handler closes
    over and updates. *)
Record DeletionVars (C : Type) := {
  dv_dispatcher : Dispatcher;
  dv_retrievalFailureClusters : list string;
  dv_unreadyClusters : list string;
  dv_captured : C
}.
Arguments dv_dispatcher {C} _.
Arguments dv_retrievalFailureClusters {C} _.
Arguments dv_unreadyClusters {C} _.
Arguments dv_captured {C} _.

Definition deletionFunc (C : Type) : Type :=
  Dispatcher -> string -> Unstructured -> C -> M (Dispatcher * C).

Definition handleDeletionInClusters_body {C} (kind key : string)
    (deletionFunc : deletionFunc C) (cluster : KubefedCluster)
    (v : DeletionVars C) : M (DeletionVars C) :=
  let clusterName := cluster_Name cluster in
  if negb (IsClusterReady (cluster_Status cluster)) then
    ret {| dv_dispatcher := dv_dispatcher v;
           dv_retrievalFailureClusters := dv_retrievalFailureClusters v;
           dv_unreadyClusters := dv_unreadyClusters v ++ [clusterName];
           dv_captured := dv_captured v |}
  else
    let '(rawClusterObj, err) := targetStore_GetByKey s clusterName key in
    match err with
    | Some err =>
        let wrappedErr :=
          Wrapf err "failed to retrieve %s %q for cluster %q" in
        runtime_HandleError wrappedErr ;;
        ret {| dv_dispatcher := dv_dispatcher v;
               dv_retrievalFailureClusters :=
                 dv_retrievalFailureClusters v ++ [clusterName];
               dv_unreadyClusters := dv_unreadyClusters v;
               dv_captured := dv_captured v |}
    | None =>
        match rawClusterObj with
        | None => ret v
        | Some clusterObj =>
            r <- deletionFunc (dv_dispatcher v) clusterName clusterObj (dv_captured v) ;;
            ret {| dv_dispatcher := r.1;
                   dv_retrievalFailureClusters := dv_retrievalFailureClusters v;
                   dv_unreadyClusters := dv_unreadyClusters v;
                   dv_captured := r.2 |}
        end
    end.

(** handleDeletionInClusters invokes the provided deletion handler for
    each managed resource in member clusters.  The third component is the
    final value of the variables captured by the handler. *)
Definition handleDeletionInClusters {C} (kind : string) (qualifiedName : QualifiedName)
    (deletionFunc : deletionFunc C) (captured : C) : M (bool * option error * C) :=
  let '(clusters, err) := informer_GetClusters s ForDeletion in
  match err with
  | Some err => ret (false, Some (Wrapf err "failed to get a list of clusters"), captured)
  | None =>
      let dispatcher := NewUnmanagedDispatcher in
      let key := QualifiedName_String qualifiedName in
      v <- for_range clusters (handleDeletionInClusters_body kind key deletionFunc)
             {| dv_dispatcher := dispatcher;
                dv_retrievalFailureClusters := [];
                dv_unreadyClusters := [];
                dv_captured := captured |} ;;
      waited <- Dispatcher_Wait s (dv_dispatcher v) ;;
      let '(ok, timeoutErr) := waited in
      match timeoutErr with
      | Some timeoutErr => ret (false, Some timeoutErr, dv_captured v)
      | None =>
          if (0 <? length (dv_retrievalFailureClusters v))%nat then
            ret (false,
                 Some (Errorf
                   "failed to retrieve a managed resource for the following cluster(s): %s"
                   [strings_Join (dv_retrievalFailureClusters v) ", "]),
                 dv_captured v)
          else if (0 <? length (dv_unreadyClusters v))%nat then
            ret (false,
                 Some (Errorf "the following clusters were not ready: %s"
                   [strings_Join (dv_unreadyClusters v) ", "]),
                 dv_captured v)
          else ret (ok, None, dv_captured v)
      end
  end.

(** The handler of [removeManagedLabel]; it captures nothing. *)
Definition removeManagedLabel_func : deletionFunc unit :=
  fun dispatcher clusterName clusterObj captured =>
    if bool_decide (GetDeletionTimestamp clusterObj <> None) then
      ret (dispatcher, captured)
    else
      dispatcher <- Dispatcher_RemoveManagedLabel dispatcher clusterName clusterObj ;;
      ret (dispatcher, captured).

(** removeManagedLabel attempts to remove the managed label from
    resources with the given name in member clusters. *)
Definition removeManagedLabel (kind : string) (qualifiedName : QualifiedName)
  : M (option error) :=
  r <- handleDeletionInClusters kind qualifiedName removeManagedLabel_func tt ;;
  let '(ok, err, _) := r in
  match err with
  | Some err => ret (Some err)
  | None =>
      if negb ok then
        ret (Some (Errorf
          "failed to remove the label from resources in one or more clusters." []))
      else ret None
  end.

(** The handler of [deleteFromClusters]; it captures remainingClusters. *)
Definition deleteFromClusters_func (fedResource : FederatedResource)
  : deletionFunc (list string) :=
  fun dispatcher clusterName clusterObj remainingClusters =>
    if IsNamespaceInHostCluster fedResource clusterObj
       && bool_decide (GetDeletionTimestamp clusterObj <> None) then
      ret (dispatcher, remainingClusters)
    else
      let remainingClusters := remainingClusters ++ [clusterName] in
      if bool_decide (GetDeletionTimestamp clusterObj <> None) then
        ret (dispatcher, remainingClusters)
      else if IsNamespaceInHostCluster fedResource clusterObj then
        dispatcher <- Dispatcher_RemoveManagedLabel dispatcher clusterName clusterObj ;;
        ret (dispatcher, remainingClusters)
      else
        dispatcher <- Dispatcher_Delete dispatcher clusterName ;;
        ret (dispatcher, remainingClusters).

Definition ensureRemovedOrUnmanaged_body (fedResource : FederatedResource)
    (cluster : KubefedCluster) (v : Dispatcher * list string)
  : M (Dispatcher * list string) :=
  let '(dispatcher, unreadyClusters) := v in
  if negb (IsClusterReady (cluster_Status cluster)) then
    ret (dispatcher, unreadyClusters ++ [cluster_Name cluster])
  else
    dispatcher <- Dispatcher_CheckRemovedOrUnlabeled dispatcher (cluster_Name cluster)
                    (IsNamespaceInHostCluster fedResource) ;;
    ret (dispatcher, unreadyClusters).

(** ensureRemovedOrUnmanaged ensures that no resources in member
    clusters that could be managed by the given federated resources are
    present or labeled as managed.  The checks are performed without
    the informer. *)
Definition ensureRemovedOrUnmanaged (fedResource : FederatedResource) : M (option error) :=
  let '(clusters, err) := informer_GetClusters s ForCheck in
  match err with
  | Some err => ret (Some (Wrapf err "failed to get a list of clusters"))
  | None =>
      let dispatcher := NewCheckUnmanagedDispatcher in
      let unreadyClusters := [] in
      v <- for_range clusters (ensureRemovedOrUnmanaged_body fedResource)
             (dispatcher, unreadyClusters) ;;
      let '(dispatcher, unreadyClusters) := v in
      waited <- Dispatcher_Wait s dispatcher ;;
      let '(ok, timeoutErr) := waited in
      match timeoutErr with
      | Some timeoutErr => ret (Some timeoutErr)
      | None =>
          if (0 <? length unreadyClusters)%nat then
            ret (Some (Errorf "the following clusters were not ready: %s"
                         [strings_Join unreadyClusters ", "]))
          else if negb ok then
            ret (Some (Errorf "one or more checks failed" []))
          else ret None
      end
  end.

Definition deleteFromClusters (fedResource : FederatedResource)
  : M (bool * option error) :=
  let kind := TargetKind fedResource in
  let qualifiedName := TargetName fedResource in
  let remainingClusters := [] in
  r <- handleDeletionInClusters kind qualifiedName
         (deleteFromClusters_func fedResource) remainingClusters ;;
  let '(ok, err, remainingClusters) := r in
  match err with
  | Some err => ret (false, Some err)
  | None =>
      if negb ok then
        ret (false,
             Some (Errorf
               "failed to remove managed resources from one or more clusters." []))
      else if (0 <? length remainingClusters)%nat then
        klog_Infof 2
          "Waiting for resources managed by %s %q to be removed from the following clusters: %s" ;;
        ret (true, None)
      else
        err <- ensureRemovedOrUnmanaged fedResource ;;
        match err with
        | Some err =>
            ret (false,
                 Some (Wrapf err
                   "failed to verify that managed resources no longer exist in any cluster"))
        | None =>
            (* Managed resources no longer exist in any member cluster *)
            err <- removeFinalizer fedResource ;;
            ret (false, err)
        end
  end.

Definition orphanResources (obj : Unstructured) : bool :=
  let annotations := GetAnnotations obj in
  match annotations with
  | None => false
  | Some annotations =>
      bool_decide (map_index annotations OrphanManagedResources = "true")
  end.

Definition ensureDeletion (fedResource : FederatedResource) : M ReconciliationStatus :=
  FederatedResource_DeleteVersions fedResource ;;
  let key := QualifiedName_String (FederatedName fedResource) in
  let kind := FederatedKind fedResource in
  klog_Infof 2 "Ensuring deletion of %s %q" ;;
  obj <- getObj ;;
  let finalizers := GetFinalizers obj in
  if negb (sets_Has finalizers FinalizerSyncController) then
    klog_Infof 2 "%s %q does not have the %q finalizer. Nothing to do." ;;
    ret StatusAllOK
  else if orphanResources obj then
    klog_Infof 2 "Found %q annotation on %s %q. Removing the finalizer." ;;
    err <- removeFinalizer fedResource ;;
    match err with
    | Some err =>
        let wrappedErr :=
          Wrapf err "failed to remove finalizer %q from %s %q" in
        runtime_HandleError wrappedErr ;;
        ret StatusError
    | None =>
        klog_Infof 2
          "Initiating the removal of the label %q from resources previously managed by %s %q." ;;
        err <- removeManagedLabel (TargetKind fedResource) (TargetName fedResource) ;;
        match err with
        | Some err =>
            let wrappedErr :=
              Wrapf err
                "failed to remove the label %q from all resources previously managed by %s %q" in
            runtime_HandleError wrappedErr ;;
            ret StatusError
        | None => ret StatusAllOK
        end
    end
  else
    klog_Infof 2 "Deleting resources managed by %s %q from member clusters." ;;
    r <- deleteFromClusters fedResource ;;
    let '(recheckRequired, err) := r in
    match err with
    | Some err =>
        let wrappedErr := Wrapf err "failed to delete %s %q" in
        runtime_HandleError wrappedErr ;;
        ret StatusError
    | None =>
        if recheckRequired then ret StatusNeedsRecheck
        else ret StatusAllOK
    end.

Definition reconcile (qualifiedName : QualifiedName) : M ReconciliationStatus :=
  synced <- isSynced ;;
  if negb synced then ret StatusNotSynced
  else
    let kind := typeConfig_FederatedKind s in
    emit (EvFederatedResource qualifiedName) ;;
    let '(fedResource, possibleOrphan, err) :=
      fedAccessor_FederatedResource s qualifiedName in
    match err with
    | Some err =>
        runtime_HandleError
          (Wrapf err "Error creating FederatedResource helper for %s %q") ;;
        ret StatusError
    | None =>
        if possibleOrphan then
          let targetKind := typeConfig_TargetKind s in
          klog_Infof 2
            "Ensuring the removal of the label %q from %s %q in member clusters." ;;
          err <- removeManagedLabel targetKind qualifiedName ;;
          match err with
          | Some err =>
              let wrappedErr :=
                Wrapf err "failed to remove the label %q from %s %q in member clusters" in
              runtime_HandleError wrappedErr ;;
              ret StatusError
          | None => ret StatusAllOK
          end
        else
          match fedResource with
          | None => ret StatusAllOK
          | Some fedResource =>
              (* from here on the state holds the object behind fedResource *)
              setObj (Object fedResource) ;;
              klog_Infof 4 "Starting to reconcile %s %q" ;;
              result <-
                (obj <- getObj ;;
                 if bool_decide (GetDeletionTimestamp obj <> None) then
                   klog_Infof 3 "Handling deletion of %s %q" ;;
                   ensureDeletion fedResource
                 else
                   klog_Infof 3 "Ensuring finalizer exists on %s %q" ;;
                   err <- ensureFinalizer fedResource ;;
                   match err with
                   | Some err =>
                       FederatedResource_RecordError fedResource "EnsureFinalizerError"
                         (Wrapf err "Failed to ensure finalizer") ;;
                       ret StatusError
                   | None => syncToClusters fedResource
                   end) ;;
              (* the deferred log call *)
              klog_Infof 4 "Finished reconciling %s %q (duration: %v)" ;;
              ret result
          end
    end.

End Controller.

Arguments dv_dispatcher {C} _.
Arguments dv_retrievalFailureClusters {C} _.
Arguments dv_unreadyClusters {C} _.
Arguments dv_captured {C} _.

(** * Verification *)

(** ** Reasoning about computations

    [post m st Q]: running [m] from [st] yields a value, a final state and
    events that satisfy [Q]. *)

Definition post {A} (m : M A) (st : State) (Q : A -> State -> list Event -> Prop) : Prop :=
  Q (value (m st)) (final (m st)) (events (m st)).

Lemma post_ret {A} (a : A) st (Q : A -> State -> list Event -> Prop) :
  Q a st [] -> post (ret a) st Q.
Proof. done. Qed.

Lemma post_bind {A B} (m : M A) (k : A -> M B) st (Q : B -> State -> list Event -> Prop) :
  post m st (fun a st1 t1 => post (k a) st1 (fun b st2 t2 => Q b st2 (t1 ++ t2))) ->
  post (bind m k) st Q.
Proof.
  unfold post, bind, value, final, events.
  destruct (m st) as [[a st1] t1]; simpl.
  destruct (k a st1) as [[b st2] t2]; simpl. done.
Qed.

Lemma post_mono {A} (m : M A) st (Q Q' : A -> State -> list Event -> Prop) :
  post m st Q -> (forall a st' t, Q a st' t -> Q' a st' t) -> post m st Q'.
Proof. unfold post. auto. Qed.

Lemma post_run {A} (m : M A) st (Q : A -> State -> list Event -> Prop) a st' t :
  m st = (a, st', t) -> Q a st' t -> post m st Q.
Proof. unfold post. intros ->. done. Qed.

Lemma run_eta {A} (r : A * State * list Event) : r = (value r, final r, events r).
Proof. by destruct r as [[??]?]. Qed.

(** The loop rule: [I done l st t] relates the clusters already visited
    to the loop variables, the state and the events emitted so far. *)
Lemma post_for_range {A L} (I : list A -> L -> State -> list Event -> Prop)
    (xs : list A) (body : A -> L -> M L) l st :
  I [] l st [] ->
  (forall done x l st t, x ∈ xs -> I done l st t ->
     post (body x l) st (fun l' st' t' => I (done ++ [x]) l' st' (t ++ t'))) ->
  post (for_range xs body l) st (I xs).
Proof.
  intros Hinit Hstep.
  assert (Hgen : forall todo done l st t,
    (forall x, x ∈ todo -> x ∈ xs) -> I done l st t ->
    post (for_range todo body l) st
      (fun l' st' t' => I (done ++ todo) l' st' (t ++ t'))).
  { induction todo as [|x todo IH]; intros done l0 st0 t Hsub HI; simpl.
    - apply post_ret. by rewrite !app_nil_r.
    - apply post_bind.
      eapply post_mono; [apply (Hstep done x l0 st0 t); [apply Hsub; left | done]|].
      intros l1 st1 t1 H1. simpl in H1.
      eapply post_mono; [apply (IH (done ++ [x]) l1 st1 (t ++ t1)); [|done]|].
      + intros y Hy. apply Hsub. by right.
      + intros l2 st2 t2. simpl. by rewrite <- !app_assoc. }
  specialize (Hgen xs [] l st [] (fun x H => H) Hinit). simpl in Hgen.
  exact Hgen.
Qed.

Ltac wp :=
  repeat first
    [ apply post_bind
    | progress (unfold post at 1;
                cbn [emit ret getObj setObj getTick tick value final events
                     fst snd klog_Infof runtime_HandleError app]) ].

(** One step of [wp] on a computation that is not a bind. *)
Ltac wp1 :=
  unfold post at 1;
  cbn [emit ret getObj setObj getTick tick value final events
       fst snd klog_Infof runtime_HandleError app].

(** ** Views of a cluster listing *)

Definition ready (c : KubefedCluster) : Prop :=
  IsClusterReady (cluster_Status c) = true.

Definition names (l : list KubefedCluster) : list string := cluster_Name <$> l.

Lemma filter_snoc {A} (P : A -> Prop) `{!forall x, Decision (P x)} (l : list A) (x : A) :
  filter P (l ++ [x]) = filter P l ++ (if decide (P x) then [x] else []).
Proof.
  by rewrite filter_app.
Qed.

Lemma filter_snoc_True {A} (P : A -> Prop) `{!forall x, Decision (P x)} (l : list A) (x : A) :
  P x -> filter P (l ++ [x]) = filter P l ++ [x].
Proof. intros HP. by rewrite filter_app, filter_cons_True. Qed.

Lemma filter_snoc_False {A} (P : A -> Prop) `{!forall x, Decision (P x)} (l : list A) (x : A) :
  ¬ P x -> filter P (l ++ [x]) = filter P l.
Proof. intros HP. by rewrite filter_app, filter_cons_False, app_nil_r. Qed.

Lemma length_pos_nil {A} (l : list A) : (0 <? length l)%nat = false <-> l = [].
Proof. destruct l; simpl; split; done. Qed.

Lemma names_filter_nil (P : KubefedCluster -> Prop) `{!forall x, Decision (P x)} l :
  names (filter P l) = [] <-> forall c, c ∈ l -> ¬ P c.
Proof.
  unfold names. split.
  - intros Hnil c Hc HP. apply fmap_nil_inv in Hnil.
    by eapply filter_nil_not_elem_of.
  - intros Hall. induction l as [|c l IH]; [done|].
    rewrite filter_cons_False by (apply Hall; left).
    apply IH. intros c' Hc'. apply Hall. by right.
Qed.

Lemma post_eq {A} (m : M A) st (a : A) st' t :
  post m st (fun a0 st0 t0 => a0 = a /\ st0 = st' /\ t0 = t) -> m st = (a, st', t).
Proof.
  unfold post. intros (Ha & Hs & Ht). rewrite (run_eta (m st)). by rewrite Ha, Hs, Ht.
Qed.

(** ** The authoritative check *)

Section Check.

Variable s : FederationSyncController.

Definition checkOperation (c : KubefedCluster) : Operation * string :=
  (OpCheckRemovedOrUnlabeled, cluster_Name c).

Definition checkEvent (c : KubefedCluster) : Event :=
  EvOperation CheckUnmanagedDispatcher OpCheckRemovedOrUnlabeled (cluster_Name c).

(** What [ensureRemovedOrUnmanaged] answers on a listing. *)
Definition checkVerdict (clusters : list KubefedCluster) : option error :=
  if dispatch_TimedOut s CheckUnmanagedDispatcher then
    Some (Errorf "Failed to finish %d operations in %v" [])
  else if (0 <? length (names (filter (fun c => ¬ ready c) clusters)))%nat then
    Some (Errorf "the following clusters were not ready: %s"
            [strings_Join (names (filter (fun c => ¬ ready c) clusters)) ", "])
  else if negb (forallb (operationResult s CheckUnmanagedDispatcher)
                  (checkOperation <$> filter ready clusters)) then
    Some (Errorf "one or more checks failed" [])
  else None.

Lemma ensureRemovedOrUnmanaged_loop fr clusters st :
  post (for_range clusters (ensureRemovedOrUnmanaged_body fr)
          (NewCheckUnmanagedDispatcher, [])) st
    (fun v st' t =>
       st' = st /\
       d_kind v.1 = CheckUnmanagedDispatcher /\
       d_operations v.1 = checkOperation <$> filter ready clusters /\
       v.2 = names (filter (fun c => ¬ ready c) clusters) /\
       t = checkEvent <$> filter ready clusters).
Proof.
  apply (post_for_range (fun done v st' t =>
       st' = st /\
       d_kind v.1 = CheckUnmanagedDispatcher /\
       d_operations v.1 = checkOperation <$> filter ready done /\
       v.2 = names (filter (fun c => ¬ ready c) done) /\
       t = checkEvent <$> filter ready done)); [done|].
  intros done x [d un] st1 t _ (-> & Hk & Hops & Hun & ->); simpl in *.
  unfold ensureRemovedOrUnmanaged_body, names.
  rewrite !filter_snoc, !fmap_app.
  destruct (decide (ready x)) as [Hr|Hr].
  - rewrite (decide_False (P := ¬ ready x)) by tauto.
    unfold ready in Hr. rewrite Hr. simpl.
    unfold Dispatcher_CheckRemovedOrUnlabeled, Dispatcher_record.
    wp. simpl. rewrite Hk, Hops, Hun, !app_nil_r. done.
  - rewrite (decide_True (P := ¬ ready x)) by done.
    apply not_true_is_false in Hr. rewrite Hr. simpl.
    wp. simpl. rewrite Hk, Hops, Hun, !app_nil_r. done.
Qed.

Lemma ensureRemovedOrUnmanaged_run fr st clusters :
  informer_GetClusters s ForCheck = (clusters, None) ->
  ensureRemovedOrUnmanaged s fr st =
    (checkVerdict clusters, st,
     (checkEvent <$> filter ready clusters) ++ [EvWait CheckUnmanagedDispatcher]).
Proof.
  intros Hget. apply post_eq.
  unfold ensureRemovedOrUnmanaged. rewrite Hget.
  apply post_bind.
  eapply post_mono; [apply ensureRemovedOrUnmanaged_loop|].
  intros [d un] st1 t (-> & Hk & Hops & Hun & ->); simpl in *.
  unfold Dispatcher_Wait, checkVerdict. rewrite Hk, Hops, <- Hun.
  wp.
  destruct (dispatch_TimedOut s CheckUnmanagedDispatcher); wp; [done|].
  destruct (0 <? length un)%nat; wp; [done|].
  destruct (forallb _ _); wp; done.
Qed.

Lemma ensureRemovedOrUnmanaged_run_err fr st clusters err :
  informer_GetClusters s ForCheck = (clusters, Some err) ->
  ensureRemovedOrUnmanaged s fr st =
    (Some (Wrapf err "failed to get a list of clusters"), st, []).
Proof. intros Hget. unfold ensureRemovedOrUnmanaged. by rewrite Hget. Qed.

(** The check passes exactly when it did not time out, every listed
    cluster is ready and every one is found absent or unlabeled. *)
Lemma checkVerdict_None clusters :
  checkVerdict clusters = None <->
  dispatch_TimedOut s CheckUnmanagedDispatcher = false /\
  (forall c, c ∈ clusters -> ready c) /\
  (forall c, c ∈ clusters ->
     member_State s (cluster_Name c) = MemberAbsent \/
     member_State s (cluster_Name c) = MemberUnlabeled).
Proof.
  unfold checkVerdict.
  destruct (dispatch_TimedOut s CheckUnmanagedDispatcher);
    [split; [done | by intros [? _]]|].
  destruct (0 <? length _)%nat eqn:Hlen.
  - split; [done|]. intros (_ & Hready & _).
    assert (Hnil : names (filter (fun c => ¬ ready c) clusters) = []).
    { apply names_filter_nil. intros c Hc Hn. apply Hn. by apply Hready. }
    rewrite Hnil in Hlen. done.
  - apply length_pos_nil in Hlen.
    assert (Hready : forall c, c ∈ clusters -> ready c).
    { intros c Hc. destruct (decide (ready c)) as [|Hn]; [done|].
      exfalso. eapply (proj1 (names_filter_nil _ _) Hlen c Hc). done. }
    destruct (forallb _ _) eqn:Hall; simpl.
    + split; [|done]. intros _. split; [done|]. split; [done|].
      intros c Hc.
      apply Is_true_true_2, forallb_True in Hall.
      rewrite Forall_forall in Hall.
      specialize (Hall (checkOperation c)).
      unfold operationResult, checkOperation in Hall; simpl in Hall.
      assert (Hin : (OpCheckRemovedOrUnlabeled, cluster_Name c) ∈
                    checkOperation <$> filter ready clusters).
      { apply list_elem_of_fmap. exists c. split; [done|].
        apply list_elem_of_filter. auto. }
      specialize (Hall Hin).
      destruct (member_State s (cluster_Name c)); auto; done.
    + split; [done|]. intros (_ & _ & Hst). exfalso.
      assert (Htrue : forallb (operationResult s CheckUnmanagedDispatcher)
                (checkOperation <$> filter ready clusters) = true); [|congruence].
      apply Is_true_true_1, forallb_True, Forall_forall.
      intros o Ho. apply list_elem_of_fmap in Ho as (c & -> & Hc).
      apply list_elem_of_filter in Hc as [_ Hc].
      unfold operationResult, checkOperation; simpl.
      destruct (Hst c Hc) as [-> | ->]; done.
Qed.

End Check.

(** ** Dispatch over the cached copies *)

Section Deletion.

Variable s : FederationSyncController.

(** The cached copy the deletion loop hands to its handler. *)
Definition cachedCopy (key : string) (c : KubefedCluster) : option Unstructured :=
  if IsClusterReady (cluster_Status c) then
    match targetStore_GetByKey s (cluster_Name c) key with
    | (Some obj, None) => Some obj
    | _ => None
    end
  else None.

Definition retrievalFails (key : string) (c : KubefedCluster) : Prop :=
  ready c /\ is_Some (targetStore_GetByKey s (cluster_Name c) key).2.

Definition record_opt (d : Dispatcher) (op : option Operation) (n : string) : Dispatcher :=
  match op with
  | Some op =>
      {| d_kind := d_kind d;
         d_operations := d_operations d ++ [(op, n)];
         d_recorded := d_recorded d |}
  | None => d
  end.

(** A deletion handler that records at most one operation, chosen from
    the cached copy by [hop], and updates its captured variables by
    [hcap]. *)
Definition handler_spec {C} (h : deletionFunc C)
    (hop : Unstructured -> option Operation)
    (hcap : string -> Unstructured -> C -> C) : Prop :=
  forall d n o c st,
    h d n o c st =
      ((record_opt d (hop o) n, hcap n o c), st,
       match hop o with
       | Some op => [EvOperation (d_kind d) op n]
       | None => []
       end).

Section Handler.

Context {C : Type} (h : deletionFunc C)
        (hop : Unstructured -> option Operation)
        (hcap : string -> Unstructured -> C -> C)
        (Hh : handler_spec h hop hcap).
Variables (kind key : string).

Definition deletionOps (c : KubefedCluster) : list (Operation * string) :=
  match cachedCopy key c with
  | Some o =>
      match hop o with
      | Some op => [(op, cluster_Name c)]
      | None => []
      end
  | None => []
  end.

Definition deletionEvents (c : KubefedCluster) : list Event :=
  if IsClusterReady (cluster_Status c) then
    match targetStore_GetByKey s (cluster_Name c) key with
    | (_, Some err) =>
        [EvHandleError (Wrapf err "failed to retrieve %s %q for cluster %q")]
    | (Some o, None) =>
        match hop o with
        | Some op => [EvOperation UnmanagedDispatcher op (cluster_Name c)]
        | None => []
        end
    | (None, None) => []
    end
  else [].

Definition capStep (cap : C) (c : KubefedCluster) : C :=
  match cachedCopy key c with
  | Some o => hcap (cluster_Name c) o cap
  | None => cap
  end.

Lemma handleDeletionInClusters_loop clusters cap0 st :
  post (for_range clusters (handleDeletionInClusters_body s kind key h)
          {| dv_dispatcher := NewUnmanagedDispatcher;
             dv_retrievalFailureClusters := [];
             dv_unreadyClusters := [];
             dv_captured := cap0 |}) st
    (fun v st' t =>
       st' = st /\
       d_kind (dv_dispatcher v) = UnmanagedDispatcher /\
       d_operations (dv_dispatcher v) = clusters ≫= deletionOps /\
       dv_retrievalFailureClusters v = names (filter (retrievalFails key) clusters) /\
       dv_unreadyClusters v = names (filter (fun c => ¬ ready c) clusters) /\
       dv_captured v = foldl capStep cap0 clusters /\
       t = clusters ≫= deletionEvents).
Proof.
  apply (post_for_range (fun done v st' t =>
       st' = st /\
       d_kind (dv_dispatcher v) = UnmanagedDispatcher /\
       d_operations (dv_dispatcher v) = done ≫= deletionOps /\
       dv_retrievalFailureClusters v = names (filter (retrievalFails key) done) /\
       dv_unreadyClusters v = names (filter (fun c => ¬ ready c) done) /\
       dv_captured v = foldl capStep cap0 done /\
       t = done ≫= deletionEvents)); [done|].
  intros done x [d rf un cap] st1 t _ (-> & Hk & Hops & Hrf & Hun & Hcap & ->);
    simpl in *.
  unfold handleDeletionInClusters_body, names; simpl.
  rewrite !bind_app, !bind_singleton, foldl_snoc.
  destruct (IsClusterReady (cluster_Status x)) eqn:Hr; simpl.
  - rewrite (filter_snoc_False (fun c => ¬ ready c)) by (intros Hn; by apply Hn).
    destruct (targetStore_GetByKey s (cluster_Name x) key) as [raw [err|]] eqn:Hg.
    + rewrite (filter_snoc_True (retrievalFails key))
        by (split; [done | rewrite Hg; by eexists]).
      assert (deletionOps x = []) as ->
        by (unfold deletionOps, cachedCopy; rewrite Hr, Hg; by destruct raw).
      assert (deletionEvents x =
              [EvHandleError (Wrapf err "failed to retrieve %s %q for cluster %q")])
        as -> by (unfold deletionEvents; rewrite Hr, Hg; by destruct raw).
      assert (capStep (foldl capStep cap0 done) x = foldl capStep cap0 done) as ->
        by (unfold capStep, cachedCopy; rewrite Hr, Hg; by destruct raw).
      wp. simpl. by rewrite fmap_app, Hrf, Hun, Hops, Hcap, ?app_nil_r.
    + rewrite (filter_snoc_False (retrievalFails key))
        by (intros [_ [? Hs]]; by rewrite Hg in Hs).
      destruct raw as [o|].
      * assert (deletionOps x =
                match hop o with Some op => [(op, cluster_Name x)] | None => [] end)
          as -> by (unfold deletionOps, cachedCopy; by rewrite Hr, Hg).
        assert (deletionEvents x =
                match hop o with
                | Some op => [EvOperation UnmanagedDispatcher op (cluster_Name x)]
                | None => []
                end)
          as -> by (unfold deletionEvents; by rewrite Hr, Hg).
        assert (capStep (foldl capStep cap0 done) x =
                hcap (cluster_Name x) o (foldl capStep cap0 done)) as ->
          by (unfold capStep, cachedCopy; by rewrite Hr, Hg).
        apply post_bind. unfold post at 1. rewrite Hh. simpl.
        wp. simpl. rewrite Hh; simpl. rewrite <- Hcap, ?app_nil_r.
        destruct (hop o); simpl; rewrite ?app_nil_r, Hops, ?Hk; done.
      * assert (deletionOps x = []) as ->
          by (unfold deletionOps, cachedCopy; by rewrite Hr, Hg).
        assert (deletionEvents x = []) as ->
          by (unfold deletionEvents; by rewrite Hr, Hg).
        assert (capStep (foldl capStep cap0 done) x = foldl capStep cap0 done) as ->
          by (unfold capStep, cachedCopy; by rewrite Hr, Hg).
        wp. simpl. by rewrite Hrf, Hun, Hops, Hcap, ?app_nil_r.
  - rewrite (filter_snoc_True (fun c => ¬ ready c))
      by (unfold ready; by rewrite Hr).
    rewrite (filter_snoc_False (retrievalFails key))
      by (intros [Hn _]; unfold ready in Hn; by rewrite Hr in Hn).
    assert (deletionOps x = []) as ->
      by (unfold deletionOps, cachedCopy; by rewrite Hr).
    assert (deletionEvents x = []) as ->
      by (unfold deletionEvents; by rewrite Hr).
    assert (capStep (foldl capStep cap0 done) x = foldl capStep cap0 done) as ->
      by (unfold capStep, cachedCopy; by rewrite Hr).
    wp. simpl. by rewrite fmap_app, Hrf, Hun, Hops, Hcap, ?app_nil_r.
Qed.

(** What [handleDeletionInClusters] answers on a listing. *)
Definition deletionOutcome (clusters : list KubefedCluster) : bool * option error :=
  if dispatch_TimedOut s UnmanagedDispatcher then
    (false, Some (Errorf "Failed to finish %d operations in %v" []))
  else if (0 <? length (names (filter (retrievalFails key) clusters)))%nat then
    (false,
     Some (Errorf
       "failed to retrieve a managed resource for the following cluster(s): %s"
       [strings_Join (names (filter (retrievalFails key) clusters)) ", "]))
  else if (0 <? length (names (filter (fun c => ¬ ready c) clusters)))%nat then
    (false,
     Some (Errorf "the following clusters were not ready: %s"
       [strings_Join (names (filter (fun c => ¬ ready c) clusters)) ", "]))
  else
    (forallb (operationResult s UnmanagedDispatcher) (clusters ≫= deletionOps), None).

Lemma handleDeletionInClusters_run qualifiedName cap0 st clusters :
  key = QualifiedName_String qualifiedName ->
  informer_GetClusters s ForDeletion = (clusters, None) ->
  handleDeletionInClusters s kind qualifiedName h cap0 st =
    (((deletionOutcome clusters).1, (deletionOutcome clusters).2,
      foldl capStep cap0 clusters), st,
     (clusters ≫= deletionEvents) ++ [EvWait UnmanagedDispatcher]).
Proof.
  intros Hkey Hget. apply post_eq.
  unfold handleDeletionInClusters. rewrite Hget, <- Hkey.
  apply post_bind.
  eapply post_mono; [apply handleDeletionInClusters_loop|].
  intros [d rf un cap] st1 t (-> & Hk & Hops & Hrf & Hun & Hcap & ->); simpl in *.
  unfold Dispatcher_Wait, deletionOutcome. rewrite Hk, Hops, <- Hrf, <- Hun, Hcap.
  wp.
  destruct (dispatch_TimedOut s UnmanagedDispatcher); wp; [done|].
  destruct (0 <? length rf)%nat; wp; [done|].
  destruct (0 <? length un)%nat; wp; done.
Qed.

Lemma handleDeletionInClusters_run_err qualifiedName cap0 st clusters err :
  informer_GetClusters s ForDeletion = (clusters, Some err) ->
  handleDeletionInClusters s kind qualifiedName h cap0 st =
    ((false, Some (Wrapf err "failed to get a list of clusters"), cap0), st, []).
Proof. intros Hget. unfold handleDeletionInClusters. by rewrite Hget. Qed.

(** The round raises no error exactly when it did not time out, every
    cache lookup on a ready cluster answered, and every cluster is ready. *)
Lemma deletionOutcome_None clusters :
  (deletionOutcome clusters).2 = None <->
  dispatch_TimedOut s UnmanagedDispatcher = false /\
  (forall c, c ∈ clusters -> ¬ retrievalFails key c) /\
  (forall c, c ∈ clusters -> ready c).
Proof.
  unfold deletionOutcome.
  destruct (dispatch_TimedOut s UnmanagedDispatcher);
    [split; [done | by intros [? _]]|].
  destruct (0 <? length (names (filter (retrievalFails key) clusters)))%nat eqn:Hrf.
  { split; [done|]. intros (_ & Hnone & _).
    pose proof (proj2 (names_filter_nil (retrievalFails key) clusters) Hnone) as Hnil.
    by rewrite Hnil in Hrf. }
  apply length_pos_nil in Hrf.
  destruct (0 <? length (names (filter (fun c => ¬ ready c) clusters)))%nat eqn:Hun.
  { split; [done|]. intros (_ & _ & Hready).
    assert (Hnil : names (filter (fun c => ¬ ready c) clusters) = []).
    { apply names_filter_nil. intros c Hc Hn. apply Hn. by apply Hready. }
    by rewrite Hnil in Hun. }
  apply length_pos_nil in Hun. simpl.
  split; [|done]. intros _. split; [done|]. split.
  - exact (proj1 (names_filter_nil (retrievalFails key) clusters) Hrf).
  - intros c Hc. destruct (decide (ready c)) as [|Hn]; [done|].
    exfalso. eapply (proj1 (names_filter_nil _ _) Hun c Hc). done.
Qed.

Lemma deletionOutcome_ok clusters :
  (deletionOutcome clusters).2 = None ->
  (deletionOutcome clusters).1 =
    forallb (operationResult s UnmanagedDispatcher) (clusters ≫= deletionOps).
Proof.
  unfold deletionOutcome.
  destruct (dispatch_TimedOut s UnmanagedDispatcher); [done|].
  destruct (0 <? _)%nat; [done|].
  destruct (0 <? _)%nat; done.
Qed.

Lemma deletionOutcome_err clusters :
  (deletionOutcome clusters).2 <> None -> (deletionOutcome clusters).1 = false.
Proof.
  unfold deletionOutcome.
  destruct (dispatch_TimedOut s UnmanagedDispatcher); [done|].
  destruct (0 <? _)%nat; [done|].
  destruct (0 <? _)%nat; done.
Qed.

End Handler.

End Deletion.

(** ** The two deletion handlers *)

Definition terminating (obj : Unstructured) : bool :=
  bool_decide (GetDeletionTimestamp obj <> None).

(** The operation [removeManagedLabel] records for a cached copy. *)
Definition unlabelOp (obj : Unstructured) : option Operation :=
  if terminating obj then None else Some OpRemoveManagedLabel.

Lemma removeManagedLabel_func_spec :
  handler_spec removeManagedLabel_func unlabelOp (fun _ _ c => c).
Proof.
  intros d n o [] st. unfold removeManagedLabel_func, unlabelOp, terminating.
  destruct (bool_decide _); [done|].
  unfold Dispatcher_RemoveManagedLabel, Dispatcher_record. done.
Qed.

(** The operation [deleteFromClusters] records for a cached copy. *)
Definition cascadeOp (fr : FederatedResource) (obj : Unstructured) : option Operation :=
  if terminating obj then None
  else if IsNamespaceInHostCluster fr obj then Some OpRemoveManagedLabel
  else Some OpDelete.

(** Whether [deleteFromClusters] keeps waiting for a cached copy. *)
Definition tracked (fr : FederatedResource) (obj : Unstructured) : bool :=
  negb (IsNamespaceInHostCluster fr obj && terminating obj).

Definition trackStep (fr : FederatedResource) (n : string) (obj : Unstructured)
    (remainingClusters : list string) : list string :=
  if tracked fr obj then remainingClusters ++ [n] else remainingClusters.

Lemma deleteFromClusters_func_spec fr :
  handler_spec (deleteFromClusters_func fr) (cascadeOp fr) (trackStep fr).
Proof.
  intros d n o rem st.
  unfold deleteFromClusters_func, cascadeOp, trackStep, tracked, terminating.
  destruct (IsNamespaceInHostCluster fr o), (bool_decide _); simpl; try done.
Qed.

(** A cluster whose cached copy keeps [deleteFromClusters] waiting. *)
Definition remains (s : FederationSyncController) (fr : FederatedResource)
    (key : string) (c : KubefedCluster) : Prop :=
  match cachedCopy s key c with
  | Some obj => tracked fr obj = true
  | None => False
  end.

#[local] Instance remains_dec s fr key c : Decision (remains s fr key c).
Proof. unfold remains. destruct (cachedCopy s key c); apply _. Defined.

Lemma foldl_trackStep s fr key clusters acc :
  foldl (capStep s (trackStep fr) key) acc clusters =
  acc ++ names (filter (remains s fr key) clusters).
Proof.
  revert acc. induction clusters as [|c cs IH]; intros acc; simpl.
  - by rewrite app_nil_r.
  - rewrite IH. unfold capStep, trackStep, names.
    destruct (decide (remains s fr key c)) as [Hr|Hr].
    + rewrite filter_cons_True by done.
      unfold remains in Hr. destruct (cachedCopy s key c) as [o|]; [|done].
      rewrite Hr. simpl. by rewrite <- app_assoc.
    + rewrite filter_cons_False by done.
      unfold remains in Hr. destruct (cachedCopy s key c) as [o|]; [|done].
      apply not_true_is_false in Hr. by rewrite Hr.
Qed.

(** ** Removing the finalizer *)

Definition withoutFinalizer (obj : Unstructured) : Unstructured :=
  SetFinalizers obj (filter (fun f => f ∉ [FinalizerSyncController]) (GetFinalizers obj)).

Definition isUpdate (e : Event) : Prop :=
  match e with EvUpdate _ _ => True | _ => False end.

Definition isOperation (e : Event) : Prop :=
  match e with EvOperation _ _ _ => True | _ => False end.

Lemma State_eta st : {| st_obj := st_obj st; st_tick := st_tick st |} = st.
Proof. by destruct st. Qed.

Section Finalizer.

Variable s : FederationSyncController.

Lemma RemoveFinalizers_present obj :
  FinalizerSyncController ∈ GetFinalizers obj ->
  RemoveFinalizers obj [FinalizerSyncController] = (withoutFinalizer obj, true, None).
Proof.
  intros Hin. unfold RemoveFinalizers, withoutFinalizer.
  rewrite bool_decide_eq_false_2; [done|].
  intros Heq. rewrite <- Heq in Hin.
  apply list_elem_of_filter in Hin as [Hn _]. apply Hn. by left.
Qed.


Lemma removeFinalizer_present fr st :
  FinalizerSyncController ∈ GetFinalizers (st_obj st) ->
  removeFinalizer s fr st =
    (hostClusterClient_Update s (withoutFinalizer (st_obj st)),
     {| st_obj := withoutFinalizer (st_obj st); st_tick := st_tick st |},
     [EvLog 2 "Removing finalizer %s from %s %q";
      EvUpdate (withoutFinalizer (st_obj st))
        (hostClusterClient_Update s (withoutFinalizer (st_obj st)))]).
Proof.
  intros Hin. unfold removeFinalizer, bind, getObj; simpl.
  by rewrite (RemoveFinalizers_present _ Hin).
Qed.


Lemma withoutFinalizer_spec obj :
  FinalizerSyncController ∉ GetFinalizers (withoutFinalizer obj).
Proof.
  unfold withoutFinalizer; simpl. intros Hin.
  apply list_elem_of_filter in Hin as [Hn _]. apply Hn. by left.
Qed.

End Finalizer.

(** ** The runs of the deletion protocol

    Each constructor is one path through the function, with the answers
    of the collaborators that select it and the value, state and events
    it ends with. *)

Section Runs.

Variable s : FederationSyncController.

Definition labelEvents (key : string) (clusters : list KubefedCluster) : list Event :=
  (clusters ≫= deletionEvents s unlabelOp key) ++ [EvWait UnmanagedDispatcher].

Definition cascadeEvents (fr : FederatedResource) (key : string)
    (clusters : list KubefedCluster) : list Event :=
  (clusters ≫= deletionEvents s (cascadeOp fr) key) ++ [EvWait UnmanagedDispatcher].

Definition checkEvents (clusters : list KubefedCluster) : list Event :=
  (checkEvent <$> filter ready clusters) ++ [EvWait CheckUnmanagedDispatcher].

Inductive LabelRun (qualifiedName : QualifiedName) (st : State)
  : option error * State * list Event -> Prop :=
  | LabelRun_listing_failed clusters err :
      informer_GetClusters s ForDeletion = (clusters, Some err) ->
      LabelRun qualifiedName st
        (Some (Wrapf err "failed to get a list of clusters"), st, [])
  | LabelRun_round_failed clusters err :
      informer_GetClusters s ForDeletion = (clusters, None) ->
      (deletionOutcome s unlabelOp (QualifiedName_String qualifiedName) clusters).2
        = Some err ->
      LabelRun qualifiedName st
        (Some err, st, labelEvents (QualifiedName_String qualifiedName) clusters)
  | LabelRun_operation_failed clusters :
      informer_GetClusters s ForDeletion = (clusters, None) ->
      deletionOutcome s unlabelOp (QualifiedName_String qualifiedName) clusters
        = (false, None) ->
      LabelRun qualifiedName st
        (Some (Errorf
           "failed to remove the label from resources in one or more clusters." []),
         st, labelEvents (QualifiedName_String qualifiedName) clusters)
  | LabelRun_ok clusters :
      informer_GetClusters s ForDeletion = (clusters, None) ->
      deletionOutcome s unlabelOp (QualifiedName_String qualifiedName) clusters
        = (true, None) ->
      LabelRun qualifiedName st
        (None, st, labelEvents (QualifiedName_String qualifiedName) clusters).

Lemma removeManagedLabel_run kind qualifiedName st :
  LabelRun qualifiedName st (removeManagedLabel s kind qualifiedName st).
Proof.
  unfold removeManagedLabel, bind.
  destruct (informer_GetClusters s ForDeletion) as [clusters [err|]] eqn:Hget.
  - rewrite (handleDeletionInClusters_run_err s _ kind _ _ _ _ _ Hget); simpl.
    by eapply LabelRun_listing_failed.
  - rewrite (handleDeletionInClusters_run s _ _ _ removeManagedLabel_func_spec
               kind _ _ _ _ _ eq_refl Hget); simpl.
    destruct (deletionOutcome s unlabelOp (QualifiedName_String qualifiedName) clusters)
      as [ok [err|]] eqn:Hout; simpl.
    + rewrite app_nil_r. eapply LabelRun_round_failed; [done|]. by rewrite Hout.
    + destruct ok; simpl; rewrite app_nil_r.
      * by eapply LabelRun_ok.
      * by eapply LabelRun_operation_failed.
Qed.

Inductive DeleteRun (fr : FederatedResource) (st : State)
  : bool * option error * State * list Event -> Prop :=
  | DeleteRun_listing_failed clusters err :
      informer_GetClusters s ForDeletion = (clusters, Some err) ->
      DeleteRun fr st
        ((false, Some (Wrapf err "failed to get a list of clusters")), st, [])
  | DeleteRun_round_failed clusters err :
      informer_GetClusters s ForDeletion = (clusters, None) ->
      (deletionOutcome s (cascadeOp fr) (QualifiedName_String (TargetName fr))
         clusters).2 = Some err ->
      DeleteRun fr st
        ((false, Some err), st,
         cascadeEvents fr (QualifiedName_String (TargetName fr)) clusters)
  | DeleteRun_operation_failed clusters :
      informer_GetClusters s ForDeletion = (clusters, None) ->
      deletionOutcome s (cascadeOp fr) (QualifiedName_String (TargetName fr)) clusters
        = (false, None) ->
      DeleteRun fr st
        ((false,
          Some (Errorf
            "failed to remove managed resources from one or more clusters." [])),
         st, cascadeEvents fr (QualifiedName_String (TargetName fr)) clusters)
  | DeleteRun_recheck clusters :
      informer_GetClusters s ForDeletion = (clusters, None) ->
      deletionOutcome s (cascadeOp fr) (QualifiedName_String (TargetName fr)) clusters
        = (true, None) ->
      names (filter (remains s fr (QualifiedName_String (TargetName fr))) clusters)
        <> [] ->
      DeleteRun fr st
        ((true, None), st,
         cascadeEvents fr (QualifiedName_String (TargetName fr)) clusters ++
         [EvLog 2
            "Waiting for resources managed by %s %q to be removed from the following clusters: %s"])
  | DeleteRun_check_listing_failed clusters checked err :
      informer_GetClusters s ForDeletion = (clusters, None) ->
      deletionOutcome s (cascadeOp fr) (QualifiedName_String (TargetName fr)) clusters
        = (true, None) ->
      names (filter (remains s fr (QualifiedName_String (TargetName fr))) clusters)
        = [] ->
      informer_GetClusters s ForCheck = (checked, Some err) ->
      DeleteRun fr st
        ((false,
          Some (Wrapf (Wrapf err "failed to get a list of clusters")
            "failed to verify that managed resources no longer exist in any cluster")),
         st, cascadeEvents fr (QualifiedName_String (TargetName fr)) clusters)
  | DeleteRun_check_failed clusters checked err :
      informer_GetClusters s ForDeletion = (clusters, None) ->
      deletionOutcome s (cascadeOp fr) (QualifiedName_String (TargetName fr)) clusters
        = (true, None) ->
      names (filter (remains s fr (QualifiedName_String (TargetName fr))) clusters)
        = [] ->
      informer_GetClusters s ForCheck = (checked, None) ->
      checkVerdict s checked = Some err ->
      DeleteRun fr st
        ((false,
          Some (Wrapf err
            "failed to verify that managed resources no longer exist in any cluster")),
         st,
         cascadeEvents fr (QualifiedName_String (TargetName fr)) clusters ++
         checkEvents checked)
  | DeleteRun_finalize clusters checked :
      informer_GetClusters s ForDeletion = (clusters, None) ->
      deletionOutcome s (cascadeOp fr) (QualifiedName_String (TargetName fr)) clusters
        = (true, None) ->
      names (filter (remains s fr (QualifiedName_String (TargetName fr))) clusters)
        = [] ->
      informer_GetClusters s ForCheck = (checked, None) ->
      checkVerdict s checked = None ->
      DeleteRun fr st
        ((false, value (removeFinalizer s fr st)),
         final (removeFinalizer s fr st),
         cascadeEvents fr (QualifiedName_String (TargetName fr)) clusters ++
         checkEvents checked ++ events (removeFinalizer s fr st)).

Lemma deleteFromClusters_run fr st :
  DeleteRun fr st (deleteFromClusters s fr st).
Proof.
  unfold deleteFromClusters, bind.
  destruct (informer_GetClusters s ForDeletion) as [clusters [err|]] eqn:Hget.
  - rewrite (handleDeletionInClusters_run_err s _ _ _ _ _ _ _ Hget); simpl.
    by eapply DeleteRun_listing_failed.
  - rewrite (handleDeletionInClusters_run s _ _ _ (deleteFromClusters_func_spec fr)
               _ _ _ _ _ _ eq_refl Hget); simpl.
    rewrite foldl_trackStep; simpl.
    destruct (deletionOutcome s (cascadeOp fr) (QualifiedName_String (TargetName fr))
                clusters) as [ok [err|]] eqn:Hout; simpl.
    { rewrite app_nil_r. eapply DeleteRun_round_failed; [done|]. by rewrite Hout. }
    destruct ok; simpl;
      [|rewrite app_nil_r; by eapply DeleteRun_operation_failed].
    destruct (0 <? length _)%nat eqn:Hlen; simpl.
    { eapply DeleteRun_recheck; [done..|]. intros Hnil. by rewrite Hnil in Hlen. }
    apply length_pos_nil in Hlen.
    destruct (informer_GetClusters s ForCheck) as [checked [err|]] eqn:Hget2.
    + rewrite (ensureRemovedOrUnmanaged_run_err s _ _ _ _ Hget2); simpl.
      rewrite app_nil_r. by eapply DeleteRun_check_listing_failed.
    + rewrite (ensureRemovedOrUnmanaged_run s _ _ _ Hget2); simpl.
      destruct (checkVerdict s checked) as [err|] eqn:Hv; simpl.
      * rewrite app_nil_r. by eapply DeleteRun_check_failed.
      * destruct (removeFinalizer s fr st) as [[v st'] t] eqn:Hrf; simpl.
        rewrite app_nil_r.
        pose proof (DeleteRun_finalize fr st clusters checked Hget Hout Hlen Hget2 Hv)
          as Hrun.
        rewrite Hrf in Hrun. exact Hrun.
Qed.

End Runs.

(** ** What the dispatch rounds emit *)

Section RoundEvents.

Variable s : FederationSyncController.

Lemma cachedCopy_ready key c o : cachedCopy s key c = Some o -> ready c.
Proof. unfold cachedCopy, ready. by destruct (IsClusterReady _). Qed.

Lemma cachedCopy_lookup key c o :
  cachedCopy s key c = Some o ->
  targetStore_GetByKey s (cluster_Name c) key = (Some o, None).
Proof.
  unfold cachedCopy. destruct (IsClusterReady _); [|done].
  destruct (targetStore_GetByKey s (cluster_Name c) key) as [[o'|] [e|]]; congruence.
Qed.

(** An event of the deletion loop is a logged lookup failure or one
    operation on a ready cluster that holds a cached copy. *)
Lemma deletionEvents_inv hop key c e :
  e ∈ deletionEvents s hop key c ->
  (exists err, e = EvHandleError err) \/
  (exists o op, cachedCopy s key c = Some o /\ hop o = Some op /\
                e = EvOperation UnmanagedDispatcher op (cluster_Name c)).
Proof.
  unfold deletionEvents, cachedCopy.
  destruct (IsClusterReady (cluster_Status c)); [|by intros ?%elem_of_nil].
  destruct (targetStore_GetByKey s (cluster_Name c) key) as [[o|] [err|]].
  - intros ->%list_elem_of_singleton. left. by eexists.
  - destruct (hop o) as [op|] eqn:Hop; [|by intros ?%elem_of_nil].
    intros ->%list_elem_of_singleton. right. by exists o, op.
  - intros ->%list_elem_of_singleton. left. by eexists.
  - by intros ?%elem_of_nil.
Qed.

Lemma deletionEvents_operation hop key clusters k op n :
  EvOperation k op n ∈ clusters ≫= deletionEvents s hop key ->
  exists c o, c ∈ clusters /\ n = cluster_Name c /\ k = UnmanagedDispatcher /\
              cachedCopy s key c = Some o /\ hop o = Some op.
Proof.
  intros (c & He & Hc)%list_elem_of_bind.
  apply deletionEvents_inv in He as [[err He] | (o & op' & Hcopy & Hop & He)];
    [done|].
  injection He as -> -> ->. by exists c, o.
Qed.

Lemma deletionEvents_intro hop key clusters c o op :
  c ∈ clusters -> cachedCopy s key c = Some o -> hop o = Some op ->
  EvOperation UnmanagedDispatcher op (cluster_Name c)
    ∈ clusters ≫= deletionEvents s hop key.
Proof.
  intros Hc Hcopy Hop. apply list_elem_of_bind. exists c. split; [|done].
  unfold deletionEvents.
  pose proof (cachedCopy_ready _ _ _ Hcopy) as Hr. unfold ready in Hr.
  rewrite Hr, (cachedCopy_lookup _ _ _ Hcopy), Hop. by left.
Qed.

(** Events of a round of the unmanaged dispatcher. *)
Definition unmanagedRoundEvent (e : Event) : Prop :=
  match e with
  | EvHandleError _ => True
  | EvOperation UnmanagedDispatcher (OpDelete | OpRemoveManagedLabel) _ => True
  | EvWait UnmanagedDispatcher => True
  | _ => False
  end.

Lemma unlabelOp_inv o op : unlabelOp o = Some op -> op = OpRemoveManagedLabel.
Proof. unfold unlabelOp. destruct (terminating o); congruence. Qed.

Lemma cascadeOp_inv fr o op :
  cascadeOp fr o = Some op -> op = OpRemoveManagedLabel \/ op = OpDelete.
Proof.
  unfold cascadeOp. destruct (terminating o); [done|].
  destruct (IsNamespaceInHostCluster fr o); intros [= <-]; auto.
Qed.

Lemma deletion_round_events hop key clusters :
  (forall o op, hop o = Some op -> op = OpRemoveManagedLabel \/ op = OpDelete) ->
  Forall unmanagedRoundEvent
    ((clusters ≫= deletionEvents s hop key) ++ [EvWait UnmanagedDispatcher]).
Proof.
  intros Hhop. apply Forall_app. split; [|by apply Forall_singleton].
  apply Forall_forall. intros e (c & He & Hc)%list_elem_of_bind.
  apply deletionEvents_inv in He as [[err ->] | (o & op & _ & Hop & ->)]; [done|].
  destruct (Hhop _ _ Hop) as [-> | ->]; done.
Qed.


Lemma cascadeEvents_round fr key clusters :
  Forall unmanagedRoundEvent (cascadeEvents s fr key clusters).
Proof. apply deletion_round_events. apply cascadeOp_inv. Qed.

(** Events of a round of the check dispatcher. *)
Definition checkRoundEvent (e : Event) : Prop :=
  match e with
  | EvOperation CheckUnmanagedDispatcher OpCheckRemovedOrUnlabeled _ => True
  | EvWait CheckUnmanagedDispatcher => True
  | _ => False
  end.

Lemma checkEvents_round clusters : Forall checkRoundEvent (checkEvents clusters).
Proof.
  apply Forall_app. split; [|by apply Forall_singleton].
  apply Forall_fmap, Forall_forall. by intros c _.
Qed.

Lemma Forall_not_update_unmanaged l :
  Forall unmanagedRoundEvent l -> Forall (fun e => ¬ isUpdate e) l.
Proof.
  intros Hl. eapply Forall_impl; [exact Hl|].
  intros e He Hu. destruct e; simpl in *; done.
Qed.

Lemma Forall_not_update_check l :
  Forall checkRoundEvent l -> Forall (fun e => ¬ isUpdate e) l.
Proof.
  intros Hl. eapply Forall_impl; [exact Hl|].
  intros e He Hu. destruct e; simpl in *; done.
Qed.

End RoundEvents.

(** ** The branches of [ensureDeletion] *)

Section EnsureDeletion.

Variable s : FederationSyncController.

Definition hasFinalizer (obj : Unstructured) : Prop :=
  FinalizerSyncController ∈ GetFinalizers obj.

(** The status [ensureDeletion] makes of the answer of [deleteFromClusters]. *)
Definition cascadeStatus (r : bool * option error) : ReconciliationStatus :=
  match r.2 with
  | Some _ => StatusError
  | None => if r.1 then StatusNeedsRecheck else StatusAllOK
  end.

Definition deletionPrologue : list Event :=
  [EvDeleteVersions; EvLog 2 "Ensuring deletion of %s %q"].

Lemma ensureDeletion_no_finalizer fr st :
  ¬ hasFinalizer (st_obj st) ->
  ensureDeletion s fr st =
    (StatusAllOK, st,
     deletionPrologue ++
     [EvLog 2 "%s %q does not have the %q finalizer. Nothing to do."]).
Proof.
  intros Hn. unfold ensureDeletion, bind; simpl.
  unfold sets_Has. by rewrite bool_decide_eq_false_2.
Qed.

Lemma ensureDeletion_cascade fr st :
  hasFinalizer (st_obj st) -> orphanResources (st_obj st) = false ->
  ensureDeletion s fr st =
    (cascadeStatus (value (deleteFromClusters s fr st)),
     final (deleteFromClusters s fr st),
     deletionPrologue ++
     [EvLog 2 "Deleting resources managed by %s %q from member clusters."] ++
     events (deleteFromClusters s fr st) ++
     match (value (deleteFromClusters s fr st)).2 with
     | Some err => [EvHandleError (Wrapf err "failed to delete %s %q")]
     | None => []
     end).
Proof.
  intros Hfin Horph. unfold ensureDeletion, bind; simpl.
  unfold sets_Has. rewrite bool_decide_eq_true_2 by done. simpl.
  rewrite Horph.
  destruct (deleteFromClusters s fr st) as [[[recheck [err|]] st'] t]; simpl.
  - done.
  - destruct recheck; simpl; by rewrite !app_nil_r.
Qed.

(** The status and the tail of events that follow a successful removal
    of the finalizer on the orphan path. *)
Definition orphanStatus (err : option error) : ReconciliationStatus :=
  match err with Some _ => StatusError | None => StatusAllOK end.

Lemma ensureDeletion_orphan fr st :
  hasFinalizer (st_obj st) -> orphanResources (st_obj st) = true ->
  let removed := removeFinalizer s fr st in
  ensureDeletion s fr st =
    match value removed with
    | Some err =>
        (StatusError, final removed,
         deletionPrologue ++
         [EvLog 2 "Found %q annotation on %s %q. Removing the finalizer."] ++
         events removed ++
         [EvHandleError (Wrapf err "failed to remove finalizer %q from %s %q")])
    | None =>
        let unlabeled :=
          removeManagedLabel s (TargetKind fr) (TargetName fr) (final removed) in
        (orphanStatus (value unlabeled), final unlabeled,
         deletionPrologue ++
         [EvLog 2 "Found %q annotation on %s %q. Removing the finalizer."] ++
         events removed ++
         [EvLog 2
            "Initiating the removal of the label %q from resources previously managed by %s %q."] ++
         events unlabeled ++
         match value unlabeled with
         | Some err =>
             [EvHandleError
                (Wrapf err
                   "failed to remove the label %q from all resources previously managed by %s %q")]
         | None => []
         end)
    end.
Proof.
  intros Hfin Horph. unfold ensureDeletion, bind; simpl.
  unfold sets_Has. rewrite bool_decide_eq_true_2 by done. simpl.
  rewrite Horph.
  destruct (removeFinalizer s fr st) as [[[err|] st1] t1]; simpl; [done|].
  change (final (None, st1, t1)) with st1.
  destruct (removeManagedLabel s (TargetKind fr) (TargetName fr) st1)
    as [[[err|] st2] t2]; simpl; by rewrite ?app_nil_r.
Qed.

End EnsureDeletion.

(** * Properties of the deletion protocol *)

(** ** Cascading deletion gates the finalizer *)

Definition checkFails (s : FederationSyncController) (c : KubefedCluster) : Prop :=
  member_State s (cluster_Name c) = MemberManaged \/
  member_State s (cluster_Name c) = MemberUnreachable.

Definition checkConfirms (s : FederationSyncController) (c : KubefedCluster) : Prop :=
  member_State s (cluster_Name c) = MemberAbsent \/
  member_State s (cluster_Name c) = MemberUnlabeled.

(** The finalizer is left in place: the object in memory is untouched and
    nothing is written to the host store. *)
Definition finalizerKept {A} (st : State) (r : A * State * list Event) : Prop :=
  final r = st /\ Forall (fun e => ¬ isUpdate e) (events r).

Lemma Forall_not_Exists {A} (P : A -> Prop) l :
  Forall (fun x => ¬ P x) l -> ¬ Exists P l.
Proof.
  intros Hall Hex. apply Exists_exists in Hex as (x & Hx & HP).
  rewrite Forall_forall in Hall. by apply (Hall x).
Qed.

Lemma DeleteRun_gate s fr st r :
  DeleteRun s fr st r ->
  (Exists isUpdate (events r) \/ st_obj (final r) <> st_obj st) ->
  exists clusters checked,
    informer_GetClusters s ForDeletion = (clusters, None) /\
    informer_GetClusters s ForCheck = (checked, None) /\
    dispatch_TimedOut s UnmanagedDispatcher = false /\
    dispatch_TimedOut s CheckUnmanagedDispatcher = false /\
    (forall c, c ∈ clusters ->
       ready c /\ ¬ remains s fr (QualifiedName_String (TargetName fr)) c) /\
    (forall c, c ∈ checked ->
       ready c /\ checkEvent c ∈ events r /\ checkConfirms s c).
Proof.
  intros Hrun Hremoved.
  destruct Hrun as [cs err Hget | cs err Hget Hout | cs Hget Hout
    | cs Hget Hout Hrem | cs ck err Hget Hout Hrem Hget2
    | cs ck err Hget Hout Hrem Hget2 Hv | cs ck Hget Hout Hrem Hget2 Hv].
  1-6: exfalso; destruct Hremoved as [Hex | Hobj]; [|apply Hobj; reflexivity];
       revert Hex; apply Forall_not_Exists; unfold events; simpl;
       rewrite ?Forall_app; repeat split;
       try (apply Forall_not_update_unmanaged, cascadeEvents_round);
       try (apply Forall_not_update_check, checkEvents_round);
       try done; try (apply Forall_singleton; by intros []).
  exists cs, ck.
  assert (Hnone : (deletionOutcome s (cascadeOp fr)
                     (QualifiedName_String (TargetName fr)) cs).2 = None)
    by (by rewrite Hout).
  apply deletionOutcome_None in Hnone as (Hto & _ & Hready).
  apply checkVerdict_None in Hv as (Hto2 & Hready2 & Hconf).
  repeat split; try done.
  - by apply Hready.
  - by apply (proj1 (names_filter_nil _ _) Hrem).
  - by apply Hready2.
  - unfold events; simpl. apply elem_of_app. right. apply elem_of_app. left.
    unfold checkEvents. apply elem_of_app. left.
    apply list_elem_of_fmap. exists c. split; [done|].
    apply list_elem_of_filter. split; [by apply Hready2 | done].
  - by apply Hconf.
Qed.

Lemma unmanaged_round_no_check l :
  Forall unmanagedRoundEvent l -> EvWait CheckUnmanagedDispatcher ∉ l.
Proof.
  intros Hall Hin. rewrite Forall_forall in Hall. by apply (Hall _ Hin).
Qed.

Lemma cascadeEvents_kept s fr key clusters :
  Forall (fun e => ¬ isUpdate e) (cascadeEvents s fr key clusters).
Proof. apply Forall_not_update_unmanaged, cascadeEvents_round. Qed.

Lemma DeleteRun_unready s fr st r :
  DeleteRun s fr st r ->
  forall clusters,
    informer_GetClusters s ForDeletion = (clusters, None) ->
    (exists c, c ∈ clusters /\ ¬ ready c) \/
      dispatch_TimedOut s UnmanagedDispatcher = true ->
    (value r).2 <> None /\ finalizerKept st r.
Proof.
  intros Hrun clusters Hlist Hbad.
  assert (Hfail : (deletionOutcome s (cascadeOp fr)
                     (QualifiedName_String (TargetName fr)) clusters).2 <> None).
  { intros Hnone. apply deletionOutcome_None in Hnone as (Hto & _ & Hready).
    destruct Hbad as [(c & Hc & Hn) | Hto']; [by apply Hn, Hready | congruence]. }
  destruct Hrun as [cs err Hget | cs err Hget Hout | cs Hget Hout
    | cs Hget Hout Hrem | cs ck err Hget Hout Hrem Hget2
    | cs ck err Hget Hout Hrem Hget2 Hv | cs ck Hget Hout Hrem Hget2 Hv];
    rewrite Hlist in Hget; try done; injection Hget as <-;
    try (exfalso; apply Hfail; by rewrite Hout).
  split; [done|]. split; [done|]. apply cascadeEvents_kept.
Qed.

Lemma DeleteRun_check s fr st r :
  DeleteRun s fr st r ->
  forall checked,
    informer_GetClusters s ForCheck = (checked, None) ->
    EvWait CheckUnmanagedDispatcher ∈ events r ->
    (exists c, c ∈ checked /\ ¬ ready c) \/
      (exists c, c ∈ checked /\ checkFails s c) \/
      dispatch_TimedOut s CheckUnmanagedDispatcher = true ->
    (value r).2 <> None /\ finalizerKept st r.
Proof.
  intros Hrun checked Hlist Hwait Hbad.
  destruct Hrun as [cs err Hget | cs err Hget Hout | cs Hget Hout
    | cs Hget Hout Hrem | cs ck err Hget Hout Hrem Hget2
    | cs ck err Hget Hout Hrem Hget2 Hv | cs ck Hget Hout Hrem Hget2 Hv];
    unfold events in Hwait; simpl in Hwait.
  - by apply elem_of_nil in Hwait.
  - exfalso. revert Hwait. apply unmanaged_round_no_check, cascadeEvents_round.
  - exfalso. revert Hwait. apply unmanaged_round_no_check, cascadeEvents_round.
  - exfalso. apply elem_of_app in Hwait as [Hwait | Hwait].
    + revert Hwait. apply unmanaged_round_no_check, cascadeEvents_round.
    + by apply list_elem_of_singleton in Hwait.
  - exfalso. revert Hwait. apply unmanaged_round_no_check, cascadeEvents_round.
  - split; [done|]. split; [done|]. unfold events; simpl.
    apply Forall_app. split; [apply cascadeEvents_kept|].
    apply Forall_not_update_check, checkEvents_round.
  - exfalso. rewrite Hlist in Hget2. injection Hget2 as <-.
    apply checkVerdict_None in Hv as (Hto & Hready & Hconf).
    destruct Hbad as [(c & Hc & Hn) | [(c & Hc & Hf) | Hto']].
    + by apply Hn, Hready.
    + destruct (Hconf c Hc) as [Ha | Ha], Hf as [Hf | Hf]; congruence.
    + congruence.
Qed.

(** C1.  During cascading deletion the finalizer is removed only when no
    cluster remains after dispatch, no cluster was unready, and the
    authoritative check was issued for every cluster and found the
    target absent or unlabeled; an unready cluster, a failed check or a
    timeout makes [deleteFromClusters] return an error, which
    [ensureDeletion] turns into Error, with the finalizer left in place. *)
Theorem finalizer_removed_only_after_confirmation
    (s : FederationSyncController) (fr : FederatedResource) (st : State) :
  let r := deleteFromClusters s fr st in
  ((Exists isUpdate (events r) \/ st_obj (final r) <> st_obj st) ->
   exists clusters checked,
     informer_GetClusters s ForDeletion = (clusters, None) /\
     informer_GetClusters s ForCheck = (checked, None) /\
     dispatch_TimedOut s UnmanagedDispatcher = false /\
     dispatch_TimedOut s CheckUnmanagedDispatcher = false /\
     (forall c, c ∈ clusters ->
        ready c /\ ¬ remains s fr (QualifiedName_String (TargetName fr)) c) /\
     (forall c, c ∈ checked ->
        ready c /\ checkEvent c ∈ events r /\ checkConfirms s c)) /\
  (forall clusters,
     informer_GetClusters s ForDeletion = (clusters, None) ->
     (exists c, c ∈ clusters /\ ¬ ready c) \/
       dispatch_TimedOut s UnmanagedDispatcher = true ->
     (value r).2 <> None /\ finalizerKept st r) /\
  (forall checked,
     informer_GetClusters s ForCheck = (checked, None) ->
     EvWait CheckUnmanagedDispatcher ∈ events r ->
     (exists c, c ∈ checked /\ ¬ ready c) \/
       (exists c, c ∈ checked /\ checkFails s c) \/
       dispatch_TimedOut s CheckUnmanagedDispatcher = true ->
     (value r).2 <> None /\ finalizerKept st r) /\
  (hasFinalizer (st_obj st) -> orphanResources (st_obj st) = false ->
   (value r).2 <> None ->
   value (ensureDeletion s fr st) = StatusError /\
   final (ensureDeletion s fr st) = final r).
Proof.
  intros r. pose proof (deleteFromClusters_run s fr st) as Hrun. fold r in Hrun.
  split; [exact (DeleteRun_gate s fr st r Hrun)|].
  split; [exact (DeleteRun_unready s fr st r Hrun)|].
  split; [exact (DeleteRun_check s fr st r Hrun)|].
  intros Hfin Horph Herr.
  rewrite (ensureDeletion_cascade s fr st Hfin Horph). fold r.
  unfold value at 1, final at 1; simpl. split; [|done].
  unfold cascadeStatus. destruct ((value r).2); done.
Qed.

(** ** Scenarios

    A federated Deployment "ns/web" that is being deleted, and member
    clusters A and B. *)

Definition ex_name : QualifiedName := {| qn_Namespace := "ns"; qn_Name := "web" |}.

Definition ex_cluster (name : string) (isReady : bool) : KubefedCluster :=
  {| cluster_Name := name; cluster_Status := {| status_Ready := isReady |} |}.

(** The federated object: terminating, carrying the finalizer. *)
Definition ex_deleting (annotations : option (gmap string string)) : Unstructured :=
  {| GetNamespace := "ns"; GetName := "web";
     GetDeletionTimestamp := Some 1%Z;
     GetFinalizers := [FinalizerSyncController];
     GetAnnotations := annotations;
     GetStatus := None |}.

(** A live copy in a member cluster. *)
Definition ex_copy : Unstructured :=
  {| GetNamespace := "ns"; GetName := "web";
     GetDeletionTimestamp := None;
     GetFinalizers := [];
     GetAnnotations := None;
     GetStatus := None |}.

Definition ex_resource (obj : Unstructured) : FederatedResource :=
  {| Object := obj;
     FederatedName := ex_name;
     FederatedKind := "FederatedDeployment";
     TargetName := ex_name;
     TargetKind := "Deployment";
     ComputePlacement := fun _ => ({["A"; "B"]}, None);
     IsNamespaceInHostCluster := fun _ => false;
     UpdateVersions := fun _ _ => None |}.

(** A controller whose collaborators all answer without error: the
    listing of member clusters, the cached copies and what the
    accessor resolves are given. *)
Definition ex_controller (listing : list KubefedCluster)
    (cached : string -> option Unstructured)
    (resolved : option FederatedResource * bool * option error)
  : FederationSyncController :=
  {| informer_ClustersSynced := true;
     informer_GetReadyClusters :=
       (filter (fun c => IsClusterReady (cluster_Status c) = true) listing, None);
     informer_GetClusters := fun _ => (listing, None);
     targetStore_Synced := fun _ => true;
     targetStore_GetByKey := fun clusterName _ => (cached clusterName, None);
     fedAccessor_HasSynced := true;
     fedAccessor_FederatedResource := fun _ => resolved;
     typeConfig_FederatedKind := "FederatedDeployment";
     typeConfig_TargetKind := "Deployment";
     hostClusterClient_Update := fun _ => None;
     hostClusterClient_UpdateStatus := fun _ _ => None;
     hostClusterClient_Get := fun _ _ _ => (ex_deleting None, None);
     member_OperationOK := fun _ _ _ => true;
     member_State := fun _ => MemberAbsent;
     dispatch_TimedOut := fun _ => false;
     dispatch_StatusMap := fun _ => ∅;
     dispatch_VersionMap := fun _ => ∅;
     status_SetPropagationStatus := fun obj _ _ => (obj, None);
     wait_Ticks := fun _ _ => 5;
     skipAdoptingResources := false |}.

Definition ex_state (obj : Unstructured) : State := {| st_obj := obj; st_tick := 0 |}.

(** Both clusters ready, no cached copy anywhere. *)
Definition ex_gone : FederationSyncController :=
  ex_controller [ex_cluster "A" true; ex_cluster "B" true] (fun _ => None)
    (Some (ex_resource (ex_deleting None)), false, None).

(** A finalizing run: the finalizer is removed, and the facts the rule
    promises hold of it. *)
Lemma finalizer_removed_only_after_confirmation_witness :
  let r := deleteFromClusters ex_gone (ex_resource (ex_deleting None))
             (ex_state (ex_deleting None)) in
  st_obj (final r) <> ex_deleting None /\
  exists clusters checked,
    informer_GetClusters ex_gone ForDeletion = (clusters, None) /\
    informer_GetClusters ex_gone ForCheck = (checked, None) /\
    dispatch_TimedOut ex_gone UnmanagedDispatcher = false /\
    dispatch_TimedOut ex_gone CheckUnmanagedDispatcher = false /\
    (forall c, c ∈ clusters ->
       ready c /\ ¬ remains ex_gone (ex_resource (ex_deleting None))
                     (QualifiedName_String ex_name) c) /\
    (forall c, c ∈ checked ->
       ready c /\ checkEvent c ∈ events r /\ checkConfirms ex_gone c).
Proof.
  intros r.
  assert (Hremoved : st_obj (final r) <> ex_deleting None).
  { vm_compute. discriminate. }
  split; [exact Hremoved|].
  apply (finalizer_removed_only_after_confirmation ex_gone
           (ex_resource (ex_deleting None)) (ex_state (ex_deleting None))).
  right. exact Hremoved.
Defined.

(** ** When a round of the unmanaged dispatcher succeeds *)

Section RoundOutcome.

Variable s : FederationSyncController.

(** No timeout, every cluster ready, every cache lookup answered, and
    every recorded operation succeeded in its cluster. *)
Definition roundSucceeds (hop : Unstructured -> option Operation) (key : string)
    (clusters : list KubefedCluster) : Prop :=
  dispatch_TimedOut s UnmanagedDispatcher = false /\
  (forall c, c ∈ clusters -> ready c /\ ¬ retrievalFails s key c) /\
  (forall c o op, c ∈ clusters -> cachedCopy s key c = Some o -> hop o = Some op ->
     member_OperationOK s UnmanagedDispatcher op (cluster_Name c) = true).

Lemma deletionOps_inv hop key c op n :
  (op, n) ∈ deletionOps s hop key c <->
  n = cluster_Name c /\ exists o, cachedCopy s key c = Some o /\ hop o = Some op.
Proof.
  unfold deletionOps. destruct (cachedCopy s key c) as [o|] eqn:Hcopy.
  - destruct (hop o) as [op'|] eqn:Hop.
    + rewrite list_elem_of_singleton. split.
      * intros [= -> ->]. split; [done|]. by exists o.
      * intros (-> & o' & [= <-] & Hop'). congruence.
    + split; [by intros ?%elem_of_nil|].
      intros (_ & o' & [= <-] & Hop'). congruence.
  - split; [by intros ?%elem_of_nil|]. by intros (_ & o' & ? & _).
Qed.

Lemma deletionOutcome_true hop key clusters :
  (forall o, hop o <> Some OpCheckRemovedOrUnlabeled) ->
  deletionOutcome s hop key clusters = (true, None) <-> roundSucceeds hop key clusters.
Proof.
  intros Hhop. split.
  - intros Hout.
    assert (Herr : (deletionOutcome s hop key clusters).2 = None) by by rewrite Hout.
    pose proof (deletionOutcome_ok s hop key clusters Herr) as Hok.
    rewrite Hout in Hok; simpl in Hok. symmetry in Hok.
    apply deletionOutcome_None in Herr as (Htime & Hlookup & Hready).
    split; [done|]. split; [by auto|].
    intros c o op Hc Hcopy Hop.
    apply Is_true_true, forallb_True in Hok.
    rewrite Forall_forall in Hok.
    specialize (Hok (op, cluster_Name c)).
    unfold operationResult in Hok; simpl in Hok.
    assert (Hin : (op, cluster_Name c) ∈ clusters ≫= deletionOps s hop key).
    { apply list_elem_of_bind. exists c. split; [|done].
      apply deletionOps_inv. split; [done|]. by exists o. }
    apply Hok, Is_true_true in Hin.
    destruct op; try done. by destruct (Hhop o).
  - intros (Htime & Hall & Hops).
    assert (Herr : (deletionOutcome s hop key clusters).2 = None).
    { apply deletionOutcome_None. split; [done|].
      split; intros c Hc; by destruct (Hall c Hc). }
    pose proof (deletionOutcome_ok s hop key clusters Herr) as Hok.
    destruct (deletionOutcome s hop key clusters) as [ok err]; simpl in *.
    subst err. f_equal. rewrite Hok. apply Is_true_true, forallb_True.
    apply Forall_forall. intros [op n] (c & Hop & Hc)%list_elem_of_bind.
    apply deletionOps_inv in Hop as (-> & o & Hcopy & Hop).
    apply Is_true_true. unfold operationResult; simpl.
    pose proof (Hops c o op Hc Hcopy Hop) as Hmember.
    destruct op; try done. by destruct (Hhop o).
Qed.

Lemma unlabelOp_no_check o : unlabelOp o <> Some OpCheckRemovedOrUnlabeled.
Proof. intros H%unlabelOp_inv. done. Qed.

Lemma cascadeOp_no_check fr o : cascadeOp fr o <> Some OpCheckRemovedOrUnlabeled.
Proof. by intros [H|H]%cascadeOp_inv. Qed.

End RoundOutcome.

(** ** Cascading deletion: tracking and recheck *)




Lemma removeFinalizer_events s fr st :
  Forall (fun e => ¬ isOperation e) (events (removeFinalizer s fr st)).
Proof.
  unfold removeFinalizer, bind, getObj; simpl.
  destruct (RemoveFinalizers _ _) as [[o u] e]; simpl.
  destruct (bool_decide _ || negb u); simpl; repeat constructor; by intros [].
Qed.




Lemma DeleteRun_recheck_kept s fr st r :
  DeleteRun s fr st r -> value r = (true, None) -> finalizerKept st r.
Proof.
  intros Hrun Hv.
  destruct Hrun as [cs err Hget | cs err Hget Hout | cs Hget Hout
    | cs Hget Hout Hrem | cs ck err Hget Hout Hrem Hget2
    | cs ck err Hget Hout Hrem Hget2 Hv' | cs ck Hget Hout Hrem Hget2 Hv'];
    try done.
  split; [done|]. unfold events; simpl.
  apply Forall_app. split; [apply cascadeEvents_kept|].
  apply Forall_singleton. by intros [].
Qed.



(** Cluster A is ready and caches a live copy; cluster B is not ready. *)
Definition ex_lagging : FederationSyncController :=
  ex_controller [ex_cluster "A" true; ex_cluster "B" false]
    (fun n => if String.eqb n "A" then Some ex_copy else None)
    (Some (ex_resource (ex_deleting None)), false, None).

(** Cluster A is ready and caches a live copy; cluster B is ready and
    caches nothing. *)
Definition ex_pending : FederationSyncController :=
  ex_controller [ex_cluster "A" true; ex_cluster "B" true]
    (fun n => if String.eqb n "A" then Some ex_copy else None)
    (Some (ex_resource (ex_deleting None)), false, None).




(** ** The orphan path *)

Lemma unlabelOp_Some o :
  unlabelOp o = Some OpRemoveManagedLabel <-> GetDeletionTimestamp o = None.
Proof.
  unfold unlabelOp, terminating. split.
  - destruct (decide (GetDeletionTimestamp o <> None)) as [Hts|Hts].
    + by rewrite bool_decide_eq_true_2.
    + intros _. by destruct (GetDeletionTimestamp o); [destruct Hts|].
  - intros Hts. rewrite bool_decide_eq_false_2; [done|]. by intros Hn.
Qed.

(** The operations of a label round: RemoveManagedLabel on the ready
    clusters that cache a copy which is not terminating. *)
Lemma labelEvents_operation s key clusters k op n :
  EvOperation k op n ∈ labelEvents s key clusters <->
  k = UnmanagedDispatcher /\ op = OpRemoveManagedLabel /\
  exists c o, c ∈ clusters /\ n = cluster_Name c /\
    cachedCopy s key c = Some o /\ GetDeletionTimestamp o = None.
Proof.
  unfold labelEvents. split.
  - intros [Hin | Hin]%elem_of_app.
    + apply deletionEvents_operation in Hin as (c & o & Hc & -> & -> & Hcopy & Hop).
      pose proof (unlabelOp_inv _ _ Hop) as ->.
      split; [done|]. split; [done|]. exists c, o.
      apply unlabelOp_Some in Hop. done.
    + by apply list_elem_of_singleton in Hin.
  - intros (-> & -> & c & o & Hc & -> & Hcopy & Hts). apply elem_of_app. left.
    eapply deletionEvents_intro; [done..|]. by apply unlabelOp_Some.
Qed.

Lemma LabelRun_listing s qualifiedName st r clusters :
  LabelRun s qualifiedName st r ->
  informer_GetClusters s ForDeletion = (clusters, None) ->
  final r = st /\
  events r = labelEvents s (QualifiedName_String qualifiedName) clusters /\
  (value r = None <->
   roundSucceeds s unlabelOp (QualifiedName_String qualifiedName) clusters).
Proof.
  intros Hrun Hlist.
  destruct Hrun as [cs err Hget | cs err Hget Hout | cs Hget Hout | cs Hget Hout];
    rewrite Hlist in Hget; injection Hget as <-; try done;
    (split; [done|]); (split; [done|]); unfold value; simpl.
  - split; [done|].
    intros Hok%deletionOutcome_true; [|apply unlabelOp_no_check].
    by rewrite Hok in Hout.
  - split; [done|].
    intros Hok%deletionOutcome_true; [|apply unlabelOp_no_check].
    by rewrite Hok in Hout.
  - split; [|done]. intros _.
    apply deletionOutcome_true; [apply unlabelOp_no_check | done].
Qed.

Lemma LabelRun_listing_err s qualifiedName st r clusters err :
  LabelRun s qualifiedName st r ->
  informer_GetClusters s ForDeletion = (clusters, Some err) ->
  r = (Some (Wrapf err "failed to get a list of clusters"), st, []).
Proof.
  intros Hrun Hlist.
  destruct Hrun as [cs e Hget | cs e Hget Hout | cs Hget Hout | cs Hget Hout];
    rewrite Hlist in Hget; congruence.
Qed.

Lemma LabelRun_final s qualifiedName st r :
  LabelRun s qualifiedName st r -> final r = st.
Proof. by intros []. Qed.

Lemma value_eq {A} (a : A) st t : value (a, st, t) = a.
Proof. done. Qed.

Lemma final_eq {A} (a : A) st t : final (a, st, t) = st.
Proof. done. Qed.

Lemma events_eq {A} (a : A) st t : events (a, st, t) = t.
Proof. done. Qed.



(** The same controller with other answers of the member clusters to
    the recorded operations. *)
Definition ex_with_operations (s : FederationSyncController)
    (answers : DispatcherKind -> Operation -> string -> bool)
  : FederationSyncController :=
  {| informer_ClustersSynced := informer_ClustersSynced s;
     informer_GetReadyClusters := informer_GetReadyClusters s;
     informer_GetClusters := informer_GetClusters s;
     targetStore_Synced := targetStore_Synced s;
     targetStore_GetByKey := targetStore_GetByKey s;
     fedAccessor_HasSynced := fedAccessor_HasSynced s;
     fedAccessor_FederatedResource := fedAccessor_FederatedResource s;
     typeConfig_FederatedKind := typeConfig_FederatedKind s;
     typeConfig_TargetKind := typeConfig_TargetKind s;
     hostClusterClient_Update := hostClusterClient_Update s;
     hostClusterClient_UpdateStatus := hostClusterClient_UpdateStatus s;
     hostClusterClient_Get := hostClusterClient_Get s;
     member_OperationOK := answers;
     member_State := member_State s;
     dispatch_TimedOut := dispatch_TimedOut s;
     dispatch_StatusMap := dispatch_StatusMap s;
     dispatch_VersionMap := dispatch_VersionMap s;
     status_SetPropagationStatus := status_SetPropagationStatus s;
     wait_Ticks := wait_Ticks s;
     skipAdoptingResources := skipAdoptingResources s |}.

(** Clusters A and B ready, A caches a live copy, and every operation on
    a member cluster fails. *)
Definition ex_refusing : FederationSyncController :=
  ex_with_operations ex_pending (fun _ _ _ => false).




(** ** Choosing between orphaning and cascading *)

(** The annotation map binds the orphan key to exactly "true". *)
Definition orphanAnnotated (obj : Unstructured) : Prop :=
  exists m, GetAnnotations obj = Some m /\ m !! OrphanManagedResources = Some "true".

Lemma orphanResources_iff obj :
  orphanResources obj = true <-> orphanAnnotated obj.
Proof.
  unfold orphanResources, orphanAnnotated, map_index.
  destruct (GetAnnotations obj) as [m|]; [|split; [done | by intros (? & ? & _)]].
  rewrite bool_decide_eq_true. split.
  - intros Hv. exists m. split; [done|].
    destruct (m !! OrphanManagedResources) as [v|]; simpl in Hv; by subst.
  - intros (m' & [= <-] & ->). done.
Qed.

(** C10.  A terminating resource that carries the finalizer is orphaned
    exactly when its annotation map binds kubefed.k8s.io/orphan to the
    string "true": then the finalizer is removed and the labels are
    detached; with no annotation map, no such key or any other value the
    resource goes through [deleteFromClusters]. *)
Theorem orphan_path_iff_annotation_true
    (s : FederationSyncController) (fr : FederatedResource) (st : State) :
  hasFinalizer (st_obj st) ->
  let r := ensureDeletion s fr st in
  (orphanAnnotated (st_obj st) ->
   events r !! 2 =
     Some (EvLog 2 "Found %q annotation on %s %q. Removing the finalizer.") /\
   value r =
     match value (removeFinalizer s fr st) with
     | Some _ => StatusError
     | None =>
         orphanStatus
           (value (removeManagedLabel s (TargetKind fr) (TargetName fr)
                     (final (removeFinalizer s fr st))))
     end) /\
  (¬ orphanAnnotated (st_obj st) ->
   events r !! 2 =
     Some (EvLog 2 "Deleting resources managed by %s %q from member clusters.") /\
   value r = cascadeStatus (value (deleteFromClusters s fr st)) /\
   final r = final (deleteFromClusters s fr st)) /\
  (GetAnnotations (st_obj st) = None -> ¬ orphanAnnotated (st_obj st)) /\
  (forall m, GetAnnotations (st_obj st) = Some m ->
     m !! OrphanManagedResources <> Some "true" -> ¬ orphanAnnotated (st_obj st)).
Proof.
  intros Hfin r. split; [|split; [|split]].
  - intros Horph%orphanResources_iff.
    pose proof (ensureDeletion_orphan s fr st Hfin Horph) as Heq.
    simpl in Heq. fold r in Heq. rewrite Heq.
    destruct (value (removeFinalizer s fr st)); done.
  - intros Hn.
    assert (Horph : orphanResources (st_obj st) = false).
    { apply not_true_is_false. by intros ?%orphanResources_iff. }
    unfold r. by rewrite (ensureDeletion_cascade s fr st Hfin Horph).
  - intros Hnone (m & Hm & _). congruence.
  - intros m Hm Hv (m' & Hm' & Hv'). congruence.
Qed.

(** The annotation value "True" does not orphan. *)
Lemma orphan_path_iff_annotation_true_witness :
  let obj := ex_deleting (Some {[ OrphanManagedResources := "True" ]}) in
  let r := ensureDeletion ex_pending (ex_resource obj) (ex_state obj) in
  events r !! 2 =
    Some (EvLog 2 "Deleting resources managed by %s %q from member clusters.") /\
  value r = StatusNeedsRecheck.
Proof.
  intros obj r.
  assert (Hfin : hasFinalizer (st_obj (ex_state obj)))
    by (unfold hasFinalizer; simpl; left).
  destruct (orphan_path_iff_annotation_true ex_pending (ex_resource obj)
              (ex_state obj) Hfin) as (_ & Hcascade & _ & Hother).
  destruct Hcascade as (Hev & Hval & _).
  { apply (Hother {[ OrphanManagedResources := "True" ]}); [reflexivity|].
    rewrite lookup_singleton. discriminate. }
  split; [exact Hev|]. fold r in Hval. rewrite Hval. vm_compute. reflexivity.
Defined.

(** * Propagation *)

(** ** The decision for one cluster *)

(** What the loop of [syncToClusters] does for a cluster. *)
Inductive SyncAction :=
  | ActSkip
  | ActRecordError (status : PropagationStatus) (err : error)
  | ActRecordStatus (status : PropagationStatus)
  | ActIssue (op : Operation).

(** Carrying out an action on a dispatcher for the cluster [n]. *)
Definition perform (a : SyncAction) (n : string) (d : Dispatcher)
  : Dispatcher * list Event :=
  match a with
  | ActSkip => (d, [])
  | ActRecordError status err =>
      ({| d_kind := d_kind d;
          d_operations := d_operations d;
          d_recorded := d_recorded d ++ [(n, status)] |},
       [EvRecordClusterError status n err])
  | ActRecordStatus status =>
      ({| d_kind := d_kind d;
          d_operations := d_operations d;
          d_recorded := d_recorded d ++ [(n, status)] |},
       [EvRecordStatus n status])
  | ActIssue op =>
      ({| d_kind := d_kind d;
          d_operations := d_operations d ++ [(op, n)];
          d_recorded := d_recorded d |},
       [EvOperation (d_kind d) op n])
  end.

(** The decision table of the specification (4.2, step 3), row by row,
    over the readiness of the cluster, whether placement selected it,
    and the copy its cache holds. *)
Definition decisionTable (isReady selected : bool) (cached : option Unstructured)
    (isCompanion : Unstructured -> bool) : SyncAction :=
  match isReady, selected, cached with
  | false, true, _ => ActRecordError ClusterNotReady (Errorf "Cluster not ready" [])
  | false, false, _ => ActSkip
  | true, false, None => ActSkip
  | true, false, Some obj =>
      if bool_decide (GetDeletionTimestamp obj <> None)
      then ActRecordStatus WaitingForRemoval
      else if isCompanion obj then ActIssue OpRemoveManagedLabel
      else ActIssue OpDelete
  | true, true, None => ActIssue OpCreate
  | true, true, Some _ => ActIssue OpUpdate
  end.

Section Sync.

Variable s : FederationSyncController.
Variable fr : FederatedResource.
Variable selected : gset string.
Variable key : string.

(** The action of the loop body, read off its branches. *)
Definition syncAction (c : KubefedCluster) : SyncAction :=
  if IsClusterReady (cluster_Status c) then
    match targetStore_GetByKey s (cluster_Name c) key with
    | (_, Some err) =>
        ActRecordError CachedRetrievalFailed
          (Wrapf err "Failed to retrieve cached cluster object")
    | (cached, None) =>
        decisionTable true (bool_decide (cluster_Name c ∈ selected)) cached
          (IsNamespaceInHostCluster fr)
    end
  else
    decisionTable false (bool_decide (cluster_Name c ∈ selected)) None
      (IsNamespaceInHostCluster fr).

Lemma syncToClusters_body_perform c d st :
  syncToClusters_body s fr selected key c d st =
    ((perform (syncAction c) (cluster_Name c) d).1, st,
     (perform (syncAction c) (cluster_Name c) d).2).
Proof.
  unfold syncToClusters_body, syncAction, decisionTable.
  destruct (IsClusterReady (cluster_Status c)); simpl.
  - destruct (targetStore_GetByKey s (cluster_Name c) key) as [raw [err|]].
    + by destruct raw.
    + destruct (bool_decide (cluster_Name c ∈ selected)); simpl.
      * by destruct raw.
      * destruct raw as [o|]; [|done].
        destruct (bool_decide (GetDeletionTimestamp o <> None)); [done|].
        by destruct (IsNamespaceInHostCluster fr o).
  - by destruct (bool_decide (cluster_Name c ∈ selected)).
Qed.

Definition syncStep (d : Dispatcher) (c : KubefedCluster) : Dispatcher :=
  (perform (syncAction c) (cluster_Name c) d).1.

Definition syncEvents (c : KubefedCluster) : list Event :=
  (perform (syncAction c) (cluster_Name c) NewManagedDispatcher).2.

Lemma perform_kind a n d : d_kind (perform a n d).1 = d_kind d.
Proof. by destruct a. Qed.

Lemma perform_events a n d d' :
  d_kind d = d_kind d' -> (perform a n d).2 = (perform a n d').2.
Proof. intros Hk. destruct a; simpl; by rewrite ?Hk. Qed.

Lemma syncToClusters_loop clusters st :
  post (for_range clusters (syncToClusters_body s fr selected key)
          NewManagedDispatcher) st
    (fun d st' t =>
       st' = st /\
       d_kind d = ManagedDispatcher /\
       d = foldl syncStep NewManagedDispatcher clusters /\
       t = clusters ≫= syncEvents).
Proof.
  apply (post_for_range (fun done d st' t =>
       st' = st /\
       d_kind d = ManagedDispatcher /\
       d = foldl syncStep NewManagedDispatcher done /\
       t = done ≫= syncEvents)); [done|].
  intros done x d st1 t _ (-> & Hk & Hd & ->).
  unfold post. rewrite syncToClusters_body_perform.
  rewrite value_eq, final_eq, events_eq.
  split; [done|]. split; [by rewrite perform_kind|].
  split.
  - rewrite foldl_snoc. unfold syncStep at 1. by rewrite <- Hd.
  - rewrite bind_app, bind_singleton. f_equal.
    unfold syncEvents. by apply perform_events.
Qed.

End Sync.

(** ** The runs of [syncToClusters] *)

Section SyncRun.

Variable s : FederationSyncController.

(** What follows the join when the shared deadline elapsed. *)
Definition syncTimeoutEvents : list Event :=
  if dispatch_TimedOut s ManagedDispatcher
  then [EvRecordError "OperationTimeoutError"
          (Errorf "Failed to finish %d operations in %v" [])]
  else [].

(** The write of the version map, and the log of its failure. *)
Definition versionEvents (fr : FederatedResource) (selected : gset string)
    (d : Dispatcher) : list Event :=
  EvUpdateVersions (elements selected) (dispatch_VersionMap s d) ::
  match UpdateVersions fr (elements selected) (dispatch_VersionMap s d) with
  | Some err => [EvHandleError err]
  | None => []
  end.

Lemma syncToClusters_run fr st clusters selected :
  informer_GetClusters s ForSync = (clusters, None) ->
  ComputePlacement fr clusters = (selected, None) ->
  let key := QualifiedName_String (TargetName fr) in
  let d := foldl (syncStep s fr selected key) NewManagedDispatcher clusters in
  let tail := setPropagationStatus s fr AggregateSuccess (dispatch_StatusMap s d) st in
  syncToClusters s fr st =
    (value tail, final tail,
     [EvComputePlacement;
      EvLog 4 "Syncing %s %q in underlying clusters, selected clusters are: %s"] ++
     (clusters ≫= syncEvents s fr selected key) ++
     [EvWait ManagedDispatcher] ++ syncTimeoutEvents ++
     versionEvents fr selected d ++ events tail).
Proof.
  intros Hget Hplace key d tail. apply post_eq.
  unfold syncToClusters. rewrite Hget.
  unfold FederatedResource_ComputePlacement.
  do 2 apply post_bind. do 2 wp1. rewrite Hplace.
  apply post_bind. wp1. apply post_bind.
  eapply post_mono; [apply syncToClusters_loop|].
  intros d' st1 t (-> & Hk & Hd & ->). fold key in Hd. fold d in Hd. subst d'.
  subst tail. cbv zeta.
  generalize (setPropagationStatus s fr AggregateSuccess (dispatch_StatusMap s d)).
  intros m. unfold Dispatcher_Wait. rewrite Hk. wp.
  unfold syncTimeoutEvents, versionEvents, FederatedResource_UpdateVersions,
    FederatedResource_RecordError.
  destruct (dispatch_TimedOut s ManagedDispatcher); wp;
    destruct (UpdateVersions fr (elements selected) (dispatch_VersionMap s d)); wp;
    rewrite ?app_nil_r, <- ?app_assoc; done.
Qed.

Lemma syncToClusters_run_listing_err fr st clusters err :
  informer_GetClusters s ForSync = (clusters, Some err) ->
  let tail := setPropagationStatus s fr ClusterRetrievalFailed ∅ st in
  syncToClusters s fr st =
    (value tail, final tail,
     EvRecordError (AggregateReason_string ClusterRetrievalFailed)
       (Wrapf err "Failed to retrieve list of clusters") :: events tail).
Proof.
  intros Hget tail. apply post_eq. unfold syncToClusters. rewrite Hget.
  subst tail. generalize (setPropagationStatus s fr ClusterRetrievalFailed ∅).
  intros m. unfold FederatedResource_RecordError. wp. done.
Qed.

Lemma syncToClusters_run_placement_err fr st clusters selected err :
  informer_GetClusters s ForSync = (clusters, None) ->
  ComputePlacement fr clusters = (selected, Some err) ->
  let tail := setPropagationStatus s fr ComputePlacementFailed ∅ st in
  syncToClusters s fr st =
    (value tail, final tail,
     EvComputePlacement ::
     EvRecordError (AggregateReason_string ComputePlacementFailed)
       (Wrapf err "Failed to compute placement") :: events tail).
Proof.
  intros Hget Hplace tail. apply post_eq. unfold syncToClusters. rewrite Hget.
  subst tail. generalize (setPropagationStatus s fr ComputePlacementFailed ∅).
  intros m. unfold FederatedResource_ComputePlacement, FederatedResource_RecordError.
  do 2 apply post_bind. do 2 wp1. rewrite Hplace. wp. done.
Qed.

End SyncRun.

(** * Writing the propagation status *)

Section Poll.

Variable s : FederationSyncController.
Variable reason : AggregateReason.
Variable statusMap : PropagationStatusMap.

Definition withObj (st : State) (obj : Unstructured) : State :=
  {| st_obj := obj; st_tick := st_tick st |}.

(** The events of an attempt whose write met a conflict. *)
Definition conflictEvents (st : State) (merged : Unstructured) (err : error)
    (fetched : Unstructured) (gerr : option error) : list Event :=
  [EvSetPropagationStatus (st_obj st) reason statusMap;
   EvUpdateStatus merged (Some err);
   EvLog 2 "Failed to set propagation status for %s %q due to conflict (will retry): %v.";
   EvGet (GetNamespace merged) (GetName merged) fetched gerr].

(** The runs of the poll: [PollRun ticks st r] when the loop started in
    [st] with [ticks] ticks left ends as [r]. *)
Inductive PollRun : nat -> State -> option error * State * list Event -> Prop :=
  | PollRun_merge_failed ticks st merged err :
      status_SetPropagationStatus s (st_obj st) reason statusMap = (merged, Some err) ->
      PollRun ticks st
        (Some (Wrapf err "failed to set the status"), withObj st merged,
         [EvSetPropagationStatus (st_obj st) reason statusMap])
  | PollRun_written ticks st merged :
      status_SetPropagationStatus s (st_obj st) reason statusMap = (merged, None) ->
      hostClusterClient_UpdateStatus s (st_tick st) merged = None ->
      PollRun ticks st
        (None, withObj st merged,
         [EvSetPropagationStatus (st_obj st) reason statusMap;
          EvUpdateStatus merged None])
  | PollRun_write_failed ticks st merged err :
      status_SetPropagationStatus s (st_obj st) reason statusMap = (merged, None) ->
      hostClusterClient_UpdateStatus s (st_tick st) merged = Some err ->
      IsConflict err = false ->
      PollRun ticks st
        (Some (Wrapf err "failed to update resource"), withObj st merged,
         [EvSetPropagationStatus (st_obj st) reason statusMap;
          EvUpdateStatus merged (Some err)])
  | PollRun_refetch_failed ticks st merged err fetched gerr :
      status_SetPropagationStatus s (st_obj st) reason statusMap = (merged, None) ->
      hostClusterClient_UpdateStatus s (st_tick st) merged = Some err ->
      IsConflict err = true ->
      hostClusterClient_Get s (st_tick st) (GetNamespace merged) (GetName merged)
        = (fetched, Some gerr) ->
      PollRun ticks st
        (Some (Wrapf gerr "failed to retrieve resource"), withObj st merged,
         conflictEvents st merged err fetched (Some gerr))
  | PollRun_timeout st merged err fetched :
      status_SetPropagationStatus s (st_obj st) reason statusMap = (merged, None) ->
      hostClusterClient_UpdateStatus s (st_tick st) merged = Some err ->
      IsConflict err = true ->
      hostClusterClient_Get s (st_tick st) (GetNamespace merged) (GetName merged)
        = (fetched, None) ->
      PollRun 0 st
        (Some ErrWaitTimeout, withObj st fetched,
         conflictEvents st merged err fetched None)
  | PollRun_retry ticks st merged err fetched r :
      status_SetPropagationStatus s (st_obj st) reason statusMap = (merged, None) ->
      hostClusterClient_UpdateStatus s (st_tick st) merged = Some err ->
      IsConflict err = true ->
      hostClusterClient_Get s (st_tick st) (GetNamespace merged) (GetName merged)
        = (fetched, None) ->
      PollRun ticks {| st_obj := fetched; st_tick := S (st_tick st) |} r ->
      PollRun (S ticks) st
        (value r, final r, conflictEvents st merged err fetched None ++ events r).

Lemma PollImmediate_loop_run ticks st :
  PollRun ticks st
    (PollImmediate_loop ticks (setPropagationStatus_condition s reason statusMap) st).
Proof.
  revert st. induction ticks as [|ticks IH]; intros st;
    unfold PollImmediate_loop; fold PollImmediate_loop;
    unfold bind at 1, setPropagationStatus_condition at 1;
    unfold bind, getObj, emit, setObj, getTick, klog_Infof, tick; simpl;
    destruct (status_SetPropagationStatus s (st_obj st) reason statusMap)
      as [merged [merr|]] eqn:Hmerge; simpl;
    try (by apply PollRun_merge_failed);
    destruct (hostClusterClient_UpdateStatus s (st_tick st) merged)
      as [err|] eqn:Hupd; simpl;
    try (by apply PollRun_written);
    destruct (IsConflict err) eqn:Hconf; simpl;
    try (by apply PollRun_write_failed);
    destruct (hostClusterClient_Get s (st_tick st) (GetNamespace merged)
                (GetName merged)) as [fetched [gerr|]] eqn:Hget; simpl;
    try (by eapply PollRun_refetch_failed).
  - by eapply PollRun_timeout.
  - specialize (IH {| st_obj := fetched; st_tick := S (st_tick st) |}).
    pose proof (PollRun_retry ticks st merged err fetched _ Hmerge Hupd Hconf Hget IH)
      as Hrun.
    destruct (PollImmediate_loop ticks _ _) as [[v st'] t]. exact Hrun.
Qed.

End Poll.

(** ** What the poll guarantees *)

(** Every merge in a trace is applied to a fresh base: the object the
    poll started with, or the object the last successful fetch returned,
    and no base is merged into twice. *)
Fixpoint freshBase (base : option Unstructured) (t : list Event) : Prop :=
  match t with
  | [] => True
  | EvSetPropagationStatus obj _ _ :: t' => base = Some obj /\ freshBase None t'
  | EvGet _ _ fetched None :: t' => freshBase (Some fetched) t'
  | _ :: t' => freshBase base t'
  end.

Definition isAttempt (e : Event) : bool :=
  match e with EvSetPropagationStatus _ _ _ => true | _ => false end.

(** The number of merge-and-write attempts in a trace. *)
Definition attempts (t : list Event) : nat := length (List.filter isAttempt t).

Lemma attempts_app t1 t2 : attempts (t1 ++ t2) = (attempts t1 + attempts t2)%nat.
Proof. unfold attempts. by rewrite List.filter_app, length_app. Qed.

Section PollFacts.

Variable s : FederationSyncController.
Variable reason : AggregateReason.
Variable statusMap : PropagationStatusMap.

Lemma PollRun_freshBase ticks st r :
  PollRun s reason statusMap ticks st r ->
  freshBase (Some (st_obj st)) (events r).
Proof.
  induction 1 as [| | | | |ticks st merged err fetched r Hm Hu Hc Hg Hrun IH];
    unfold events in *; simpl in *; done.
Qed.

Lemma freshBase_inert base t rest :
  freshBase base t -> Forall (fun e => isAttempt e = false) rest ->
  freshBase base (t ++ rest).
Proof.
  intros Ht Hrest. revert base Ht.
  induction t as [|e t IH]; intros base Ht; simpl.
  - clear Ht. revert base. induction Hrest as [|e rest He _ IH]; intros base; [done|].
    destruct e; simpl in *; try done; try apply IH.
    destruct err; apply IH.
  - destruct e; simpl in *; try (by apply IH).
    + destruct Ht as [Hb Ht]. split; [done|]. by apply IH.
    + destruct err; by apply IH.
Qed.

Lemma PollRun_attempts ticks st r :
  PollRun s reason statusMap ticks st r -> (attempts (events r) <= S ticks)%nat.
Proof.
  induction 1 as [| | | | |ticks st merged err fetched r Hm Hu Hc Hg Hrun IH];
    unfold events, attempts in *; simpl in *; lia.
Qed.

(** The poll succeeds exactly when a write went through; the object in
    memory is then the merged object that was written. *)
Lemma PollRun_written_iff ticks st r :
  PollRun s reason statusMap ticks st r ->
  (value r = None <-> exists obj, EvUpdateStatus obj None ∈ events r) /\
  (value r = None ->
   exists pre base,
     events r =
       pre ++ [EvSetPropagationStatus base reason statusMap;
               EvUpdateStatus (st_obj (final r)) None] /\
     status_SetPropagationStatus s base reason statusMap = (st_obj (final r), None)).
Proof.
  induction 1 as [| ticks st merged Hm Hu | | |
    |ticks st merged err fetched r Hm Hu Hc Hg Hrun [IH1 IH2]];
    unfold value, final, events in *; simpl in *.
  1,3,4,5: split; [split; [done|] | done]; intros [obj Hin];
    repeat (apply elem_of_cons in Hin as [Hin | Hin]; [done|]);
    by apply elem_of_nil in Hin.
  - split; [split; [|done]; intros _; exists merged; right; by left|].
    intros _. by exists [], (st_obj st).
  - split.
    + rewrite IH1. split; intros [obj Hin]; exists obj.
      * by do 4 right.
      * repeat (apply elem_of_cons in Hin as [Hin | Hin]; [done|]). done.
    + intros Hv. destruct (IH2 Hv) as (pre & base & -> & Hbase).
      eexists (_ :: _ :: _ :: _ :: pre), base. done.
Qed.

Lemma PollRun_write_failure ticks st r obj err :
  PollRun s reason statusMap ticks st r ->
  EvUpdateStatus obj (Some err) ∈ events r -> IsConflict err = false ->
  value r = Some (Wrapf err "failed to update resource").
Proof.
  induction 1 as [| | | | |ticks st merged cerr fetched r Hm Hu Hc Hg Hrun IH];
    unfold value, events in *; simpl in *; intros Hin Hnc;
    repeat (apply elem_of_cons in Hin as [Hin | Hin];
            [try done; injection Hin as -> ->; congruence|]);
    try (by apply elem_of_nil in Hin).
  by apply IH.
Qed.

Lemma PollRun_refetch_failure ticks st r ns n fetched err :
  PollRun s reason statusMap ticks st r ->
  EvGet ns n fetched (Some err) ∈ events r ->
  value r = Some (Wrapf err "failed to retrieve resource").
Proof.
  induction 1 as [| | | | |ticks st merged cerr fetched' r Hm Hu Hc Hg Hrun IH];
    unfold value, events in *; simpl in *; intros Hin;
    repeat (apply elem_of_cons in Hin as [Hin | Hin];
            [try done; injection Hin as -> -> -> ->; congruence|]);
    try (by apply elem_of_nil in Hin).
  by apply IH.
Qed.

End PollFacts.

Section StatusWrite.

Variable s : FederationSyncController.

Lemma PollRun_exhausted reason statusMap ticks st r :
  (forall obj, (status_SetPropagationStatus s obj reason statusMap).2 = None) ->
  (forall n obj, exists err,
     hostClusterClient_UpdateStatus s n obj = Some err /\ IsConflict err = true) ->
  (forall n ns name, (hostClusterClient_Get s n ns name).2 = None) ->
  PollRun s reason statusMap ticks st r ->
  value r = Some ErrWaitTimeout /\ attempts (events r) = S ticks.
Proof.
  intros Hmerge Hconf Hget.
  induction 1 as [ticks st merged err Hm | ticks st merged Hm Hu
    | ticks st merged err Hm Hu Hc | ticks st merged err fetched gerr Hm Hu Hc Hg
    | st merged err fetched Hm Hu Hc Hg
    | ticks st merged err fetched r Hm Hu Hc Hg Hrun IH].
  - specialize (Hmerge (st_obj st)). by rewrite Hm in Hmerge.
  - destruct (Hconf (st_tick st) merged) as (e & He & _). congruence.
  - destruct (Hconf (st_tick st) merged) as (e & He & Hec). congruence.
  - specialize (Hget (st_tick st) (GetNamespace merged) (GetName merged)).
    by rewrite Hg in Hget.
  - done.
  - destruct IH as [IHv IHa]. split; [done|].
    unfold events, attempts in *; simpl in *. by rewrite IHa.
Qed.

(** The poll of [setPropagationStatus] and what it makes of its result. *)
Lemma setPropagationStatus_run fr reason statusMap st :
  let p := PollImmediate_loop (wait_Ticks s (1 * Second) (5 * Second))
             (setPropagationStatus_condition s reason statusMap) st in
  setPropagationStatus s fr reason statusMap st =
    (match value p with Some _ => StatusError | None => StatusAllOK end,
     final p,
     EvPollImmediate 1000000000 5000000000 :: events p ++
     match value p with
     | Some err =>
         [EvHandleError (Wrapf err "failed to set propagation status for %s %q")]
     | None => []
     end).
Proof.
  intros p. unfold setPropagationStatus, wait_PollImmediate, bind, emit; simpl.
  fold p. destruct p as [[[err|] st'] t]; simpl; by rewrite ?app_nil_r.
Qed.

End StatusWrite.

(** C5.  [setPropagationStatus] polls every second for at most five
    seconds.  Every attempt merges the status into the object in memory
    and, unless the merge fails, writes it with UpdateStatus.  After a
    conflict the object is fetched again, and the next merge is applied
    to the fetched object; the attempts number at most one more than the
    ticks of the poller.  The status is AllOK exactly when a write went
    through, and then the object in memory is the merged object that
    was written; a write failure that is no conflict, a failed fetch, and
    conflicts on every attempt each give Error. *)
Theorem status_write_retries_from_fresh_object
    (s : FederationSyncController) (fr : FederatedResource)
    (reason : AggregateReason) (statusMap : PropagationStatusMap) (st : State) :
  let r := setPropagationStatus s fr reason statusMap st in
  let ticks := wait_Ticks s (1 * Second) (5 * Second) in
  (exists t, events r = EvPollImmediate 1000000000 5000000000 :: t) /\
  freshBase (Some (st_obj st)) (events r) /\
  (attempts (events r) <= S ticks)%nat /\
  (value r = StatusAllOK \/ value r = StatusError) /\
  (value r = StatusAllOK <-> exists obj, EvUpdateStatus obj None ∈ events r) /\
  (value r = StatusAllOK ->
   exists pre base,
     events r =
       pre ++ [EvSetPropagationStatus base reason statusMap;
               EvUpdateStatus (st_obj (final r)) None] /\
     status_SetPropagationStatus s base reason statusMap
       = (st_obj (final r), None)) /\
  (forall obj err,
     EvUpdateStatus obj (Some err) ∈ events r -> IsConflict err = false ->
     value r = StatusError) /\
  (forall ns n fetched err,
     EvGet ns n fetched (Some err) ∈ events r -> value r = StatusError) /\
  ((forall obj, (status_SetPropagationStatus s obj reason statusMap).2 = None) ->
   (forall n obj, exists err,
      hostClusterClient_UpdateStatus s n obj = Some err /\ IsConflict err = true) ->
   (forall n ns name, (hostClusterClient_Get s n ns name).2 = None) ->
   value r = StatusError /\ attempts (events r) = S ticks /\
   EvHandleError (Wrapf ErrWaitTimeout "failed to set propagation status for %s %q")
     ∈ events r).
Proof.
  intros r ticks. unfold r.
  rewrite (setPropagationStatus_run s fr reason statusMap st).
  pose proof (PollImmediate_loop_run s reason statusMap ticks st) as Hrun.
  fold ticks.
  set (p := PollImmediate_loop ticks
              (setPropagationStatus_condition s reason statusMap) st) in *.
  rewrite value_eq, final_eq, events_eq.
  set (tail := match value p with
               | Some err =>
                   [EvHandleError
                      (Wrapf err "failed to set propagation status for %s %q")]
               | None => []
               end).
  assert (Htail : Forall (fun e => isAttempt e = false) tail).
  { unfold tail. destruct (value p); [by apply Forall_singleton | by apply Forall_nil]. }
  assert (Hin : forall e, (match e with EvHandleError _ | EvPollImmediate _ _ => False
                                   | _ => True end) ->
            e ∈ EvPollImmediate 1000000000 5000000000 :: events p ++ tail ->
            e ∈ events p).
  { intros e He [-> | [Hin | Hin]%elem_of_app]%elem_of_cons; [done | done |].
    unfold tail in Hin. destruct (value p).
    - apply list_elem_of_singleton in Hin. by subst e.
    - by apply elem_of_nil in Hin. }
  destruct (PollRun_written_iff s reason statusMap ticks st p Hrun) as [Hiff Hlast].
  split; [by eexists|].
  split; [simpl; apply freshBase_inert; [by eapply PollRun_freshBase | done]|].
  split.
  { change (EvPollImmediate 1000000000 5000000000 :: events p ++ tail)
      with ([EvPollImmediate 1000000000 5000000000] ++ events p ++ tail).
    rewrite !attempts_app.
    assert (attempts tail = 0%nat) as ->.
    { unfold tail. by destruct (value p). }
    pose proof (PollRun_attempts s reason statusMap ticks st p Hrun).
    unfold attempts at 1; simpl. lia. }
  split; [destruct (value p); auto|].
  split.
  { split.
    - intros Hv. destruct (value p) eqn:Hp; [done|].
      destruct (proj1 Hiff eq_refl) as [obj Hobj]. exists obj.
      right. apply elem_of_app. by left.
    - intros [obj Hobj]. apply Hin in Hobj; [|done].
      by rewrite (proj2 Hiff (ex_intro _ obj Hobj)). }
  split.
  { intros Hv. destruct (value p) eqn:Hp; [done|].
    destruct (Hlast eq_refl) as (pre & base & Hev & Hbase).
    exists (EvPollImmediate 1000000000 5000000000 :: pre), base.
    split; [|done]. unfold tail. rewrite Hev, app_nil_r. done. }
  split.
  { intros obj err Hobj%Hin Hnc; [|done].
    by rewrite (PollRun_write_failure s reason statusMap ticks st p obj err Hrun). }
  split.
  { intros ns n fetched err Hget%Hin; [|done].
    by rewrite (PollRun_refetch_failure s reason statusMap ticks st p ns n fetched
                  err Hrun). }
  intros Hmerge Hconf Hget.
  destruct (PollRun_exhausted s reason statusMap ticks st p Hmerge Hconf Hget Hrun)
    as [Hv Ha].
  unfold tail. rewrite Hv. split; [done|]. split.
  - change (EvPollImmediate 1000000000 5000000000 :: events p ++
            [EvHandleError
               (Wrapf ErrWaitTimeout "failed to set propagation status for %s %q")])
      with ([EvPollImmediate 1000000000 5000000000] ++ events p ++
            [EvHandleError
               (Wrapf ErrWaitTimeout "failed to set propagation status for %s %q")]).
    rewrite !attempts_app, Ha. unfold attempts; simpl. lia.
  - right. apply elem_of_app. right. by left.
Qed.

(** ** After the dispatch join *)

Lemma PollRun_first s reason statusMap ticks st r :
  PollRun s reason statusMap ticks st r ->
  exists t, events r = EvSetPropagationStatus (st_obj st) reason statusMap :: t.
Proof. destruct 1; unfold events; simpl; by eexists. Qed.

Lemma PollRun_no_operation s reason statusMap ticks st r :
  PollRun s reason statusMap ticks st r ->
  Forall (fun e => ¬ isOperation e) (events r).
Proof.
  induction 1 as [| | | | |ticks st merged err fetched r Hm Hu Hc Hg Hrun IH];
    unfold events in *; simpl in *;
    repeat (apply Forall_cons; split; [by intros []|]);
    by try apply Forall_nil.
Qed.

Lemma setPropagationStatus_no_operation s fr reason statusMap st :
  Forall (fun e => ¬ isOperation e)
    (events (setPropagationStatus s fr reason statusMap st)).
Proof.
  rewrite setPropagationStatus_run, events_eq.
  apply Forall_cons. split; [by intros []|].
  apply Forall_app. split.
  - exact (PollRun_no_operation _ _ _ _ _ _
             (PollImmediate_loop_run s reason statusMap _ st)).
  - destruct (value _); [apply Forall_singleton; by intros [] | by apply Forall_nil].
Qed.

Lemma setPropagationStatus_status s fr reason statusMap st :
  value (setPropagationStatus s fr reason statusMap st) = StatusAllOK \/
  value (setPropagationStatus s fr reason statusMap st) = StatusError.
Proof. rewrite setPropagationStatus_run, value_eq. destruct (value _); auto. Qed.

(** The resource with another answer to UpdateVersions. *)
Definition withUpdateVersions (fr : FederatedResource)
    (answer : list string -> VersionMap -> option error) : FederatedResource :=
  {| Object := Object fr;
     FederatedName := FederatedName fr;
     FederatedKind := FederatedKind fr;
     TargetName := TargetName fr;
     TargetKind := TargetKind fr;
     ComputePlacement := ComputePlacement fr;
     IsNamespaceInHostCluster := IsNamespaceInHostCluster fr;
     UpdateVersions := answer |}.

(** C6.  Once the clusters are listed and placement is computed,
    [syncToClusters] ends with [setPropagationStatus] under the reason
    AggregateSuccess on the status map of the dispatcher, and returns
    its status, whatever the dispatched operations did: a failure of
    UpdateVersions is handed to the error handler and changes neither
    the status nor the object, and a timeout of the join is recorded on
    the resource as OperationTimeoutError. *)
Theorem sync_always_aggregates_success
    (s : FederationSyncController) (fr : FederatedResource) (st : State)
    (clusters : list KubefedCluster) (selected : gset string) :
  informer_GetClusters s ForSync = (clusters, None) ->
  ComputePlacement fr clusters = (selected, None) ->
  let key := QualifiedName_String (TargetName fr) in
  let d := foldl (syncStep s fr selected key) NewManagedDispatcher clusters in
  let tail := setPropagationStatus s fr AggregateSuccess (dispatch_StatusMap s d) st in
  let r := syncToClusters s fr st in
  value r = value tail /\ final r = final tail /\
  (value r = StatusAllOK \/ value r = StatusError) /\
  (exists pre, events r = pre ++ [EvWait ManagedDispatcher] ++ syncTimeoutEvents s ++
                 versionEvents s fr selected d ++ events tail) /\
  (exists t, events tail =
     EvPollImmediate 1000000000 5000000000 ::
     EvSetPropagationStatus (st_obj st) AggregateSuccess (dispatch_StatusMap s d) :: t) /\
  (forall err,
     UpdateVersions fr (elements selected) (dispatch_VersionMap s d) = Some err ->
     EvHandleError err ∈ events r) /\
  (forall answer,
     value (syncToClusters s (withUpdateVersions fr answer) st) = value r /\
     final (syncToClusters s (withUpdateVersions fr answer) st) = final r) /\
  (dispatch_TimedOut s ManagedDispatcher = true ->
   EvRecordError "OperationTimeoutError"
     (Errorf "Failed to finish %d operations in %v" []) ∈ events r).
Proof.
  intros Hget Hplace key d tail r.
  pose proof (syncToClusters_run s fr st clusters selected Hget Hplace) as Hrun.
  cbv zeta in Hrun. fold key d tail r in Hrun.
  rewrite Hrun, value_eq, final_eq, events_eq.
  split; [done|]. split; [done|].
  split; [apply setPropagationStatus_status|].
  split; [eexists (_ ++ _); by rewrite <- app_assoc|].
  split.
  { unfold tail. rewrite setPropagationStatus_run, events_eq.
    destruct (PollRun_first _ _ _ _ _ _
                (PollImmediate_loop_run s AggregateSuccess (dispatch_StatusMap s d)
                   (wait_Ticks s (1 * Second) (5 * Second)) st)) as [t ->].
    by eexists. }
  split.
  { intros err Herr. rewrite !elem_of_app. do 4 right. left.
    unfold versionEvents. rewrite Herr. right. by left. }
  split.
  { intros answer.
    pose proof (syncToClusters_run s (withUpdateVersions fr answer) st clusters
                  selected Hget Hplace) as Hrun'.
    cbv zeta in Hrun'. rewrite Hrun', value_eq, final_eq. done. }
  intros Hto. rewrite !elem_of_app. do 3 right. left.
  unfold syncTimeoutEvents. rewrite Hto. by left.
Qed.

(** ** No operation on an unready cluster *)

Lemma syncEvents_operation s fr selected key clusters k op n :
  EvOperation k op n ∈ clusters ≫= syncEvents s fr selected key ->
  exists c, c ∈ clusters /\ cluster_Name c = n /\ ready c.
Proof.
  intros (c & He & Hc)%list_elem_of_bind. exists c. split; [done|].
  unfold syncEvents, syncAction, decisionTable, ready in *.
  destruct (IsClusterReady (cluster_Status c)).
  - split; [|done].
    destruct (targetStore_GetByKey s (cluster_Name c) key) as [[o|] [err|]];
      destruct (bool_decide (cluster_Name c ∈ selected)); simpl in He;
      try destruct (bool_decide (GetDeletionTimestamp o <> None));
      try destruct (IsNamespaceInHostCluster fr o); simpl in He;
      try (by apply elem_of_nil in He);
      apply list_elem_of_singleton in He; congruence.
  - destruct (bool_decide (cluster_Name c ∈ selected)); simpl in He;
      [by apply list_elem_of_singleton in He | by apply elem_of_nil in He].
Qed.

Lemma syncToClusters_operation s fr st k op n :
  EvOperation k op n ∈ events (syncToClusters s fr st) ->
  exists clusters c,
    informer_GetClusters s ForSync = (clusters, None) /\
    c ∈ clusters /\ cluster_Name c = n /\ ready c.
Proof.
  pose proof (setPropagationStatus_no_operation s fr) as Hstatus.
  assert (Hno : forall reason statusMap,
            EvOperation k op n ∉ events (setPropagationStatus s fr reason statusMap st)).
  { intros reason statusMap Hin. specialize (Hstatus reason statusMap st).
    rewrite Forall_forall in Hstatus. by apply (Hstatus _ Hin). }
  destruct (informer_GetClusters s ForSync) as [clusters [err|]] eqn:Hget.
  { rewrite (syncToClusters_run_listing_err s fr st clusters err Hget), events_eq.
    intros [Hin | Hin]%elem_of_cons; [done | by apply Hno in Hin]. }
  destruct (ComputePlacement fr clusters) as [selected [err|]] eqn:Hplace.
  { rewrite (syncToClusters_run_placement_err s fr st clusters selected err Hget Hplace),
      events_eq.
    intros [Hin | [Hin | Hin]%elem_of_cons]%elem_of_cons;
      [done | done | by apply Hno in Hin]. }
  pose proof (syncToClusters_run s fr st clusters selected Hget Hplace) as Hrun.
  cbv zeta in Hrun. rewrite Hrun, events_eq, !elem_of_app.
  intros [Hin | [Hin | [Hin | [Hin | [Hin | Hin]]]]].
  - repeat (apply elem_of_cons in Hin as [Hin | Hin]; [done|]).
    by apply elem_of_nil in Hin.
  - destruct (syncEvents_operation _ _ _ _ _ _ _ _ Hin) as (c & Hc). by exists clusters, c.
  - by apply list_elem_of_singleton in Hin.
  - unfold syncTimeoutEvents in Hin. destruct (dispatch_TimedOut s ManagedDispatcher).
    + by apply list_elem_of_singleton in Hin.
    + by apply elem_of_nil in Hin.
  - unfold versionEvents in Hin. apply elem_of_cons in Hin as [Hin | Hin]; [done|].
    destruct (UpdateVersions _ _ _).
    + by apply list_elem_of_singleton in Hin.
    + by apply elem_of_nil in Hin.
  - by apply Hno in Hin.
Qed.

Lemma LabelRun_operation s qualifiedName st r k op n :
  LabelRun s qualifiedName st r ->
  EvOperation k op n ∈ events r ->
  exists clusters c,
    informer_GetClusters s ForDeletion = (clusters, None) /\
    c ∈ clusters /\ cluster_Name c = n /\ ready c.
Proof.
  intros Hrun Hin.
  destruct Hrun as [cs err Hget | cs err Hget Hout | cs Hget Hout | cs Hget Hout];
    unfold events in Hin; simpl in Hin;
    [by apply elem_of_nil in Hin|..];
    apply labelEvents_operation in Hin as (_ & _ & c & o & Hc & -> & Hcopy & _);
    exists cs, c; eauto using cachedCopy_ready.
Qed.

Lemma checkEvents_operation clusters k op n :
  EvOperation k op n ∈ checkEvents clusters ->
  exists c, c ∈ clusters /\ cluster_Name c = n /\ ready c.
Proof.
  unfold checkEvents. intros [Hin | Hin]%elem_of_app.
  - apply list_elem_of_fmap in Hin as (c & He & [Hr Hc]%list_elem_of_filter).
    unfold checkEvent in He. exists c. split; [done|]. split; [congruence | done].
  - by apply list_elem_of_singleton in Hin.
Qed.

Lemma DeleteRun_operation s fr st r k op n :
  DeleteRun s fr st r ->
  EvOperation k op n ∈ events r ->
  exists listing clusters c,
    informer_GetClusters s listing = (clusters, None) /\
    c ∈ clusters /\ cluster_Name c = n /\ ready c.
Proof.
  intros Hrun Hin.
  assert (Hcascade : forall cs,
    informer_GetClusters s ForDeletion = (cs, None) ->
    EvOperation k op n
      ∈ cascadeEvents s fr (QualifiedName_String (TargetName fr)) cs ->
    exists listing clusters c,
      informer_GetClusters s listing = (clusters, None) /\
      c ∈ clusters /\ cluster_Name c = n /\ ready c).
  { intros cs Hget [Hc | Hc]%elem_of_app;
      [|by apply list_elem_of_singleton in Hc].
    apply deletionEvents_operation in Hc as (c & o & Hc & -> & _ & Hcopy & _).
    exists ForDeletion, cs, c. eauto using cachedCopy_ready. }
  assert (Hcheck : forall ck,
    informer_GetClusters s ForCheck = (ck, None) ->
    EvOperation k op n ∈ checkEvents ck ->
    exists listing clusters c,
      informer_GetClusters s listing = (clusters, None) /\
      c ∈ clusters /\ cluster_Name c = n /\ ready c).
  { intros ck Hget (c & Hc)%checkEvents_operation. by exists ForCheck, ck, c. }
  destruct Hrun as [cs err Hget | cs err Hget Hout | cs Hget Hout
    | cs Hget Hout Hrem | cs ck err Hget Hout Hrem Hget2
    | cs ck err Hget Hout Hrem Hget2 Hv | cs ck Hget Hout Hrem Hget2 Hv];
    unfold events in Hin; simpl in Hin.
  - by apply elem_of_nil in Hin.
  - eauto.
  - eauto.
  - apply elem_of_app in Hin as [Hin | Hin]; [eauto|].
    by apply list_elem_of_singleton in Hin.
  - eauto.
  - apply elem_of_app in Hin as [Hin | Hin]; eauto.
  - apply elem_of_app in Hin as [Hin | [Hin | Hin]%elem_of_app]; [eauto | eauto |].
    pose proof (removeFinalizer_events s fr st) as Hfin.
    rewrite Forall_forall in Hfin. by destruct (Hfin _ Hin).
Qed.

(** C7.  An operation is recorded only against a cluster of the listing
    that is ready, in [syncToClusters] (selected or not), in
    [removeManagedLabel], and in [deleteFromClusters] with its check;
    the loop bodies record nothing for a cluster that is not ready.  A
    cluster that is not ready makes the deletion paths fail: the label
    round and the cascade return an error and the finalizer stays. *)
Theorem no_operation_on_unready_cluster
    (s : FederationSyncController) (fr : FederatedResource) (st : State) :
  (forall k op n,
     EvOperation k op n ∈ events (syncToClusters s fr st) ->
     exists clusters c,
       informer_GetClusters s ForSync = (clusters, None) /\
       c ∈ clusters /\ cluster_Name c = n /\ ready c) /\
  (forall selected key c d st',
     ¬ ready c ->
     d_operations (value (syncToClusters_body s fr selected key c d st'))
       = d_operations d /\
     Forall (fun e => ¬ isOperation e)
       (events (syncToClusters_body s fr selected key c d st'))) /\
  (forall kind qualifiedName k op n,
     EvOperation k op n ∈ events (removeManagedLabel s kind qualifiedName st) ->
     exists clusters c,
       informer_GetClusters s ForDeletion = (clusters, None) /\
       c ∈ clusters /\ cluster_Name c = n /\ ready c) /\
  (forall k op n,
     EvOperation k op n ∈ events (deleteFromClusters s fr st) ->
     exists listing clusters c,
       informer_GetClusters s listing = (clusters, None) /\
       c ∈ clusters /\ cluster_Name c = n /\ ready c) /\
  (forall C (h : deletionFunc C) kind key c v st',
     ¬ ready c ->
     handleDeletionInClusters_body s kind key h c v st' =
       ({| dv_dispatcher := dv_dispatcher v;
           dv_retrievalFailureClusters := dv_retrievalFailureClusters v;
           dv_unreadyClusters := dv_unreadyClusters v ++ [cluster_Name c];
           dv_captured := dv_captured v |}, st', [])) /\
  (forall c d st',
     ¬ ready c ->
     ensureRemovedOrUnmanaged_body fr c d st' =
       ((d.1, d.2 ++ [cluster_Name c]), st', [])) /\
  (forall clusters c,
     informer_GetClusters s ForDeletion = (clusters, None) ->
     c ∈ clusters -> ¬ ready c ->
     (forall kind qualifiedName,
        value (removeManagedLabel s kind qualifiedName st) <> None) /\
     (value (deleteFromClusters s fr st)).2 <> None /\
     finalizerKept st (deleteFromClusters s fr st)) /\
  (forall checked c,
     informer_GetClusters s ForCheck = (checked, None) ->
     EvWait CheckUnmanagedDispatcher ∈ events (deleteFromClusters s fr st) ->
     c ∈ checked -> ¬ ready c ->
     (value (deleteFromClusters s fr st)).2 <> None /\
     finalizerKept st (deleteFromClusters s fr st)).
Proof.
  split; [intros k op n; apply syncToClusters_operation|].
  split.
  { intros selected key c d st' Hn. apply not_true_is_false in Hn.
    unfold syncToClusters_body. rewrite Hn; simpl.
    destruct (bool_decide (cluster_Name c ∈ selected)); simpl.
    - split; [done|]. apply Forall_singleton. by intros [].
    - split; [done|]. by apply Forall_nil. }
  split.
  { intros kind qualifiedName k op n.
    apply (LabelRun_operation s qualifiedName st), removeManagedLabel_run. }
  split; [intros k op n;
          apply (DeleteRun_operation s fr st), deleteFromClusters_run|].
  split.
  { intros C h kind key c v st' Hn. apply not_true_is_false in Hn.
    unfold handleDeletionInClusters_body. by rewrite Hn. }
  split.
  { intros c [d un] st' Hn. apply not_true_is_false in Hn.
    unfold ensureRemovedOrUnmanaged_body. by rewrite Hn. }
  split.
  { intros clusters c Hlist Hc Hn. split.
    - intros kind qualifiedName Hnone.
      destruct (LabelRun_listing s qualifiedName st _ clusters
                  (removeManagedLabel_run s kind qualifiedName st) Hlist)
        as (_ & _ & Hok).
      apply Hok in Hnone as (_ & Hready & _). by destruct (Hready c Hc).
    - apply (DeleteRun_unready s fr st _ (deleteFromClusters_run s fr st) clusters Hlist).
      left. by exists c. }
  intros checked c Hlist Hwait Hc Hn.
  apply (DeleteRun_check s fr st _ (deleteFromClusters_run s fr st) checked Hlist Hwait).
  left. by exists c.
Qed.

(** ** The decision table *)

(** Events by which the loop of [syncToClusters] acts on a cluster. *)
Definition isDecision (e : Event) : Prop :=
  match e with
  | EvOperation _ _ _ | EvRecordClusterError _ _ _ | EvRecordStatus _ _ => True
  | _ => False
  end.

Lemma PollRun_no_decision s reason statusMap ticks st r :
  PollRun s reason statusMap ticks st r ->
  Forall (fun e => ¬ isDecision e) (events r).
Proof.
  induction 1 as [| | | | |ticks st merged err fetched r Hm Hu Hc Hg Hrun IH];
    unfold events in *; simpl in *;
    repeat (apply Forall_cons; split; [by intros []|]);
    by try apply Forall_nil.
Qed.

Lemma setPropagationStatus_no_decision s fr reason statusMap st :
  Forall (fun e => ¬ isDecision e)
    (events (setPropagationStatus s fr reason statusMap st)).
Proof.
  rewrite setPropagationStatus_run, events_eq.
  apply Forall_cons. split; [by intros []|].
  apply Forall_app. split.
  - exact (PollRun_no_decision _ _ _ _ _ _
             (PollImmediate_loop_run s reason statusMap _ st)).
  - destruct (value _); [apply Forall_singleton; by intros [] | by apply Forall_nil].
Qed.




(** * Reconcile *)

(** ** The sync preconditions *)

(** The cluster list and the accessor are synced, the ready clusters
    can be listed, and the target cache of each of them is synced. *)
Definition preconditionsMet (s : FederationSyncController) : Prop :=
  informer_ClustersSynced s = true /\
  fedAccessor_HasSynced s = true /\
  exists clusters,
    informer_GetReadyClusters s = (clusters, None) /\
    forall c, c ∈ clusters -> targetStore_Synced s (cluster_Name c) = true.

Definition isDiagnostic (e : Event) : Prop :=
  match e with EvLog _ _ | EvHandleError _ => True | _ => False end.

Lemma targetStore_ClustersSynced_true s clusters :
  targetStore_ClustersSynced s clusters = true <->
  forall c, c ∈ clusters -> targetStore_Synced s (cluster_Name c) = true.
Proof.
  unfold targetStore_ClustersSynced.
  rewrite <- Is_true_true, forallb_True, Forall_forall.
  split; intros H c Hc; apply Is_true_true; by apply H.
Qed.

Lemma isSynced_met s st : preconditionsMet s -> isSynced s st = (true, st, []).
Proof.
  intros (Hc & Ha & clusters & Hr & Hall). unfold isSynced.
  rewrite Hc, Ha, Hr; simpl.
  apply targetStore_ClustersSynced_true in Hall. by rewrite Hall.
Qed.

Lemma isSynced_unmet s st :
  ¬ preconditionsMet s ->
  exists t, isSynced s st = (false, st, t) /\ Forall isDiagnostic t.
Proof.
  intros Hn. unfold isSynced.
  destruct (informer_ClustersSynced s) eqn:Hc; simpl;
    [|eexists; split; [done|]; by apply Forall_singleton].
  destruct (fedAccessor_HasSynced s) eqn:Ha; simpl;
    [|eexists; split; [done|]; by apply Forall_nil].
  destruct (informer_GetReadyClusters s) as [clusters [err|]] eqn:Hr; simpl.
  { eexists. split; [done|]. by apply Forall_singleton. }
  destruct (targetStore_ClustersSynced s clusters) eqn:Hall; simpl;
    [|eexists; split; [done|]; by apply Forall_nil].
  destruct Hn. split; [done|]. split; [done|]. exists clusters. split; [done|].
  by apply targetStore_ClustersSynced_true.
Qed.

(** The ways a precondition can be unmet. *)
Lemma preconditions_unmet_iff s :
  ¬ preconditionsMet s <->
  informer_ClustersSynced s = false \/
  fedAccessor_HasSynced s = false \/
  (informer_GetReadyClusters s).2 <> None \/
  exists c, c ∈ (informer_GetReadyClusters s).1 /\
            targetStore_Synced s (cluster_Name c) = false.
Proof.
  unfold preconditionsMet. split.
  - intros Hn.
    destruct (informer_ClustersSynced s); [|by left].
    destruct (fedAccessor_HasSynced s); [|by right; left].
    destruct (informer_GetReadyClusters s) as [clusters [err|]] eqn:Hr; simpl;
      [by right; right; left|].
    do 3 right.
    destruct (targetStore_ClustersSynced s clusters) eqn:Hall.
    + destruct Hn. split; [done|]. split; [done|]. exists clusters.
      split; [done|]. by apply targetStore_ClustersSynced_true.
    + unfold targetStore_ClustersSynced in Hall.
      apply not_true_iff_false in Hall.
      rewrite <- Is_true_true, forallb_True in Hall.
      apply not_Forall_Exists in Hall; [|apply _].
      apply Exists_exists in Hall as (c & Hc & Hf). exists c. split; [done|].
      unfold compose in Hf.
      destruct (targetStore_Synced s (cluster_Name c)); [by destruct Hf | done].
  - intros [Hc | [Ha | [Hr | (c & Hc & Hf)]]] (Hc' & Ha' & clusters & Hr' & Hall);
      try congruence.
    + rewrite Hr' in Hr. by destruct Hr.
    + rewrite Hr' in Hc; simpl in Hc. specialize (Hall c Hc). congruence.
Qed.

Lemma isSynced_true s st : value (isSynced s st) = true -> preconditionsMet s.
Proof.
  unfold isSynced.
  destruct (informer_ClustersSynced s) eqn:Hc; simpl; [|done].
  destruct (fedAccessor_HasSynced s) eqn:Ha; simpl; [|done].
  destruct (informer_GetReadyClusters s) as [clusters [err|]] eqn:Hr; simpl; [done|].
  destruct (targetStore_ClustersSynced s clusters) eqn:Hall; simpl; [|done].
  intros _. split; [done|]. split; [done|]. exists clusters. split; [done|].
  by apply targetStore_ClustersSynced_true.
Qed.

Lemma isSynced_final s st : final (isSynced s st) = st.
Proof.
  unfold isSynced.
  destruct (informer_ClustersSynced s); simpl; [|done].
  destruct (fedAccessor_HasSynced s); simpl; [|done].
  destruct (informer_GetReadyClusters s) as [clusters [err|]]; simpl; [done|].
  by destruct (targetStore_ClustersSynced s clusters).
Qed.

(** ** The statuses of the branches *)

Lemma syncToClusters_status s fr st :
  value (syncToClusters s fr st) = StatusAllOK \/
  value (syncToClusters s fr st) = StatusError.
Proof.
  destruct (informer_GetClusters s ForSync) as [clusters [err|]] eqn:Hget.
  { rewrite (syncToClusters_run_listing_err s fr st clusters err Hget), value_eq.
    apply setPropagationStatus_status. }
  destruct (ComputePlacement fr clusters) as [selected [err|]] eqn:Hplace.
  { rewrite (syncToClusters_run_placement_err s fr st clusters selected err Hget Hplace),
      value_eq.
    apply setPropagationStatus_status. }
  pose proof (syncToClusters_run s fr st clusters selected Hget Hplace) as Hrun.
  cbv zeta in Hrun. rewrite Hrun, value_eq. apply setPropagationStatus_status.
Qed.

Lemma ensureDeletion_status s fr st :
  value (ensureDeletion s fr st) <> StatusNotSynced.
Proof.
  destruct (decide (hasFinalizer (st_obj st))) as [Hfin|Hfin].
  - destruct (orphanResources (st_obj st)) eqn:Horph.
    + pose proof (ensureDeletion_orphan s fr st Hfin Horph) as Heq.
      cbv zeta in Heq. rewrite Heq.
      destruct (value (removeFinalizer s fr st)); rewrite value_eq; [done|].
      by destruct (value (removeManagedLabel _ _ _ _)).
    + rewrite (ensureDeletion_cascade s fr st Hfin Horph), value_eq.
      unfold cascadeStatus.
      destruct ((value (deleteFromClusters s fr st)).2); [done|].
      by destruct ((value (deleteFromClusters s fr st)).1).
  - by rewrite (ensureDeletion_no_finalizer s fr st Hfin).
Qed.

(** ** The branches of [reconcile] *)

Section Reconcile.

Variable s : FederationSyncController.

Lemma reconcile_not_synced qualifiedName st :
  ¬ preconditionsMet s ->
  exists t,
    reconcile s qualifiedName st = (StatusNotSynced, st, t) /\ Forall isDiagnostic t.
Proof.
  intros Hn. destruct (isSynced_unmet s st Hn) as (t & Hs & Ht).
  exists t. split; [|done].
  unfold reconcile, bind. rewrite Hs. simpl. by rewrite app_nil_r.
Qed.

Lemma reconcile_accessor_failed qualifiedName st fedResource possibleOrphan err :
  preconditionsMet s ->
  fedAccessor_FederatedResource s qualifiedName
    = (fedResource, possibleOrphan, Some err) ->
  reconcile s qualifiedName st =
    (StatusError, st,
     [EvFederatedResource qualifiedName;
      EvHandleError (Wrapf err "Error creating FederatedResource helper for %s %q")]).
Proof.
  intros Hmet Hacc. unfold reconcile, bind.
  rewrite (isSynced_met s st Hmet). simpl. by rewrite Hacc.
Qed.

Lemma reconcile_possible_orphan qualifiedName st fedResource :
  preconditionsMet s ->
  fedAccessor_FederatedResource s qualifiedName = (fedResource, true, None) ->
  let u := removeManagedLabel s (typeConfig_TargetKind s) qualifiedName st in
  reconcile s qualifiedName st =
    (orphanStatus (value u), final u,
     [EvFederatedResource qualifiedName;
      EvLog 2 "Ensuring the removal of the label %q from %s %q in member clusters."] ++
     events u ++
     match value u with
     | Some err =>
         [EvHandleError
            (Wrapf err "failed to remove the label %q from %s %q in member clusters")]
     | None => []
     end).
Proof.
  intros Hmet Hacc u. unfold reconcile, bind.
  rewrite (isSynced_met s st Hmet). simpl. rewrite Hacc. simpl.
  fold u. destruct u as [[[err|] st'] t]; simpl; by rewrite ?app_nil_r.
Qed.

Lemma reconcile_absent qualifiedName st :
  preconditionsMet s ->
  fedAccessor_FederatedResource s qualifiedName = (None, false, None) ->
  reconcile s qualifiedName st =
    (StatusAllOK, st, [EvFederatedResource qualifiedName]).
Proof.
  intros Hmet Hacc. unfold reconcile, bind.
  rewrite (isSynced_met s st Hmet). simpl. by rewrite Hacc.
Qed.

End Reconcile.

Section ReconcileResource.

Variable s : FederationSyncController.

Lemma reconcile_deleting qualifiedName st fr :
  preconditionsMet s ->
  fedAccessor_FederatedResource s qualifiedName = (Some fr, false, None) ->
  GetDeletionTimestamp (Object fr) <> None ->
  let r := ensureDeletion s fr (withObj st (Object fr)) in
  reconcile s qualifiedName st =
    (value r, final r,
     [EvFederatedResource qualifiedName;
      EvLog 4 "Starting to reconcile %s %q";
      EvLog 3 "Handling deletion of %s %q"] ++
     events r ++ [EvLog 4 "Finished reconciling %s %q (duration: %v)"]).
Proof.
  intros Hmet Hacc Hts. cbv zeta. unfold reconcile, bind.
  rewrite (isSynced_met s st Hmet), Hacc. cbv beta iota zeta.
  generalize (ensureDeletion s fr). intros m. simpl.
  rewrite bool_decide_eq_true_2 by done. simpl.
  change {| st_obj := Object fr; st_tick := st_tick st |}
    with (withObj st (Object fr)).
  destruct (m (withObj st (Object fr))) as [[v st'] t]; simpl.
  by rewrite <- ?app_assoc.
Qed.

Lemma reconcile_live qualifiedName st fr :
  preconditionsMet s ->
  fedAccessor_FederatedResource s qualifiedName = (Some fr, false, None) ->
  GetDeletionTimestamp (Object fr) = None ->
  let f := ensureFinalizer s fr (withObj st (Object fr)) in
  let r := syncToClusters s fr (final f) in
  reconcile s qualifiedName st =
    match value f with
    | Some err =>
        (StatusError, final f,
         [EvFederatedResource qualifiedName;
          EvLog 4 "Starting to reconcile %s %q";
          EvLog 3 "Ensuring finalizer exists on %s %q"] ++
         events f ++
         [EvRecordError "EnsureFinalizerError" (Wrapf err "Failed to ensure finalizer");
          EvLog 4 "Finished reconciling %s %q (duration: %v)"])
    | None =>
        (value r, final r,
         [EvFederatedResource qualifiedName;
          EvLog 4 "Starting to reconcile %s %q";
          EvLog 3 "Ensuring finalizer exists on %s %q"] ++
         events f ++ events r ++
         [EvLog 4 "Finished reconciling %s %q (duration: %v)"])
    end.
Proof.
  intros Hmet Hacc Hts. cbv zeta. unfold reconcile, bind.
  rewrite (isSynced_met s st Hmet), Hacc. cbv beta iota zeta.
  generalize (ensureFinalizer s fr) (syncToClusters s fr). intros mf ms. simpl.
  rewrite bool_decide_eq_false_2 by (intros Hn; by apply Hn). simpl.
  change {| st_obj := Object fr; st_tick := st_tick st |}
    with (withObj st (Object fr)).
  destruct (mf (withObj st (Object fr))) as [[[err|] st1] t1]; simpl.
  - by rewrite <- ?app_assoc.
  - rewrite ?final_eq.
    destruct (ms st1) as [[v st2] t2]; simpl.
    by rewrite <- ?app_assoc.
Qed.

End ReconcileResource.

(** C8.  [reconcile] returns NotSynced exactly when a precondition is
    unmet: the cluster list or the accessor is not synced, the ready
    clusters cannot be listed, or the target cache of a ready cluster is
    not synced.  It then resolves no resource and dispatches nothing:
    the state is unchanged and only diagnostics are emitted. *)
Theorem not_synced_iff_precondition_unmet
    (s : FederationSyncController) (qualifiedName : QualifiedName) (st : State) :
  let r := reconcile s qualifiedName st in
  (value r = StatusNotSynced <-> ¬ preconditionsMet s) /\
  (¬ preconditionsMet s <->
   informer_ClustersSynced s = false \/
   fedAccessor_HasSynced s = false \/
   (informer_GetReadyClusters s).2 <> None \/
   exists c, c ∈ (informer_GetReadyClusters s).1 /\
             targetStore_Synced s (cluster_Name c) = false) /\
  (value r = StatusNotSynced ->
   final r = st /\ Forall isDiagnostic (events r)).
Proof.
  intros r.
  assert (Hmet : preconditionsMet s -> value r <> StatusNotSynced).
  { intros Hmet. unfold r.
    destruct (fedAccessor_FederatedResource s qualifiedName)
      as [[fedResource possibleOrphan] [err|]] eqn:Hacc.
    { by rewrite (reconcile_accessor_failed s _ st _ _ _ Hmet Hacc). }
    destruct possibleOrphan.
    { pose proof (reconcile_possible_orphan s _ st _ Hmet Hacc) as Heq.
      cbv zeta in Heq. rewrite Heq, value_eq.
      by destruct (value (removeManagedLabel _ _ _ _)). }
    destruct fedResource as [fr|];
      [|by rewrite (reconcile_absent s _ st Hmet Hacc)].
    destruct (decide (GetDeletionTimestamp (Object fr) <> None)) as [Hts|Hts].
    - pose proof (reconcile_deleting s _ st fr Hmet Hacc Hts) as Heq.
      cbv zeta in Heq. rewrite Heq, value_eq. apply ensureDeletion_status.
    - assert (Hlive : GetDeletionTimestamp (Object fr) = None).
      { destruct (GetDeletionTimestamp (Object fr)); [by destruct Hts | done]. }
      pose proof (reconcile_live s _ st fr Hmet Hacc Hlive) as Heq.
      cbv zeta in Heq. rewrite Heq.
      destruct (value (ensureFinalizer _ _ _)); rewrite value_eq; [done|].
      destruct (syncToClusters_status s fr
                  (final (ensureFinalizer s fr (withObj st (Object fr)))))
        as [-> | ->]; done. }
  assert (Hunmet : ¬ preconditionsMet s ->
            value r = StatusNotSynced /\ final r = st /\ Forall isDiagnostic (events r)).
  { intros Hn. destruct (reconcile_not_synced s qualifiedName st Hn) as (t & Heq & Ht).
    unfold r. by rewrite Heq. }
  split; [|split].
  - split; [|by intros Hn; apply Hunmet].
    intros Hv Hm. by apply Hmet.
  - apply preconditions_unmet_iff.
  - intros Hv. apply Hunmet. intros Hm. by apply Hmet.
Qed.

(** ** Possible orphans *)

(** What [reconcile] emits when it only cleans up labels. *)
Definition labelCleanupEvent (e : Event) : Prop :=
  match e with
  | EvFederatedResource _ | EvLog _ _ | EvHandleError _ => True
  | EvOperation UnmanagedDispatcher OpRemoveManagedLabel _ => True
  | EvWait UnmanagedDispatcher => True
  | _ => False
  end.

Lemma LabelRun_events s qualifiedName st r :
  LabelRun s qualifiedName st r -> Forall labelCleanupEvent (events r).
Proof.
  assert (Hlabel : forall key clusters,
            Forall labelCleanupEvent (labelEvents s key clusters)).
  { intros key clusters. apply Forall_app. split; [|by apply Forall_singleton].
    apply Forall_forall. intros e (c & He & Hc)%list_elem_of_bind.
    apply deletionEvents_inv in He as [[err ->] | (o & op & _ & Hop & ->)]; [done|].
    by apply unlabelOp_inv in Hop as ->. }
  intros []; unfold events; simpl; try apply Hlabel. by apply Forall_nil.
Qed.

(** C9.  With the preconditions met, a possible-orphan signal makes
    [reconcile] run [removeManagedLabel] on the target kind and return
    AllOK when it succeeds and Error when it fails; the state is left as
    it was, and nothing is emitted but the resolution, diagnostics and
    the label round (no placement, no write to the host store, no status
    write, no check).  An absent resource with no such signal gives
    AllOK and no event but the resolution. *)
Theorem possible_orphan_only_unlabels
    (s : FederationSyncController) (qualifiedName : QualifiedName) (st : State) :
  preconditionsMet s ->
  let r := reconcile s qualifiedName st in
  (forall fedResource,
     fedAccessor_FederatedResource s qualifiedName = (fedResource, true, None) ->
     let u := removeManagedLabel s (typeConfig_TargetKind s) qualifiedName st in
     (value u = None -> value r = StatusAllOK) /\
     (value u <> None -> value r = StatusError) /\
     final r = st /\
     (exists rest,
        events r =
          [EvFederatedResource qualifiedName;
           EvLog 2 "Ensuring the removal of the label %q from %s %q in member clusters."] ++
          events u ++ rest /\
        Forall isDiagnostic rest) /\
     Forall labelCleanupEvent (events r) /\
     (forall clusters,
        informer_GetClusters s ForDeletion = (clusters, None) ->
        forall k op n,
          EvOperation k op n ∈ events r <->
          k = UnmanagedDispatcher /\ op = OpRemoveManagedLabel /\
          exists c o, c ∈ clusters /\ n = cluster_Name c /\
            cachedCopy s (QualifiedName_String qualifiedName) c = Some o /\
            GetDeletionTimestamp o = None)) /\
  (fedAccessor_FederatedResource s qualifiedName = (None, false, None) ->
   r = (StatusAllOK, st, [EvFederatedResource qualifiedName])).
Proof.
  intros Hmet r. split; [|by apply reconcile_absent].
  intros fedResource Hacc u.
  pose proof (reconcile_possible_orphan s _ st _ Hmet Hacc) as Heq.
  cbv zeta in Heq. fold u r in Heq.
  pose proof (removeManagedLabel_run s (typeConfig_TargetKind s) qualifiedName st)
    as Hrun. fold u in Hrun.
  rewrite Heq, value_eq, final_eq, events_eq.
  assert (Hrest : Forall isDiagnostic
            match value u with
            | Some err =>
                [EvHandleError
                   (Wrapf err
                      "failed to remove the label %q from %s %q in member clusters")]
            | None => []
            end).
  { destruct (value u); [by apply Forall_singleton | by apply Forall_nil]. }
  split; [by intros ->|].
  split; [by destruct (value u)|].
  split; [by eapply LabelRun_final|].
  split; [by eexists|].
  split.
  { apply Forall_app. split; [by repeat constructor|].
    apply Forall_app. split; [by eapply LabelRun_events|].
    eapply Forall_impl; [exact Hrest|]. by intros [].  }
  intros clusters Hlist k op n.
  destruct (LabelRun_listing s _ st u clusters Hrun Hlist) as (_ & Hev & _).
  rewrite <- labelEvents_operation, <- Hev, !elem_of_app.
  split; [|by intros Hin; right; left].
  intros [Hin | [Hin | Hin]]; [|done|].
  - repeat (apply elem_of_cons in Hin as [Hin | Hin]; [done|]).
    by apply elem_of_nil in Hin.
  - rewrite Forall_forall in Hrest. by destruct (Hrest _ Hin).
Qed.

(** ** Scenarios of propagation and reconcile *)

(** The federated object while it is live: it carries the finalizer and
    no deletion timestamp. *)
Definition ex_live : Unstructured :=
  {| GetNamespace := "ns"; GetName := "web";
     GetDeletionTimestamp := None;
     GetFinalizers := [FinalizerSyncController];
     GetAnnotations := None;
     GetStatus := None |}.

(** The same controller with other answers of the host store to
    UpdateStatus and Get. *)
Definition ex_with_host (s : FederationSyncController)
    (updateStatus : nat -> Unstructured -> option error)
    (get : nat -> string -> string -> Unstructured * option error)
  : FederationSyncController :=
  {| informer_ClustersSynced := informer_ClustersSynced s;
     informer_GetReadyClusters := informer_GetReadyClusters s;
     informer_GetClusters := informer_GetClusters s;
     targetStore_Synced := targetStore_Synced s;
     targetStore_GetByKey := targetStore_GetByKey s;
     fedAccessor_HasSynced := fedAccessor_HasSynced s;
     fedAccessor_FederatedResource := fedAccessor_FederatedResource s;
     typeConfig_FederatedKind := typeConfig_FederatedKind s;
     typeConfig_TargetKind := typeConfig_TargetKind s;
     hostClusterClient_Update := hostClusterClient_Update s;
     hostClusterClient_UpdateStatus := updateStatus;
     hostClusterClient_Get := get;
     member_OperationOK := member_OperationOK s;
     member_State := member_State s;
     dispatch_TimedOut := dispatch_TimedOut s;
     dispatch_StatusMap := dispatch_StatusMap s;
     dispatch_VersionMap := dispatch_VersionMap s;
     status_SetPropagationStatus := status_SetPropagationStatus s;
     wait_Ticks := wait_Ticks s;
     skipAdoptingResources := skipAdoptingResources s |}.

(** The object as another writer left it in the host store. *)
Definition ex_fetched : Unstructured :=
  {| GetNamespace := "ns"; GetName := "web";
     GetDeletionTimestamp := None;
     GetFinalizers := [FinalizerSyncController];
     GetAnnotations := Some {[ "edited" := "yes" ]};
     GetStatus := None |}.

(** The first status write meets a conflict, the second goes through. *)
Definition ex_contended : FederationSyncController :=
  ex_with_host ex_gone
    (fun n _ => match n with O => Some (ApiError true "conflict") | S _ => None end)
    (fun _ _ _ => (ex_fetched, None)).

(** The accessor signals a possible orphan; A caches a live copy. *)
Definition ex_orphaned : FederationSyncController :=
  ex_controller [ex_cluster "A" true; ex_cluster "B" true]
    (fun n => if String.eqb n "A" then Some ex_copy else None)
    (None, true, None).


(** A conflict, a fetch, and a second attempt on the fetched object. *)
Lemma status_write_retries_from_fresh_object_witness :
  let r := setPropagationStatus ex_contended (ex_resource ex_live)
             AggregateSuccess ∅ (ex_state ex_live) in
  freshBase (Some ex_live) (events r) /\
  (attempts (events r) <= 6)%nat /\
  value r = StatusAllOK /\
  st_obj (final r) = ex_fetched.
Proof.
  intros r.
  destruct (status_write_retries_from_fresh_object ex_contended (ex_resource ex_live)
              AggregateSuccess ∅ (ex_state ex_live))
    as (_ & Hfresh & Hattempts & _ & Hiff & _).
  split; [exact Hfresh|]. split; [exact Hattempts|].
  split; [|vm_compute; reflexivity].
  apply Hiff. exists ex_fetched.
  assert (Hev : exists l, events r = l ++ [EvUpdateStatus ex_fetched None]).
  { eexists [_; _; _; _; _; _]. vm_compute. reflexivity. }
  destruct Hev as [l Hev]. unfold r in Hev. rewrite Hev.
  apply elem_of_app. right. left.
Defined.

(** Propagation to A and B whose version write fails: still AllOK. *)
Lemma sync_always_aggregates_success_witness :
  let failing := fun (_ : list string) (_ : VersionMap) => Some (ApiError false "boom") in
  value (syncToClusters ex_gone (withUpdateVersions (ex_resource ex_live) failing)
           (ex_state ex_live)) = StatusAllOK /\
  EvHandleError (ApiError false "boom")
    ∈ events (syncToClusters ex_gone (withUpdateVersions (ex_resource ex_live) failing)
                (ex_state ex_live)).
Proof.
  intros failing.
  destruct (sync_always_aggregates_success ex_gone
              (withUpdateVersions (ex_resource ex_live) failing) (ex_state ex_live)
              [ex_cluster "A" true; ex_cluster "B" true] {["A"; "B"]}
              eq_refl eq_refl) as (Hv & _ & _ & _ & _ & Hlog & _).
  split; [|apply Hlog; reflexivity].
  rewrite Hv. vm_compute. reflexivity.
Defined.

(** A possible orphan whose label is removed in cluster A. *)
Lemma possible_orphan_only_unlabels_witness :
  value (reconcile ex_orphaned ex_name (ex_state ex_live)) = StatusAllOK /\
  final (reconcile ex_orphaned ex_name (ex_state ex_live)) = ex_state ex_live /\
  EvOperation UnmanagedDispatcher OpRemoveManagedLabel "A"
    ∈ events (reconcile ex_orphaned ex_name (ex_state ex_live)).
Proof.
  assert (Hmet : preconditionsMet ex_orphaned).
  { split; [reflexivity|]. split; [reflexivity|].
    exists [ex_cluster "A" true; ex_cluster "B" true]. split; [reflexivity|].
    intros c _. reflexivity. }
  destruct (possible_orphan_only_unlabels ex_orphaned ex_name (ex_state ex_live) Hmet)
    as [Horphan _].
  destruct (Horphan None eq_refl) as (Hok & _ & Hfinal & _ & _ & Hops).
  split; [apply Hok; vm_compute; reflexivity|]. split; [exact Hfinal|].
  apply (Hops [ex_cluster "A" true; ex_cluster "B" true] eq_refl).
  split; [reflexivity|]. split; [reflexivity|].
  exists (ex_cluster "A" true), ex_copy.
  split; [left|]. split; [reflexivity|]. split; reflexivity.
Defined.

(** * Further properties of the controller *)

(** ** Which events each protocol emits *)

(** Events of propagation: placement, the managed dispatcher, the
    version map and the status write. *)
Definition isPropagation (e : Event) : Prop :=
  match e with
  | EvComputePlacement | EvUpdateVersions _ _ | EvRecordError _ _ => True
  | EvOperation ManagedDispatcher _ _ | EvWait ManagedDispatcher => True
  | EvRecordClusterError _ _ _ | EvRecordStatus _ _ => True
  | EvPollImmediate _ _ | EvSetPropagationStatus _ _ _ => True
  | EvUpdateStatus _ _ | EvGet _ _ _ _ => True
  | _ => False
  end.

(** Events of the deletion protocol: dropping the versions, and the
    unmanaged and check dispatchers. *)
Definition isTeardown (e : Event) : Prop :=
  match e with
  | EvDeleteVersions => True
  | EvOperation (UnmanagedDispatcher | CheckUnmanagedDispatcher) _ _ => True
  | EvWait (UnmanagedDispatcher | CheckUnmanagedDispatcher) => True
  | _ => False
  end.

Lemma Forall_weaken {A} (P Q : A -> Prop) l :
  (forall x, P x -> Q x) -> Forall P l -> Forall Q l.
Proof. intros HPQ Hl. eapply Forall_impl; [exact Hl | exact HPQ]. Qed.

Lemma removeFinalizer_not_propagation s fr st :
  Forall (fun e => ¬ isPropagation e) (events (removeFinalizer s fr st)).
Proof.
  unfold removeFinalizer, bind, getObj; simpl.
  destruct (RemoveFinalizers _ _) as [[o u] e]; simpl.
  destruct (bool_decide _ || negb u); simpl; repeat constructor; by intros [].
Qed.

Lemma LabelRun_not_propagation s qualifiedName st r :
  LabelRun s qualifiedName st r -> Forall (fun e => ¬ isPropagation e) (events r).
Proof.
  intros Hrun. eapply Forall_weaken; [|by eapply LabelRun_events].
  intros e He Hp. destruct e as [| | | | | | |[] [] ?| | |[]| | | | |]; done.
Qed.

Lemma DeleteRun_not_propagation s fr st r :
  DeleteRun s fr st r -> Forall (fun e => ¬ isPropagation e) (events r).
Proof.
  assert (Hcascade : forall key cs,
            Forall (fun e => ¬ isPropagation e) (cascadeEvents s fr key cs)).
  { intros key cs. eapply Forall_weaken; [|apply cascadeEvents_round].
    intros e He Hp. destruct e as [| | | | | | |[] [] ?| | |[]| | | | |]; done. }
  assert (Hcheck : forall ck, Forall (fun e => ¬ isPropagation e) (checkEvents ck)).
  { intros ck. eapply Forall_weaken; [|apply checkEvents_round].
    intros e He Hp. destruct e as [| | | | | | |[] [] ?| | |[]| | | | |]; done. }
  intros []; unfold events; simpl; rewrite ?Forall_app; repeat split;
    try apply Hcascade; try apply Hcheck; try apply removeFinalizer_not_propagation;
    try (by apply Forall_nil); apply Forall_singleton; by intros [].
Qed.

Lemma ensureDeletion_not_propagation s fr st :
  Forall (fun e => ¬ isPropagation e) (events (ensureDeletion s fr st)).
Proof.
  destruct (decide (hasFinalizer (st_obj st))) as [Hfin|Hfin].
  - destruct (orphanResources (st_obj st)) eqn:Horph.
    + pose proof (ensureDeletion_orphan s fr st Hfin Horph) as Heq.
      cbv zeta in Heq. rewrite Heq.
      pose proof (removeFinalizer_not_propagation s fr st) as Hrem.
      destruct (value (removeFinalizer s fr st)); rewrite events_eq.
      * rewrite !Forall_app. repeat split; try done;
          repeat constructor; by intros [].
      * rewrite !Forall_app. repeat split; try done;
          try (repeat constructor; by intros []).
        -- eapply LabelRun_not_propagation, removeManagedLabel_run.
        -- destruct (value (removeManagedLabel _ _ _ _));
             [apply Forall_singleton; by intros [] | by apply Forall_nil].
    + rewrite (ensureDeletion_cascade s fr st Hfin Horph), events_eq.
      rewrite !Forall_app. repeat split;
        try (repeat constructor; by intros []).
      * eapply DeleteRun_not_propagation, deleteFromClusters_run.
      * destruct ((value (deleteFromClusters s fr st)).2);
          [apply Forall_singleton; by intros [] | by apply Forall_nil].
  - rewrite (ensureDeletion_no_finalizer s fr st Hfin), events_eq.
    repeat constructor; by intros [].
Qed.

Lemma PollRun_not_teardown s reason statusMap ticks st r :
  PollRun s reason statusMap ticks st r ->
  Forall (fun e => ¬ isTeardown e /\ ¬ isUpdate e) (events r).
Proof.
  induction 1 as [| | | | |ticks st merged err fetched r Hm Hu Hc Hg Hrun IH];
    unfold events in *; simpl in *;
    repeat (apply Forall_cons; split; [split; by intros []|]);
    by try apply Forall_nil.
Qed.

Lemma setPropagationStatus_not_teardown s fr reason statusMap st :
  Forall (fun e => ¬ isTeardown e /\ ¬ isUpdate e)
    (events (setPropagationStatus s fr reason statusMap st)).
Proof.
  rewrite setPropagationStatus_run, events_eq.
  apply Forall_cons. split; [split; by intros []|].
  apply Forall_app. split.
  - exact (PollRun_not_teardown _ _ _ _ _ _
             (PollImmediate_loop_run s reason statusMap _ st)).
  - destruct (value _); [apply Forall_singleton; split; by intros []
                        | by apply Forall_nil].
Qed.

Lemma syncEvents_not_teardown s fr selected key clusters :
  Forall (fun e => ¬ isTeardown e /\ ¬ isUpdate e)
    (clusters ≫= syncEvents s fr selected key).
Proof.
  apply Forall_forall. intros e (c & He & _)%list_elem_of_bind.
  unfold syncEvents in He.
  destruct (syncAction s fr selected key c); simpl in He;
    try (by apply elem_of_nil in He);
    apply list_elem_of_singleton in He; subst e; split; by intros [].
Qed.

Lemma syncToClusters_not_teardown s fr st :
  Forall (fun e => ¬ isTeardown e /\ ¬ isUpdate e) (events (syncToClusters s fr st)).
Proof.
  pose proof (setPropagationStatus_not_teardown s fr) as Hstatus.
  destruct (informer_GetClusters s ForSync) as [clusters [err|]] eqn:Hget.
  { rewrite (syncToClusters_run_listing_err s fr st clusters err Hget), events_eq.
    apply Forall_cons. split; [split; by intros []|]. apply Hstatus. }
  destruct (ComputePlacement fr clusters) as [selected [err|]] eqn:Hplace.
  { rewrite (syncToClusters_run_placement_err s fr st clusters selected err Hget Hplace),
      events_eq.
    do 2 (apply Forall_cons; split; [split; by intros []|]). apply Hstatus. }
  pose proof (syncToClusters_run s fr st clusters selected Hget Hplace) as Hrun.
  cbv zeta in Hrun. rewrite Hrun, events_eq, !Forall_app.
  split; [repeat constructor; by intros []|].
  split; [apply syncEvents_not_teardown|].
  split; [repeat constructor; by intros []|].
  split.
  { unfold syncTimeoutEvents. destruct (dispatch_TimedOut s ManagedDispatcher);
      [apply Forall_singleton; split; by intros [] | by apply Forall_nil]. }
  split; [|apply Hstatus].
  unfold versionEvents. apply Forall_cons. split; [split; by intros []|].
  destruct (UpdateVersions _ _ _);
    [apply Forall_singleton; split; by intros [] | by apply Forall_nil].
Qed.

(** ** Adding the finalizer *)

Definition withFinalizer (obj : Unstructured) : Unstructured :=
  SetFinalizers obj (GetFinalizers obj ++ [FinalizerSyncController]).

Section AddFinalizer.

Variable s : FederationSyncController.

Lemma AddFinalizers_present obj :
  hasFinalizer obj -> AddFinalizers obj [FinalizerSyncController] = (obj, false, None).
Proof.
  intros Hin. unfold AddFinalizers.
  rewrite filter_cons_False by (intros Hn; by apply Hn). done.
Qed.

Lemma AddFinalizers_absent obj :
  ¬ hasFinalizer obj ->
  AddFinalizers obj [FinalizerSyncController] = (withFinalizer obj, true, None).
Proof.
  intros Hn. unfold AddFinalizers. rewrite filter_cons_True by done. done.
Qed.

Lemma ensureFinalizer_present fr st :
  hasFinalizer (st_obj st) -> ensureFinalizer s fr st = (None, st, []).
Proof.
  intros Hin. unfold ensureFinalizer, bind, getObj; simpl.
  rewrite (AddFinalizers_present _ Hin); simpl. by rewrite State_eta.
Qed.

Lemma ensureFinalizer_absent fr st :
  ¬ hasFinalizer (st_obj st) ->
  ensureFinalizer s fr st =
    (hostClusterClient_Update s (withFinalizer (st_obj st)),
     withObj st (withFinalizer (st_obj st)),
     [EvLog 2 "Adding finalizer %s to %s %q";
      EvUpdate (withFinalizer (st_obj st))
        (hostClusterClient_Update s (withFinalizer (st_obj st)))]).
Proof.
  intros Hn. unfold ensureFinalizer, bind, getObj; simpl.
  by rewrite (AddFinalizers_absent _ Hn).
Qed.



Lemma ensureFinalizer_events fr st :
  Forall (fun e => ¬ isPropagation e /\ ¬ isTeardown e) (events (ensureFinalizer s fr st)).
Proof.
  destruct (decide (hasFinalizer (st_obj st))) as [Hin|Hn].
  - rewrite (ensureFinalizer_present fr st Hin). by apply Forall_nil.
  - rewrite (ensureFinalizer_absent fr st Hn), events_eq.
    repeat constructor; by intros [].
Qed.

End AddFinalizer.

(** ** What the statuses of [ensureDeletion] mean *)

Lemma DeleteRun_done s fr st r :
  DeleteRun s fr st r -> value r = (false, None) ->
  final r = final (removeFinalizer s fr st) /\
  value (removeFinalizer s fr st) = None /\
  exists clusters checked,
    informer_GetClusters s ForDeletion = (clusters, None) /\
    informer_GetClusters s ForCheck = (checked, None) /\
    checkVerdict s checked = None /\
    events r =
      cascadeEvents s fr (QualifiedName_String (TargetName fr)) clusters ++
      checkEvents checked ++ events (removeFinalizer s fr st).
Proof.
  intros Hrun Hv.
  destruct Hrun as [cs err Hget | cs err Hget Hout | cs Hget Hout
    | cs Hget Hout Hrem | cs ck err Hget Hout Hrem Hget2
    | cs ck err Hget Hout Hrem Hget2 Hv' | cs ck Hget Hout Hrem Hget2 Hv'];
    try done.
  rewrite value_eq in Hv. injection Hv as Hv.
  rewrite events_eq, final_eq. split; [done|]. split; [done|]. by exists cs, ck.
Qed.

(** What a NeedsRecheck of [ensureDeletion] tells. *)
Lemma deletion_status_facts s fr st :
  value (ensureDeletion s fr st) = StatusNeedsRecheck ->
  hasFinalizer (st_obj st) /\ orphanResources (st_obj st) = false /\
  value (deleteFromClusters s fr st) = (true, None) /\
  final (ensureDeletion s fr st) = st /\
  Forall (fun e => ¬ isUpdate e) (events (ensureDeletion s fr st)).
Proof.
  destruct (decide (hasFinalizer (st_obj st))) as [Hfin|Hfin];
    [|by rewrite (ensureDeletion_no_finalizer s fr st Hfin)].
  destruct (orphanResources (st_obj st)) eqn:Horph.
  - pose proof (ensureDeletion_orphan s fr st Hfin Horph) as Heq.
    cbv zeta in Heq. rewrite Heq.
    destruct (value (removeFinalizer s fr st)); rewrite value_eq; [done|].
    unfold orphanStatus. by destruct (value (removeManagedLabel _ _ _ _)).
  - rewrite (ensureDeletion_cascade s fr st Hfin Horph), value_eq, final_eq, events_eq.
    pose proof (deleteFromClusters_run s fr st) as Hrun.
    unfold cascadeStatus.
    destruct (value (deleteFromClusters s fr st)) as [recheck [err|]] eqn:Hv;
      simpl; [done|].
    destruct recheck; [|done]. intros _.
    destruct (DeleteRun_recheck_kept s fr st _ Hrun Hv) as [Hst Hkept].
    repeat split; try done. rewrite app_nil_r.
    do 3 (apply Forall_cons; split; [by intros []|]). done.
Qed.

(** X1.  [ensureDeletion] returns AllOK only when the object in memory
    no longer carries the finalizer; if it carried one, the object
    without it was written to the host store and the write succeeded.
    It returns NeedsRecheck only on the cascade path, with state and
    host store untouched. *)
Theorem deletion_status_reflects_finalizer
    (s : FederationSyncController) (fr : FederatedResource) (st : State) :
  let r := ensureDeletion s fr st in
  (value r = StatusAllOK ->
   ¬ hasFinalizer (st_obj (final r)) /\
   (hasFinalizer (st_obj st) ->
    EvUpdate (withoutFinalizer (st_obj st)) None ∈ events r /\
    st_obj (final r) = withoutFinalizer (st_obj st))) /\
  (value r = StatusNeedsRecheck ->
   hasFinalizer (st_obj st) /\ orphanResources (st_obj st) = false /\
   value (deleteFromClusters s fr st) = (true, None) /\
   final r = st /\ Forall (fun e => ¬ isUpdate e) (events r)).
Proof.
  intros r. unfold r.
  destruct (decide (hasFinalizer (st_obj st))) as [Hfin|Hfin].
  2: { rewrite (ensureDeletion_no_finalizer s fr st Hfin), value_eq, final_eq.
       split; [done|]. done. }
  destruct (orphanResources (st_obj st)) eqn:Horph.
  - pose proof (ensureDeletion_orphan s fr st Hfin Horph) as Heq.
    cbv zeta in Heq. rewrite Heq.
    rewrite (removeFinalizer_present s fr st Hfin), value_eq, final_eq, events_eq.
    destruct (hostClusterClient_Update s (withoutFinalizer (st_obj st))) eqn:Hupd;
      rewrite value_eq, ?final_eq, ?events_eq; [done|].
    pose proof (removeManagedLabel_run s (TargetKind fr) (TargetName fr)
                  {| st_obj := withoutFinalizer (st_obj st); st_tick := st_tick st |})
      as Hrun.
    set (u := removeManagedLabel s (TargetKind fr) (TargetName fr)
                {| st_obj := withoutFinalizer (st_obj st); st_tick := st_tick st |})
      in *.
    rewrite (LabelRun_final _ _ _ _ Hrun).
    unfold orphanStatus.
    split; [|by destruct (value u)].
    intros _. split; [apply withoutFinalizer_spec|].
    intros _. split; [|done]. rewrite !elem_of_app. right. right. left. right. by left.
  - rewrite (ensureDeletion_cascade s fr st Hfin Horph), value_eq, final_eq, events_eq.
    pose proof (deleteFromClusters_run s fr st) as Hrun.
    unfold cascadeStatus.
    destruct (value (deleteFromClusters s fr st)) as [recheck [err|]] eqn:Hv;
      simpl; [done|].
    destruct recheck; (split; [|try done]).
    + done.
    + intros _. split; [done|]. split; [done|]. split; [done|].
      destruct (DeleteRun_recheck_kept s fr st _ Hrun Hv) as [Hst Hkept].
      split; [done|].
      rewrite app_nil_r.
      do 3 (apply Forall_cons; split; [by intros []|]). done.
    + intros _.
      destruct (DeleteRun_done s fr st _ Hrun Hv)
        as (Hf & Hrem & cs & ck & _ & _ & _ & Hev).
      rewrite (removeFinalizer_present s fr st Hfin) in Hf, Hrem, Hev.
      rewrite value_eq in Hrem. rewrite final_eq in Hf. rewrite events_eq in Hev.
      rewrite Hf, Hev, Hrem.
      split; [apply withoutFinalizer_spec|]. intros _. split; [|done].
      do 3 right. rewrite !elem_of_app. left. right. right. right. by left.
Qed.

(** ** The branches of [reconcile] on a resolved resource *)

Lemma isSynced_false s st : value (isSynced s st) = false -> ¬ preconditionsMet s.
Proof. intros Hv Hmet. by rewrite (isSynced_met s st Hmet) in Hv. Qed.

(** X2.  [reconcile] returns NeedsRecheck only for a resource that is
    terminating, carries the finalizer and is not to be orphaned, when
    [deleteFromClusters] asked for a recheck; the object is then the one
    the accessor resolved, and nothing was written to the host store. *)
Theorem needs_recheck_only_from_cascade
    (s : FederationSyncController) (qualifiedName : QualifiedName) (st : State) :
  let r := reconcile s qualifiedName st in
  value r = StatusNeedsRecheck ->
  preconditionsMet s /\
  exists fr,
    fedAccessor_FederatedResource s qualifiedName = (Some fr, false, None) /\
    GetDeletionTimestamp (Object fr) <> None /\
    hasFinalizer (Object fr) /\ orphanResources (Object fr) = false /\
    value (deleteFromClusters s fr (withObj st (Object fr))) = (true, None) /\
    final r = withObj st (Object fr) /\
    Forall (fun e => ¬ isUpdate e) (events r).
Proof.
  intros r Hv. unfold r in *.
  destruct (value (isSynced s st)) eqn:Hsync.
  2: { apply isSynced_false in Hsync.
       destruct (reconcile_not_synced s qualifiedName st Hsync) as (t & Heq & _).
       by rewrite Heq in Hv. }
  apply isSynced_true in Hsync as Hmet. split; [done|].
  destruct (fedAccessor_FederatedResource s qualifiedName)
    as [[fedResource possibleOrphan] [err|]] eqn:Hacc.
  { by rewrite (reconcile_accessor_failed s _ st _ _ _ Hmet Hacc) in Hv. }
  destruct possibleOrphan.
  { pose proof (reconcile_possible_orphan s _ st _ Hmet Hacc) as Heq.
    cbv zeta in Heq. rewrite Heq, value_eq in Hv.
    by destruct (value (removeManagedLabel _ _ _ _)). }
  destruct fedResource as [fr|];
    [|by rewrite (reconcile_absent s _ st Hmet Hacc) in Hv].
  destruct (decide (GetDeletionTimestamp (Object fr) <> None)) as [Hts|Hts].
  - pose proof (reconcile_deleting s _ st fr Hmet Hacc Hts) as Heq.
    cbv zeta in Heq. rewrite Heq, value_eq in Hv. rewrite Heq, final_eq, events_eq.
    exists fr.
    destruct (deletion_status_facts s fr (withObj st (Object fr)) Hv)
      as (Hfin & Horph & Hre & Hst & Hkept).
    repeat split; try done.
    rewrite !Forall_app. repeat split; try done; repeat constructor; by intros [].
  - assert (Hlive : GetDeletionTimestamp (Object fr) = None).
    { destruct (GetDeletionTimestamp (Object fr)); [by destruct Hts | done]. }
    pose proof (reconcile_live s _ st fr Hmet Hacc Hlive) as Heq.
    cbv zeta in Heq. rewrite Heq in Hv.
    destruct (value (ensureFinalizer _ _ _)); rewrite value_eq in Hv; [done|].
    destruct (syncToClusters_status s fr
                (final (ensureFinalizer s fr (withObj st (Object fr)))))
      as [Hs | Hs]; rewrite Hs in Hv; done.
Qed.

(** A cascade in progress seen from [reconcile]. *)
Lemma needs_recheck_only_from_cascade_witness :
  exists fr,
    fedAccessor_FederatedResource ex_pending ex_name = (Some fr, false, None) /\
    hasFinalizer (Object fr) /\
    final (reconcile ex_pending ex_name (ex_state ex_live))
      = withObj (ex_state ex_live) (Object fr).
Proof.
  destruct (needs_recheck_only_from_cascade ex_pending ex_name (ex_state ex_live))
    as (_ & fr & Hacc & _ & Hfin & _ & _ & Hst & _).
  { vm_compute. reflexivity. }
  exists fr. split; [exact Hacc|]. split; [exact Hfin | exact Hst].
Defined.

(** X3.  For a resolved resource that is terminating, [reconcile]
    returns what [ensureDeletion] returns on the resolved object, emits
    no event of propagation (no placement, no managed operation, no
    version or status write), and ends with its deferred log. *)
Theorem terminating_resource_is_never_propagated
    (s : FederationSyncController) (qualifiedName : QualifiedName) (st : State)
    (fr : FederatedResource) :
  preconditionsMet s ->
  fedAccessor_FederatedResource s qualifiedName = (Some fr, false, None) ->
  GetDeletionTimestamp (Object fr) <> None ->
  let r := reconcile s qualifiedName st in
  let d := ensureDeletion s fr (withObj st (Object fr)) in
  value r = value d /\ final r = final d /\
  Forall (fun e => ¬ isPropagation e) (events r) /\
  (exists t, events r = EvFederatedResource qualifiedName :: t) /\
  last (events r) = Some (EvLog 4 "Finished reconciling %s %q (duration: %v)").
Proof.
  intros Hmet Hacc Hts r d.
  pose proof (reconcile_deleting s _ st fr Hmet Hacc Hts) as Heq.
  cbv zeta in Heq. fold r d in Heq. rewrite Heq, value_eq, final_eq, events_eq.
  split; [done|]. split; [done|]. split.
  - rewrite !Forall_app. repeat split;
      try (repeat constructor; by intros []).
    apply ensureDeletion_not_propagation.
  - split; [by eexists|]. by rewrite !app_assoc, last_snoc.
Qed.

(** X4.  For a resolved resource that is live, [reconcile] never runs
    the deletion protocol (the versions are kept, nothing goes through
    the unmanaged or check dispatcher).  The only write to the host
    store adds the finalizer, and only when it is missing; when that
    write fails the error is recorded on the resource as
    EnsureFinalizerError and the status is Error with no placement and
    no operation; otherwise the status is that of [syncToClusters]. *)
Theorem live_resource_is_never_torn_down
    (s : FederationSyncController) (qualifiedName : QualifiedName) (st : State)
    (fr : FederatedResource) :
  preconditionsMet s ->
  fedAccessor_FederatedResource s qualifiedName = (Some fr, false, None) ->
  GetDeletionTimestamp (Object fr) = None ->
  let r := reconcile s qualifiedName st in
  Forall (fun e => ¬ isTeardown e) (events r) /\
  (forall obj err,
     EvUpdate obj err ∈ events r ->
     ¬ hasFinalizer (Object fr) /\ obj = withFinalizer (Object fr) /\
     err = hostClusterClient_Update s obj) /\
  (hasFinalizer (Object fr) ->
   value r = value (syncToClusters s fr (withObj st (Object fr)))) /\
  (¬ hasFinalizer (Object fr) ->
   forall err,
     hostClusterClient_Update s (withFinalizer (Object fr)) = Some err ->
     value r = StatusError /\
     EvRecordError "EnsureFinalizerError" (Wrapf err "Failed to ensure finalizer")
       ∈ events r /\
     (EvComputePlacement ∉ events r) /\
     Forall (fun e => ¬ isOperation e) (events r)) /\
  (¬ hasFinalizer (Object fr) ->
   hostClusterClient_Update s (withFinalizer (Object fr)) = None ->
   value r =
     value (syncToClusters s fr (withObj st (withFinalizer (Object fr))))).
Proof.
  intros Hmet Hacc Hts r.
  pose proof (reconcile_live s _ st fr Hmet Hacc Hts) as Heq.
  cbv zeta in Heq. fold r in Heq.
  pose proof (syncToClusters_not_teardown s fr) as Hsync.
  destruct (decide (hasFinalizer (Object fr))) as [Hfin|Hfin].
  - rewrite (ensureFinalizer_present s fr (withObj st (Object fr)) Hfin) in Heq.
    rewrite value_eq, final_eq, events_eq in Heq.
    rewrite Heq, value_eq, events_eq. specialize (Hsync (withObj st (Object fr))).
    split.
    { rewrite !Forall_app. repeat split; try (repeat constructor; by intros []).
      eapply Forall_weaken; [|exact Hsync]. by intros e [? _]. }
    split.
    { intros obj err. rewrite !elem_of_app.
      intros [Hin | [Hin | [Hin | Hin]]].
      - repeat (apply elem_of_cons in Hin as [Hin | Hin]; [done|]).
        by apply elem_of_nil in Hin.
      - by apply elem_of_nil in Hin.
      - rewrite Forall_forall in Hsync. by destruct (Hsync _ Hin) as [_ []].
      - by apply list_elem_of_singleton in Hin. }
    split; [done|]. split; intros Hn; by destruct Hn.
  - rewrite (ensureFinalizer_absent s fr (withObj st (Object fr)) Hfin) in Heq.
    rewrite value_eq, final_eq, events_eq in Heq.
    change (st_obj (withObj st (Object fr))) with (Object fr) in Heq.
    change (withObj (withObj st (Object fr)) (withFinalizer (Object fr)))
      with (withObj st (withFinalizer (Object fr))) in Heq.
    specialize (Hsync (withObj st (withFinalizer (Object fr)))).
    destruct (hostClusterClient_Update s (withFinalizer (Object fr))) as [uerr|] eqn:Hupd;
      rewrite Heq, value_eq, events_eq.
    + split.
      { rewrite !Forall_app. repeat split; repeat constructor; by intros []. }
      split.
      { intros obj err. rewrite !elem_of_app.
        intros [Hin | [Hin | Hin]];
          repeat (apply elem_of_cons in Hin as [Hin | Hin];
                  [try done; injection Hin as -> ->; by rewrite Hupd|]);
          by apply elem_of_nil in Hin. }
      split; [done|]. split; [|done].
      intros _ err [= <-]. split; [done|]. split.
      { rewrite !elem_of_app. right. right. by left. }
      split.
      { rewrite !elem_of_app.
        intros [Hin | [Hin | Hin]];
          repeat (apply elem_of_cons in Hin as [Hin | Hin]; [done|]);
          by apply elem_of_nil in Hin. }
      rewrite !Forall_app. repeat split; repeat constructor; by intros [].
    + split.
      { rewrite !Forall_app. repeat split; try (repeat constructor; by intros []).
        eapply Forall_weaken; [|exact Hsync]. by intros e [? _]. }
      split.
      { intros obj err. rewrite !elem_of_app.
        intros [Hin | [Hin | [Hin | Hin]]].
        - repeat (apply elem_of_cons in Hin as [Hin | Hin]; [done|]).
          by apply elem_of_nil in Hin.
        - repeat (apply elem_of_cons in Hin as [Hin | Hin];
                  [try done; injection Hin as -> ->; by rewrite Hupd|]).
          by apply elem_of_nil in Hin.
        - rewrite Forall_forall in Hsync. by destruct (Hsync _ Hin) as [_ []].
        - by apply list_elem_of_singleton in Hin. }
      split; [done|]. split; [done|]. done.
Qed.

(** The accessor resolves the live resource; no cluster caches a copy. *)
Definition ex_serving : FederationSyncController :=
  ex_controller [ex_cluster "A" true; ex_cluster "B" true] (fun _ => None)
    (Some (ex_resource ex_live), false, None).

Lemma terminating_resource_is_never_propagated_witness :
  value (reconcile ex_pending ex_name (ex_state ex_live)) = StatusNeedsRecheck /\
  Forall (fun e => ¬ isPropagation e)
    (events (reconcile ex_pending ex_name (ex_state ex_live))).
Proof.
  assert (Hmet : preconditionsMet ex_pending).
  { split; [reflexivity|]. split; [reflexivity|].
    exists [ex_cluster "A" true; ex_cluster "B" true]. split; [reflexivity|].
    intros c _. reflexivity. }
  destruct (terminating_resource_is_never_propagated ex_pending ex_name
              (ex_state ex_live) (ex_resource (ex_deleting None)) Hmet eq_refl)
    as (Hv & _ & Hev & _).
  { discriminate. }
  split; [|exact Hev]. rewrite Hv. vm_compute. reflexivity.
Defined.

Lemma live_resource_is_never_torn_down_witness :
  value (reconcile ex_serving ex_name (ex_state ex_live)) = StatusAllOK /\
  Forall (fun e => ¬ isTeardown e)
    (events (reconcile ex_serving ex_name (ex_state ex_live))).
Proof.
  assert (Hmet : preconditionsMet ex_serving).
  { split; [reflexivity|]. split; [reflexivity|].
    exists [ex_cluster "A" true; ex_cluster "B" true]. split; [reflexivity|].
    intros c _. reflexivity. }
  destruct (live_resource_is_never_torn_down ex_serving ex_name
              (ex_state ex_live) (ex_resource ex_live) Hmet eq_refl eq_refl)
    as (Hev & _ & Hv & _).
  split; [|exact Hev].
  rewrite Hv; [vm_compute; reflexivity|]. unfold hasFinalizer. simpl. left.
Defined.

(** ** Failures before the dispatch *)

(** X5.  When the clusters cannot be listed, or placement cannot be
    computed, [syncToClusters] records the failure on the resource and
    goes straight to the status write with the matching reason and an
    empty status map: nothing is dispatched or joined, no version is
    written, and the status returned is that of the status write, AllOK
    when the write goes through. *)
Theorem sync_failure_is_reported_through_status
    (s : FederationSyncController) (fr : FederatedResource) (st : State) :
  (forall clusters err,
     informer_GetClusters s ForSync = (clusters, Some err) ->
     let tail := setPropagationStatus s fr ClusterRetrievalFailed ∅ st in
     let r := syncToClusters s fr st in
     value r = value tail /\ final r = final tail /\
     events r =
       EvRecordError (AggregateReason_string ClusterRetrievalFailed)
         (Wrapf err "Failed to retrieve list of clusters") :: events tail /\
     (EvComputePlacement ∉ events r) /\
     Forall (fun e => ¬ isDecision e) (events r) /\
     (value r = StatusAllOK <-> exists obj, EvUpdateStatus obj None ∈ events r)) /\
  (forall clusters selected err,
     informer_GetClusters s ForSync = (clusters, None) ->
     ComputePlacement fr clusters = (selected, Some err) ->
     let tail := setPropagationStatus s fr ComputePlacementFailed ∅ st in
     let r := syncToClusters s fr st in
     value r = value tail /\ final r = final tail /\
     events r =
       EvComputePlacement ::
       EvRecordError (AggregateReason_string ComputePlacementFailed)
         (Wrapf err "Failed to compute placement") :: events tail /\
     Forall (fun e => ¬ isDecision e) (events r) /\
     (value r = StatusAllOK <-> exists obj, EvUpdateStatus obj None ∈ events r)).
Proof.
  assert (Hwritten : forall reason statusMap,
    let tail := setPropagationStatus s fr reason statusMap st in
    (EvComputePlacement ∉ events tail) /\
    (value tail = StatusAllOK <-> exists obj, EvUpdateStatus obj None ∈ events tail)).
  { intros reason statusMap tail. unfold tail.
    rewrite setPropagationStatus_run, value_eq, events_eq.
    pose proof (PollImmediate_loop_run s reason statusMap
                  (wait_Ticks s (1 * Second) (5 * Second)) st) as Hrun.
    set (p := PollImmediate_loop _ _ _) in *.
    destruct (PollRun_written_iff s reason statusMap _ st p Hrun) as [Hiff _].
    pose proof (PollRun_no_decision s reason statusMap _ st p Hrun) as Hpoll.
    split.
    - intros [Hin | [Hin | Hin]%elem_of_app]%elem_of_cons; [done| |].
      + clear Hiff Hpoll.
        induction Hrun; unfold events in *; simpl in *;
          repeat (apply elem_of_cons in Hin as [Hin | Hin]; [done|]);
          try (by apply elem_of_nil in Hin); auto.
      + destruct (value p); [by apply list_elem_of_singleton in Hin
                            | by apply elem_of_nil in Hin].
    - split.
      + intros Hv. destruct (value p) eqn:Hp; [done|].
        destruct (proj1 Hiff eq_refl) as [obj Hobj]. exists obj.
        right. apply elem_of_app. by left.
      + intros [obj [Hin | [Hin | Hin]%elem_of_app]%elem_of_cons]; [done| |].
        * by rewrite (proj2 Hiff (ex_intro _ obj Hin)).
        * destruct (value p); [by apply list_elem_of_singleton in Hin
                              | by apply elem_of_nil in Hin]. }
  split.
  - intros clusters err Hget tail r.
    pose proof (syncToClusters_run_listing_err s fr st clusters err Hget) as Heq.
    cbv zeta in Heq. fold tail r in Heq. rewrite Heq, value_eq, final_eq, events_eq.
    destruct (Hwritten ClusterRetrievalFailed ∅) as [Hno Hiff]. fold tail in Hno, Hiff.
    split; [done|]. split; [done|]. split; [done|].
    split; [by intros [Hin | Hin]%elem_of_cons|].
    split.
    + apply Forall_cons. split; [by intros []|].
      apply setPropagationStatus_no_decision.
    + rewrite Hiff. split; intros [obj Hin]; exists obj; [by right|].
      by apply elem_of_cons in Hin as [Hin | Hin].
  - intros clusters selected err Hget Hplace tail r.
    pose proof (syncToClusters_run_placement_err s fr st clusters selected err
                  Hget Hplace) as Heq.
    cbv zeta in Heq. fold tail r in Heq. rewrite Heq, value_eq, final_eq, events_eq.
    destruct (Hwritten ComputePlacementFailed ∅) as [_ Hiff]. fold tail in Hiff.
    split; [done|]. split; [done|]. split; [done|].
    split.
    + do 2 (apply Forall_cons; split; [by intros []|]).
      apply setPropagationStatus_no_decision.
    + rewrite Hiff. split; intros [obj Hin]; exists obj; [by do 2 right|].
      by do 2 (apply elem_of_cons in Hin as [Hin | Hin]; [done|]).
Qed.

(** ** Every operation of propagation is justified *)

(** What licenses an operation on the cluster named [n]: what placement
    says of [n] and what the cache holds for it. *)
Definition justified (fr : FederatedResource) (selected : gset string)
    (op : Operation) (n : string) (cached : option Unstructured) : Prop :=
  match op with
  | OpCreate => n ∈ selected /\ cached = None
  | OpUpdate => n ∈ selected /\ is_Some cached
  | OpDelete =>
      (n ∉ selected) /\
      exists obj, cached = Some obj /\ GetDeletionTimestamp obj = None /\
                  IsNamespaceInHostCluster fr obj = false
  | OpRemoveManagedLabel =>
      (n ∉ selected) /\
      exists obj, cached = Some obj /\ GetDeletionTimestamp obj = None /\
                  IsNamespaceInHostCluster fr obj = true
  | OpCheckRemovedOrUnlabeled => False
  end.

Lemma syncEvents_justified s fr selected key clusters k op n :
  EvOperation k op n ∈ clusters ≫= syncEvents s fr selected key ->
  k = ManagedDispatcher /\
  exists c cached,
    c ∈ clusters /\ cluster_Name c = n /\ ready c /\
    targetStore_GetByKey s n key = (cached, None) /\
    justified fr selected op n cached.
Proof.
  intros (c & He & Hc)%list_elem_of_bind.
  unfold syncEvents, syncAction, decisionTable in He.
  destruct (IsClusterReady (cluster_Status c)) eqn:Hr.
  2: { destruct (bool_decide (cluster_Name c ∈ selected)); simpl in He;
         [by apply list_elem_of_singleton in He | by apply elem_of_nil in He]. }
  destruct (targetStore_GetByKey s (cluster_Name c) key) as [cached [err|]] eqn:Hg;
    [by apply list_elem_of_singleton in He|].
  destruct (bool_decide (cluster_Name c ∈ selected)) eqn:Hsel.
  - apply bool_decide_eq_true in Hsel.
    destruct cached as [o|]; simpl in He;
      apply list_elem_of_singleton in He; injection He as -> -> ->;
      (split; [done|]); eexists c, _; (repeat split; try done); by eexists.
  - apply bool_decide_eq_false in Hsel.
    destruct cached as [o|]; simpl in He; [|by apply elem_of_nil in He].
    destruct (bool_decide (GetDeletionTimestamp o <> None)) eqn:Hts; simpl in He;
      [by apply list_elem_of_singleton in He|].
    apply bool_decide_eq_false in Hts.
    assert (Hnone : GetDeletionTimestamp o = None).
    { destruct (GetDeletionTimestamp o); [by destruct Hts | done]. }
    destruct (IsNamespaceInHostCluster fr o) eqn:Hns; simpl in He;
      apply list_elem_of_singleton in He; injection He as -> -> ->;
      (split; [done|]); eexists c, _; (repeat split; try done); by exists o.
Qed.

(** X6.  Every operation [syncToClusters] records goes through the
    managed dispatcher to a ready cluster of the listing whose cache
    answered, and placement and cache license it: Create and Update
    only for a selected cluster (without and with a cached copy), Delete
    and RemoveManagedLabel only for a cluster that is not selected and
    caches a copy that is not terminating (RemoveManagedLabel for the
    companion of the host namespace, Delete otherwise). *)
Theorem propagation_operations_are_justified
    (s : FederationSyncController) (fr : FederatedResource) (st : State)
    (clusters : list KubefedCluster) (selected : gset string) :
  informer_GetClusters s ForSync = (clusters, None) ->
  ComputePlacement fr clusters = (selected, None) ->
  forall k op n,
    EvOperation k op n ∈ events (syncToClusters s fr st) ->
    k = ManagedDispatcher /\
    exists c cached,
      c ∈ clusters /\ cluster_Name c = n /\ ready c /\
      targetStore_GetByKey s n (QualifiedName_String (TargetName fr)) = (cached, None) /\
      justified fr selected op n cached.
Proof.
  intros Hget Hplace k op n.
  pose proof (syncToClusters_run s fr st clusters selected Hget Hplace) as Hrun.
  cbv zeta in Hrun. rewrite Hrun, events_eq, !elem_of_app.
  intros [Hin | [Hin | [Hin | [Hin | [Hin | Hin]]]]].
  - repeat (apply elem_of_cons in Hin as [Hin | Hin]; [done|]).
    by apply elem_of_nil in Hin.
  - by apply syncEvents_justified in Hin.
  - by apply list_elem_of_singleton in Hin.
  - unfold syncTimeoutEvents in Hin. destruct (dispatch_TimedOut s ManagedDispatcher).
    + by apply list_elem_of_singleton in Hin.
    + by apply elem_of_nil in Hin.
  - unfold versionEvents in Hin. apply elem_of_cons in Hin as [Hin | Hin]; [done|].
    destruct (UpdateVersions _ _ _).
    + by apply list_elem_of_singleton in Hin.
    + by apply elem_of_nil in Hin.
  - pose proof (setPropagationStatus_no_operation s fr AggregateSuccess
                  (dispatch_StatusMap s
                     (foldl (syncStep s fr selected
                               (QualifiedName_String (TargetName fr)))
                        NewManagedDispatcher clusters)) st) as Hno.
    rewrite Forall_forall in Hno. by destruct (Hno _ Hin).
Qed.

(** Cluster C is not selected and still caches a copy: it is deleted there. *)
Definition ex_deselected : FederationSyncController :=
  ex_controller [ex_cluster "A" true; ex_cluster "C" true]
    (fun n => if String.eqb n "C" then Some ex_copy else None)
    (Some (ex_resource ex_live), false, None).

Lemma propagation_operations_are_justified_witness :
  EvOperation ManagedDispatcher OpDelete "C"
    ∈ events (syncToClusters ex_deselected (ex_resource ex_live) (ex_state ex_live)) /\
  justified (ex_resource ex_live) {["A"; "B"]} OpDelete "C" (Some ex_copy).
Proof.
  assert (Hin : EvOperation ManagedDispatcher OpDelete "C"
    ∈ events (syncToClusters ex_deselected (ex_resource ex_live) (ex_state ex_live))).
  { assert (Hev : exists l1 l2,
      events (syncToClusters ex_deselected (ex_resource ex_live) (ex_state ex_live)) =
        l1 ++ EvOperation ManagedDispatcher OpDelete "C" :: l2).
    { eexists [_; _; _], _. vm_compute. reflexivity. }
    destruct Hev as (l1 & l2 & ->). apply elem_of_app. right. left. }
  split; [exact Hin|].
  destruct (propagation_operations_are_justified ex_deselected (ex_resource ex_live)
              (ex_state ex_live) [ex_cluster "A" true; ex_cluster "C" true]
              {["A"; "B"]} eq_refl eq_refl _ _ _ Hin)
    as (_ & c & cached & _ & _ & _ & Hcache & Hj).
  injection Hcache as <-. exact Hj.
Defined.

(** ** The deletion round *)

(** X7.  [handleDeletionInClusters] leaves the state untouched and never
    answers ok together with an error.  A failed listing ends it before
    anything is dispatched.  Otherwise the join is always reached, and
    the errors rank: a timeout of the join first, then the ready
    clusters whose cache lookup failed (each logged, all named in the
    error), then the clusters that are not ready (all named). *)
Theorem deletion_round_errors_rank
    {C : Type} (s : FederationSyncController) (h : deletionFunc C)
    (hop : Unstructured -> option Operation) (hcap : string -> Unstructured -> C -> C)
    (kind : string) (qualifiedName : QualifiedName) (cap0 : C) (st : State) :
  handler_spec h hop hcap ->
  let r := handleDeletionInClusters s kind qualifiedName h cap0 st in
  let key := QualifiedName_String qualifiedName in
  final r = st /\
  ((value r).1.2 <> None -> (value r).1.1 = false) /\
  (forall clusters err,
     informer_GetClusters s ForDeletion = (clusters, Some err) ->
     r = ((false, Some (Wrapf err "failed to get a list of clusters"), cap0), st, [])) /\
  (forall clusters,
     informer_GetClusters s ForDeletion = (clusters, None) ->
     last (events r) = Some (EvWait UnmanagedDispatcher) /\
     (dispatch_TimedOut s UnmanagedDispatcher = true ->
      (value r).1.2 = Some (Errorf "Failed to finish %d operations in %v" [])) /\
     (dispatch_TimedOut s UnmanagedDispatcher = false ->
      (exists c, c ∈ clusters /\ retrievalFails s key c) ->
      (value r).1.2 =
        Some (Errorf
          "failed to retrieve a managed resource for the following cluster(s): %s"
          [strings_Join (names (filter (retrievalFails s key) clusters)) ", "])) /\
     (dispatch_TimedOut s UnmanagedDispatcher = false ->
      (forall c, c ∈ clusters -> ¬ retrievalFails s key c) ->
      (exists c, c ∈ clusters /\ ¬ ready c) ->
      (value r).1.2 =
        Some (Errorf "the following clusters were not ready: %s"
          [strings_Join (names (filter (fun c => ¬ ready c) clusters)) ", "])) /\
     (forall c err,
        c ∈ clusters -> ready c ->
        (targetStore_GetByKey s (cluster_Name c) key).2 = Some err ->
        EvHandleError (Wrapf err "failed to retrieve %s %q for cluster %q")
          ∈ events r)).
Proof.
  intros Hh r key.
  destruct (informer_GetClusters s ForDeletion) as [clusters [err|]] eqn:Hget.
  { unfold r.
    rewrite (handleDeletionInClusters_run_err s h kind _ cap0 st clusters err Hget).
    split; [done|]. split; [done|]. split; [|done].
    intros cs e [= <- <-]. done. }
  pose proof (handleDeletionInClusters_run s h hop hcap Hh kind key qualifiedName
                cap0 st clusters eq_refl Hget) as Hrun.
  fold r in Hrun. rewrite Hrun, value_eq, final_eq, events_eq. simpl.
  split; [done|]. split; [apply deletionOutcome_err|]. split; [done|].
  intros cs [= <-]. split; [by rewrite last_snoc|].
  unfold deletionOutcome.
  destruct (dispatch_TimedOut s UnmanagedDispatcher); simpl.
  { split; [done|]. split; [done|]. split; [done|].
    intros c err Hc Hr Herr. apply elem_of_app. left.
    apply list_elem_of_bind. exists c. split; [|done].
    unfold deletionEvents, ready in *. rewrite Hr.
    destruct (targetStore_GetByKey s (cluster_Name c) key) as [raw e].
    simpl in Herr. subst e. destruct raw; by left. }
  split; [done|].
  split; [|split].
  - intros _ (c & Hc & Hf).
    destruct (0 <? length _)%nat eqn:Hlen; [done|].
    apply length_pos_nil in Hlen.
    by destruct (proj1 (names_filter_nil _ _) Hlen c Hc).
  - intros _ Hnone (c & Hc & Hn).
    rewrite (proj2 (names_filter_nil (retrievalFails s key) clusters) Hnone). simpl.
    destruct (0 <? length _)%nat eqn:Hlen; [done|].
    apply length_pos_nil in Hlen.
    by destruct (proj1 (names_filter_nil _ _) Hlen c Hc).
  - intros c err Hc Hr Herr. apply elem_of_app. left.
    apply list_elem_of_bind. exists c. split; [|done].
    unfold deletionEvents, ready in *. rewrite Hr.
    destruct (targetStore_GetByKey s (cluster_Name c) key) as [raw e].
    simpl in Herr. subst e. destruct raw; by left.
Qed.

(** The round of [removeManagedLabel] with cluster B not ready. *)
Lemma deletion_round_errors_rank_witness :
  (value (handleDeletionInClusters ex_lagging "Deployment" ex_name
            removeManagedLabel_func tt (ex_state ex_live))).1.2
    = Some (Errorf "the following clusters were not ready: %s" ["B"]).
Proof.
  destruct (deletion_round_errors_rank ex_lagging removeManagedLabel_func
              unlabelOp (fun _ _ c => c) "Deployment" ex_name tt (ex_state ex_live)
              removeManagedLabel_func_spec) as (_ & _ & _ & Hrun).
  destruct (Hrun [ex_cluster "A" true; ex_cluster "B" false] eq_refl)
    as (_ & _ & _ & Hunready & _).
  rewrite Hunready; [reflexivity | reflexivity | |].
  - intros c _ [_ [e He]]. simpl in He.
    destruct (String.eqb (cluster_Name c) "A"); discriminate He.
  - exists (ex_cluster "B" false). split; [right; left|]. discriminate.
Defined.

(** ** The authoritative check *)

(** The same controller with another target cache. *)
Definition withTargetStore (s : FederationSyncController)
    (synced : string -> bool)
    (getByKey : string -> string -> option Unstructured * option error)
  : FederationSyncController :=
  {| informer_ClustersSynced := informer_ClustersSynced s;
     informer_GetReadyClusters := informer_GetReadyClusters s;
     informer_GetClusters := informer_GetClusters s;
     targetStore_Synced := synced;
     targetStore_GetByKey := getByKey;
     fedAccessor_HasSynced := fedAccessor_HasSynced s;
     fedAccessor_FederatedResource := fedAccessor_FederatedResource s;
     typeConfig_FederatedKind := typeConfig_FederatedKind s;
     typeConfig_TargetKind := typeConfig_TargetKind s;
     hostClusterClient_Update := hostClusterClient_Update s;
     hostClusterClient_UpdateStatus := hostClusterClient_UpdateStatus s;
     hostClusterClient_Get := hostClusterClient_Get s;
     member_OperationOK := member_OperationOK s;
     member_State := member_State s;
     dispatch_TimedOut := dispatch_TimedOut s;
     dispatch_StatusMap := dispatch_StatusMap s;
     dispatch_VersionMap := dispatch_VersionMap s;
     status_SetPropagationStatus := status_SetPropagationStatus s;
     wait_Ticks := wait_Ticks s;
     skipAdoptingResources := skipAdoptingResources s |}.

(** X8.  [ensureRemovedOrUnmanaged] issues one check to each ready
    cluster of its own listing, in order, and then joins; it does not
    consult the target cache, so its answer is the same whatever the
    cache holds.  It answers nil exactly when the join did not time out,
    every listed cluster is ready and every check found the target
    absent or unlabeled; its errors rank timeout, unready clusters
    (all named), failed checks. *)
Theorem authoritative_check_ignores_the_cache
    (s : FederationSyncController) (fr : FederatedResource) (st : State) :
  (forall clusters err,
     informer_GetClusters s ForCheck = (clusters, Some err) ->
     ensureRemovedOrUnmanaged s fr st =
       (Some (Wrapf err "failed to get a list of clusters"), st, [])) /\
  (forall clusters,
     informer_GetClusters s ForCheck = (clusters, None) ->
     let r := ensureRemovedOrUnmanaged s fr st in
     final r = st /\
     events r =
       (checkEvent <$> filter ready clusters) ++ [EvWait CheckUnmanagedDispatcher] /\
     (value r = None <->
      dispatch_TimedOut s CheckUnmanagedDispatcher = false /\
      (forall c, c ∈ clusters -> ready c) /\
      (forall c, c ∈ clusters -> checkConfirms s c)) /\
     (dispatch_TimedOut s CheckUnmanagedDispatcher = true ->
      value r = Some (Errorf "Failed to finish %d operations in %v" [])) /\
     (dispatch_TimedOut s CheckUnmanagedDispatcher = false ->
      (exists c, c ∈ clusters /\ ¬ ready c) ->
      value r =
        Some (Errorf "the following clusters were not ready: %s"
          [strings_Join (names (filter (fun c => ¬ ready c) clusters)) ", "])) /\
     (dispatch_TimedOut s CheckUnmanagedDispatcher = false ->
      (forall c, c ∈ clusters -> ready c) ->
      (exists c, c ∈ clusters /\ checkFails s c) ->
      value r = Some (Errorf "one or more checks failed" []))) /\
  (forall synced getByKey,
     ensureRemovedOrUnmanaged (withTargetStore s synced getByKey) fr st =
     ensureRemovedOrUnmanaged s fr st).
Proof.
  split; [intros clusters err Hget;
          by apply (ensureRemovedOrUnmanaged_run_err s fr st clusters)|].
  split; [|reflexivity].
  intros clusters Hget r. unfold r.
  rewrite (ensureRemovedOrUnmanaged_run s fr st clusters Hget),
    value_eq, final_eq, events_eq.
  split; [done|]. split; [done|].
  split; [apply checkVerdict_None|].
  pose proof (checkVerdict_None s clusters) as Hnone.
  unfold checkVerdict in *.
  destruct (dispatch_TimedOut s CheckUnmanagedDispatcher); [done|].
  split; [done|]. split.
  - intros _ (c & Hc & Hn).
    destruct (0 <? length _)%nat eqn:Hlen; [done|].
    apply length_pos_nil in Hlen.
    by destruct (proj1 (names_filter_nil _ _) Hlen c Hc).
  - intros _ Hready (c & Hc & Hf).
    assert (Hnil : names (filter (fun c => ¬ ready c) clusters) = []).
    { apply names_filter_nil. intros c' Hc' Hn. by apply Hn, Hready. }
    rewrite Hnil in *. simpl in *.
    destruct (forallb _ _); simpl in *; [|done].
    destruct (proj1 Hnone eq_refl) as (_ & _ & Hconf).
    destruct (Hconf c Hc) as [Ha | Ha], Hf as [Hf | Hf]; congruence.
Qed.

(** ** Adding and removing the finalizer *)



(** * Cluster changes *)

(** ** The delays of the controller and the trigger *)

Definition allClustersKey : string := "ALL_CLUSTERS".

Definition Millisecond : Z := 1000000.

(** The time.Duration fields of the controller, in nanoseconds. *)
Record Delays := {
  clusterAvailableDelay : Z;
  clusterUnavailableDelay : Z;
  smallDelay : Z;
  updateTimeout : Z
}.

(** What the controller asks of its deliverer and of its worker; a delay
    stands for time.Now().Add(delay). *)
Inductive Trigger :=
  | TrigEvent (e : Event)
  | TrigDeliverAt (key : string) (delay : Z)
  | TrigEnqueueWithDelay (qualifiedName : QualifiedName) (delay : Z)
  | TrigSetDelay (retryDelay clusterSyncDelay : Z).

(** Modelled from the spec: util.NewQualifiedName is not among the
    sources.  3: a resource is identified by its "qualified name", the
    namespace and the name of the object. *)
Definition NewQualifiedName (obj : Unstructured) : QualifiedName :=
  {| qn_Namespace := GetNamespace obj; qn_Name := GetName obj |}.

(** The delays newFederationSyncController sets from the configuration. *)
Definition newDelays (ClusterAvailableDelay ClusterUnavailableDelay : Z) : Delays :=
  {| clusterAvailableDelay := ClusterAvailableDelay;
     clusterUnavailableDelay := ClusterUnavailableDelay;
     smallDelay := Second * 3;
     updateTimeout := Second * 30 |}.

(** minimizeLatency reduces delays and timeouts to make the controller
    more responsive. *)
Definition minimizeLatency (delays : Delays) : Delays * list Trigger :=
  let delays :=
    {| clusterAvailableDelay := Second;
       clusterUnavailableDelay := Second;
       smallDelay := 20 * Millisecond;
       updateTimeout := 5 * Second |} in
  (delays, [TrigSetDelay (50 * Millisecond) (clusterAvailableDelay delays)]).

(** The function triggers reconciliation of all target federated
    resources; [visited] are the objects fedAccessor.VisitFederatedResources
    hands to its callback, in order. *)
Definition reconcileOnClusterChange (s : FederationSyncController) (delays : Delays)
    (visited : list Unstructured) (st : State) : list Trigger :=
  let synced := isSynced s st in
  (TrigEvent <$> events synced) ++
  (if negb (value synced)
   then [TrigDeliverAt allClustersKey (clusterAvailableDelay delays)]
   else []) ++
  ((fun obj => TrigEnqueueWithDelay (NewQualifiedName obj) (smallDelay delays))
     <$> visited).

Definition isEnqueue (t : Trigger) : bool :=
  match t with TrigEnqueueWithDelay _ _ => true | _ => false end.

(** X10.  On a cluster change every federated resource the accessor
    visits is enqueued once, after the small delay, whether or not the
    stores are synced; nothing else is enqueued.  The trigger is
    delivered again, after the cluster-available delay, exactly when a
    sync precondition is unmet.  Nothing is reconciled or dispatched on
    the spot.  With the delays of newFederationSyncController the
    resources are enqueued after three seconds; after [minimizeLatency]
    the two delays are 20 ms and one second, whatever was configured. *)
Theorem cluster_change_requeues_every_resource
    (s : FederationSyncController) (delays : Delays)
    (visited : list Unstructured) (st : State) :
  let t := reconcileOnClusterChange s delays visited st in
  (forall obj, obj ∈ visited ->
     TrigEnqueueWithDelay (NewQualifiedName obj) (smallDelay delays) ∈ t) /\
  (forall qualifiedName delay,
     TrigEnqueueWithDelay qualifiedName delay ∈ t ->
     delay = smallDelay delays /\
     exists obj, obj ∈ visited /\ qualifiedName = NewQualifiedName obj) /\
  length (List.filter isEnqueue t) = length visited /\
  (forall key delay,
     TrigDeliverAt key delay ∈ t <->
     ¬ preconditionsMet s /\ key = allClustersKey /\
     delay = clusterAvailableDelay delays) /\
  (forall e, TrigEvent e ∈ t -> isDiagnostic e) /\
  (forall available unavailable obj, obj ∈ visited ->
     TrigEnqueueWithDelay (NewQualifiedName obj) 3000000000
       ∈ reconcileOnClusterChange s (newDelays available unavailable) visited st) /\
  (forall obj, obj ∈ visited ->
     TrigEnqueueWithDelay (NewQualifiedName obj) 20000000
       ∈ reconcileOnClusterChange s (minimizeLatency delays).1 visited st) /\
  (¬ preconditionsMet s ->
   TrigDeliverAt allClustersKey 1000000000
     ∈ reconcileOnClusterChange s (minimizeLatency delays).1 visited st).
Proof.
  intros t.
  assert (Hdiag : preconditionsMet s /\ isSynced s st = (true, st, []) \/
                  ¬ preconditionsMet s /\
                  exists l, isSynced s st = (false, st, l) /\ Forall isDiagnostic l).
  { destruct (value (isSynced s st)) eqn:Hv.
    - left. apply isSynced_true in Hv as Hmet. split; [done|]. by apply isSynced_met.
    - right. apply isSynced_false in Hv as Hn. split; [done|].
      by apply isSynced_unmet. }
  assert (Henq : forall d obj, obj ∈ visited ->
            TrigEnqueueWithDelay (NewQualifiedName obj) (smallDelay d)
              ∈ reconcileOnClusterChange s d visited st).
  { intros d obj Hobj. unfold reconcileOnClusterChange.
    rewrite !elem_of_app. do 2 right. apply list_elem_of_fmap. by exists obj. }
  assert (Hdel : forall d, ¬ preconditionsMet s ->
            TrigDeliverAt allClustersKey (clusterAvailableDelay d)
              ∈ reconcileOnClusterChange s d visited st).
  { intros d Hn. unfold reconcileOnClusterChange.
    destruct Hdiag as [[Hmet _] | (_ & l & Heq & _)]; [done|].
    rewrite Heq, value_eq. simpl negb. cbv iota.
    rewrite !elem_of_app. right. left. by left. }
  split; [apply Henq|].
  split.
  { intros qn d. unfold t, reconcileOnClusterChange. rewrite !elem_of_app.
    intros [Hin | [Hin | Hin]].
    - by apply list_elem_of_fmap in Hin as (e & He & _).
    - destruct (negb _); [by apply list_elem_of_singleton in Hin
                         | by apply elem_of_nil in Hin].
    - apply list_elem_of_fmap in Hin as (obj & [= -> ->] & Hobj).
      split; [done|]. by exists obj. }
  split.
  { unfold t, reconcileOnClusterChange. rewrite !List.filter_app, !length_app.
    assert (Hev : forall l : list Event,
              length (List.filter isEnqueue (TrigEvent <$> l)) = 0%nat).
    { induction l as [|e l IH]; [done|]. exact IH. }
    assert (Hvis : forall l : list Unstructured,
              length (List.filter isEnqueue
                ((fun obj => TrigEnqueueWithDelay (NewQualifiedName obj)
                               (smallDelay delays)) <$> l)) = length l).
    { induction l as [|o l IH]; [done|]. simpl. f_equal. exact IH. }
    rewrite Hev, Hvis. by destruct (negb _). }
  split.
  { intros key d. split.
    - unfold t, reconcileOnClusterChange. rewrite !elem_of_app.
      intros [Hin | [Hin | Hin]].
      + by apply list_elem_of_fmap in Hin as (e & He & _).
      + destruct Hdiag as [[_ Heq] | (Hn & l & Heq & _)];
          rewrite Heq, value_eq in Hin; simpl in Hin.
        * by apply elem_of_nil in Hin.
        * apply list_elem_of_singleton in Hin. by injection Hin as -> ->.
      + by apply list_elem_of_fmap in Hin as (obj & He & _).
    - intros (Hn & -> & ->). by apply Hdel. }
  split.
  { intros e. unfold t, reconcileOnClusterChange. rewrite !elem_of_app.
    intros [Hin | [Hin | Hin]].
    - apply list_elem_of_fmap in Hin as (e' & [= <-] & He).
      destruct Hdiag as [[_ Heq] | (_ & l & Heq & Hl)];
        rewrite Heq, events_eq in He.
      + by apply elem_of_nil in He.
      + rewrite Forall_forall in Hl. by apply Hl.
    - destruct (negb _); [by apply list_elem_of_singleton in Hin
                         | by apply elem_of_nil in Hin].
    - by apply list_elem_of_fmap in Hin as (obj & He & _). }
  split.
  { intros available unavailable obj Hobj.
    apply (Henq (newDelays available unavailable) obj Hobj). }
  split.
  - intros obj Hobj. apply (Henq (minimizeLatency delays).1 obj Hobj).
  - intros Hn. apply (Hdel (minimizeLatency delays).1 Hn).
Qed.

(** * More on the cascade and on the status write *)

(** X11.  When the round of [deleteFromClusters] does not succeed (a
    timeout, a cluster that is not ready, a failed cache lookup or a
    failed operation), it returns an error without asking for a
    recheck, the authoritative check is not attempted, and neither the
    object nor the host store is touched, even if no cluster remains.
    A failed listing ends it with no event at all. *)
Theorem failed_round_keeps_the_finalizer
    (s : FederationSyncController) (fr : FederatedResource) (st : State) :
  let r := deleteFromClusters s fr st in
  let key := QualifiedName_String (TargetName fr) in
  (forall clusters err,
     informer_GetClusters s ForDeletion = (clusters, Some err) ->
     r = ((false, Some (Wrapf err "failed to get a list of clusters")), st, [])) /\
  (forall clusters,
     informer_GetClusters s ForDeletion = (clusters, None) ->
     ¬ roundSucceeds s (cascadeOp fr) key clusters ->
     (value r).1 = false /\ (value r).2 <> None /\
     finalizerKept st r /\
     Forall (fun e => ¬ checkRoundEvent e) (events r) /\
     events r = cascadeEvents s fr key clusters).
Proof.
  intros r key.
  pose proof (deleteFromClusters_run s fr st) as Hrun. fold r in Hrun.
  split.
  - intros clusters err Hlist.
    destruct Hrun as [cs e Hget | cs e Hget Hout | cs Hget Hout
      | cs Hget Hout Hrem | cs ck e Hget Hout Hrem Hget2
      | cs ck e Hget Hout Hrem Hget2 Hv | cs ck Hget Hout Hrem Hget2 Hv];
      rewrite Hlist in Hget; congruence.
  - intros clusters Hlist Hfail.
    assert (Hout' : deletionOutcome s (cascadeOp fr) key clusters <> (true, None)).
    { intros Hok. apply Hfail. by apply deletionOutcome_true;
        [apply cascadeOp_no_check|]. }
    assert (Hround : Forall (fun e => ¬ checkRoundEvent e)
                       (cascadeEvents s fr key clusters)).
    { eapply Forall_weaken; [|apply cascadeEvents_round].
      intros e He Hc. destruct e as [| | | | | | |[] [] ?| | |[]| | | | |]; done. }
    destruct Hrun as [cs e Hget | cs e Hget Hout | cs Hget Hout
      | cs Hget Hout Hrem | cs ck e Hget Hout Hrem Hget2
      | cs ck e Hget Hout Hrem Hget2 Hv | cs ck Hget Hout Hrem Hget2 Hv];
      rewrite Hlist in Hget; try done; injection Hget as <-;
      try (by destruct Hout').
    + rewrite value_eq, events_eq. unfold finalizerKept.
      rewrite final_eq, events_eq. repeat split; try done.
      apply cascadeEvents_kept.
    + rewrite value_eq, events_eq. unfold finalizerKept.
      rewrite final_eq, events_eq. repeat split; try done.
      apply cascadeEvents_kept.
Qed.

(** Cluster A refuses the Delete: an error, and no check. *)
Lemma failed_round_keeps_the_finalizer_witness :
  let r := deleteFromClusters ex_refusing (ex_resource (ex_deleting None))
             (ex_state (ex_deleting None)) in
  value r =
    (false,
     Some (Errorf "failed to remove managed resources from one or more clusters." [])) /\
  finalizerKept (ex_state (ex_deleting None)) r.
Proof.
  intros r.
  destruct (failed_round_keeps_the_finalizer ex_refusing
              (ex_resource (ex_deleting None)) (ex_state (ex_deleting None)))
    as [_ Hfail].
  destruct (Hfail [ex_cluster "A" true; ex_cluster "B" true] eq_refl)
    as (_ & _ & Hkept & _).
  { intros (_ & _ & Hops).
    specialize (Hops (ex_cluster "A" true) ex_copy OpDelete).
    discriminate Hops; [left | reflexivity | reflexivity]. }
  split; [vm_compute; reflexivity | exact Hkept].
Defined.




(** X13.  A failure of status.SetPropagationStatus ends the poll of
    [setPropagationStatus] at once: the failing attempt is the last
    one, no write follows it, and the status is Error.  Whenever the
    status is Error, the error was handed to the error handler as the
    last event. *)
Theorem merge_failure_ends_the_poll
    (s : FederationSyncController) (fr : FederatedResource)
    (reason : AggregateReason) (statusMap : PropagationStatusMap) (st : State) :
  let r := setPropagationStatus s fr reason statusMap st in
  (forall obj err,
     EvSetPropagationStatus obj reason statusMap ∈ events r ->
     (status_SetPropagationStatus s obj reason statusMap).2 = Some err ->
     value r = StatusError /\
     exists pre,
       events r =
         pre ++
         [EvSetPropagationStatus obj reason statusMap;
          EvHandleError
            (Wrapf (Wrapf err "failed to set the status")
               "failed to set propagation status for %s %q")]) /\
  (value r = StatusError ->
   exists err,
     last (events r) =
       Some (EvHandleError (Wrapf err "failed to set propagation status for %s %q"))).
Proof.
  intros r. unfold r.
  rewrite setPropagationStatus_run, value_eq, events_eq.
  pose proof (PollImmediate_loop_run s reason statusMap
                (wait_Ticks s (1 * Second) (5 * Second)) st) as Hrun.
  set (p := PollImmediate_loop _ _ _) in *.
  split.
  - intros obj err Hin Hfail.
    assert (Hp : value p = Some (Wrapf err "failed to set the status") /\
                 exists pre, events p = pre ++ [EvSetPropagationStatus obj reason statusMap]).
    { assert (Hin' : EvSetPropagationStatus obj reason statusMap ∈ events p).
      { apply elem_of_cons in Hin as [Hin | [Hin | Hin]%elem_of_app]; [done|done|].
        destruct (value p); [by apply list_elem_of_singleton in Hin
                            | by apply elem_of_nil in Hin]. }
      clear Hin. revert Hin'.
      induction Hrun as [ticks st merged e Hm | ticks st merged Hm Hu
        | ticks st merged e Hm Hu Hc | ticks st merged e fetched gerr Hm Hu Hc Hg
        | st merged e fetched Hm Hu Hc Hg
        | ticks st merged e fetched r0 Hm Hu Hc Hg Hrun IH];
        unfold value, events in *; simpl in *; intros Hin.
      - apply list_elem_of_singleton in Hin. injection Hin as ->.
        rewrite Hm in Hfail. simpl in Hfail. injection Hfail as <-.
        split; [done|]. by exists [].
      - repeat (apply elem_of_cons in Hin as [Hin | Hin];
                [try done; injection Hin as ->; by rewrite Hm in Hfail|]).
        by apply elem_of_nil in Hin.
      - repeat (apply elem_of_cons in Hin as [Hin | Hin];
                [try done; injection Hin as ->; by rewrite Hm in Hfail|]).
        by apply elem_of_nil in Hin.
      - repeat (apply elem_of_cons in Hin as [Hin | Hin];
                [try done; injection Hin as ->; by rewrite Hm in Hfail|]).
        by apply elem_of_nil in Hin.
      - repeat (apply elem_of_cons in Hin as [Hin | Hin];
                [try done; injection Hin as ->; by rewrite Hm in Hfail|]).
        by apply elem_of_nil in Hin.
      - repeat (apply elem_of_cons in Hin as [Hin | Hin];
                [try done; injection Hin as ->; by rewrite Hm in Hfail|]).
        destruct (IH Hin) as (Hv & pre & ->). split; [done|].
        by eexists (_ :: _ :: _ :: _ :: pre). }
    destruct Hp as (Hv & pre & Hev). rewrite Hv, Hev. split; [done|].
    exists (EvPollImmediate 1000000000 5000000000 :: pre).
    by rewrite <- app_assoc.
  - destruct (value p) as [err|]; [|done]. intros _. exists err.
    rewrite app_comm_cons. by rewrite last_snoc.
Qed.
